(** * Parsoid request orchestration: a shallow embedding of [api/routes.js]
      and of the [ParsoidConfig] constructor, with the properties of the
      specification stated and proved over it.

    Layout: JavaScript values and strings; the line diff and the effect
    trace; a model of promises with logical settle times; the timeout
    supervision protocol; the expansion-reuse resolver; the two conversion
    directions; the middleware; round-trip validation; the configuration
    constructor; a sample deployment to run all of it on; the vocabulary of
    the properties; then the lemmas and theorems. *)

From Stdlib Require Import String Ascii List ZArith Lia Bool.
From Stdlib Require Import DecimalString.
From stdpp Require Import gmap strings list.

Set Warnings "-register-all".

Open Scope string_scope.
Open Scope list_scope.

(** ** JavaScript values *)

Module JS.

(** The fragment of JavaScript values the request handlers inspect.
    Numbers are integers here: revision ids, flags and timeouts. *)
Inductive jsval : Type :=
| JUndefined
| JNull
| JBool (b : bool)
| JNum (n : Z)
| JStr (s : string)
| JObj (props : list (string * jsval)).

(** ToBoolean. *)
Definition truthy (v : jsval) : bool :=
  match v with
  | JUndefined | JNull => false
  | JBool b => b
  | JNum n => negb (n =? 0)%Z
  | JStr s => negb (String.eqb s "")
  | JObj _ => true
  end.

(** [a || b] and [a && b] return one of their operands. *)
Definition or (a b : jsval) : jsval := if truthy a then a else b.
Definition and (a b : jsval) : jsval := if truthy a then b else a.

(** [typeof v === 'string'] *)
Definition is_string (v : jsval) : bool :=
  match v with JStr _ => true | _ => false end.

(** [v !== 'lit'] for a string literal. *)
Definition strict_neq_str (v : jsval) (lit : string) : bool :=
  match v with JStr s => negb (String.eqb s lit) | _ => true end.

Definition strict_eq_str (v : jsval) (lit : string) : bool :=
  negb (strict_neq_str v lit).

(** Lookup in an ordered property list: the first binding wins, as keys
    are unique in a JavaScript object. *)
Fixpoint assoc {A : Type} (k : string) (l : list (string * A)) : option A :=
  match l with
  | [] => None
  | (k', v) :: l' => if String.eqb k k' then Some v else assoc k l'
  end.

(** [o[k] = v]: replaces the binding in place, or appends a new one, which
    is the enumeration order of [Object.keys]. *)
Fixpoint assign {A : Type} (k : string) (v : A) (l : list (string * A))
  : list (string * A) :=
  match l with
  | [] => [(k, v)]
  | (k', v') :: l' =>
      if String.eqb k k' then (k, v) :: l' else (k', v') :: assign k v l'
  end.

(** Property read [o.k]. [None] is the [TypeError] of reading a property
    of [undefined] or [null]; a missing property reads [undefined]. *)
Definition get (o : jsval) (k : string) : option jsval :=
  match o with
  | JUndefined | JNull => None
  | JObj props => Some (default JUndefined (assoc k props))
  | _ => Some JUndefined
  end.

(** A guarded read, for the [a && a.k] idiom: falsy values are returned
    as they are. *)
Definition get_guarded (o : jsval) (k : string) : jsval :=
  if truthy o then default JUndefined (get o k) else o.

Definition hasOwnProperty (o : jsval) (k : string) : bool :=
  match o with
  | JObj props => bool_decide (is_Some (assoc k props))
  | _ => false
  end.

(** [Object.assign(target, source)] on property lists. *)
Definition object_assign (target : list (string * jsval)) (source : jsval)
  : list (string * jsval) :=
  match source with
  | JObj props => fold_left (fun acc kv => assign (fst kv) (snd kv) acc) props target
  | _ => target
  end.

Definition Z_to_string (n : Z) : string :=
  NilEmpty.string_of_int (Z.to_int n).

(** ToString on the values that are concatenated into strings here. *)
Definition to_string (v : jsval) : string :=
  match v with
  | JUndefined => "undefined"
  | JNull => "null"
  | JBool true => "true"
  | JBool false => "false"
  | JNum n => Z_to_string n
  | JStr s => s
  | JObj _ => "[object Object]"
  end.

(** [Array.prototype.join]. *)
Fixpoint join (sep : string) (l : list string) : string :=
  match l with
  | [] => ""
  | [x] => x
  | x :: l' => x +:+ sep +:+ join sep l'
  end.

(** [s.substring(a)] and [s.substring(a, b)]: both indices are clamped
    to the length and swapped when out of order. *)
Definition substring (s : string) (a : nat) (b : option nat) : string :=
  let cs := list_ascii_of_string s in
  let len := length cs in
  let a' := a `min` len in
  let b' := match b with Some e => e `min` len | None => len end in
  string_of_list_ascii (take (a' `max` b' - a' `min` b') (drop (a' `min` b') cs)).

End JS.
Import JS.

(** ** Errors, documents and the effect trace *)

(** The error classes that the handlers tell apart: [instanceof
    Promise.TimeoutError] against everything else. [err_stack = None] is
    [err.stack = null]. *)
Inductive error_class : Type := TimeoutErrorClass | ErrorClass | TypeErrorClass.

Record error : Type := mkError {
  err_class : error_class;
  err_message : string;
  err_stack : option string;
  err_code : option nat
}.

(** [new Error(msg)]: the runtime fills in a stack trace. *)
Definition new_Error (msg : string) : error :=
  mkError ErrorClass msg (Some ("Error: " +:+ msg)) None.

Definition new_TimeoutError : error :=
  mkError TimeoutErrorClass "operation timed out"
          (Some "TimeoutError: operation timed out") None.

Definition new_TypeError (msg : string) : error :=
  mkError TypeErrorClass msg (Some ("TypeError: " +:+ msg)) None.

Definition instanceof_TimeoutError (e : error) : bool :=
  match err_class e with TimeoutErrorClass => true | _ => false end.

(** A DOM node as far as the handlers look at it. *)
Inductive node : Type :=
| Element (nodeName : string) (attrs : list (string * string)) (childNodes : list node)
| Text (data : string)
| Comment (data : string).

Record document : Type := mkDocument {
  doc_head : list node;
  doc_body : list node
}.

(** The reusable expansions extracted from a prior rendering: one mapping
    per kind, from expansion key to fragment. A kind may be missing. *)
Record expansions : Type := mkExpansions {
  transclusions : option (gmap string string);
  extensions : option (gmap string string);
  files : option (gmap string string)
}.

(** ** Line-oriented diff *)

Module Diff.

(** Modelled from the spec: [Diff.diffLines] and [Diff.convertChangesToXML]
    are not among the sources. The specification asks for "a line-oriented
    diff between the original source markup and the newly produced markup",
    rendered "as a structured edit script (insert/delete/unchanged runs)".
    The model splits both texts into lines, compares them line by line, and
    gathers the edits into runs; the script stays structured, its XML
    rendering is left out. *)
Inductive edit : Type :=
| Keep (line : string)
| Ins (line : string)
| Del (line : string).

Inductive change : Type :=
| Unchanged (lines : list string)
| Inserted (lines : list string)
| Deleted (lines : list string).

(** The lines of a text, each with its line break. *)
Fixpoint split_lines_from (cur : string) (s : string) : list string :=
  match s with
  | EmptyString => if String.eqb cur "" then [] else [cur]
  | String c s' =>
      if Ascii.eqb c "010"%char
      then (cur +:+ String c EmptyString) :: split_lines_from "" s'
      else split_lines_from (cur +:+ String c EmptyString) s'
  end.

Definition split_lines (s : string) : list string := split_lines_from "" s.

Definition cost (es : list edit) : nat :=
  length (List.filter (fun e => match e with Keep _ => false | _ => true end) es).

(** An edit script from [a] to [b]: equal lines are kept, and of the two
    ways to go on at a difference the cheaper one is taken. *)
Fixpoint line_diff (a b : list string) {struct a} : list edit :=
  match a with
  | [] => map Ins b
  | x :: a' =>
      (fix against (b : list string) {struct b} : list edit :=
         match b with
         | [] => map Del (x :: a')
         | y :: b' =>
             if String.eqb x y then Keep x :: line_diff a' b'
             else
               let d := Del x :: line_diff a' (y :: b') in
               let i := Ins y :: against b' in
               if (cost d <=? cost i)%nat then d else i
         end) b
  end.

(** Consecutive edits of one kind make a run. *)
Definition push (e : edit) (runs : list change) : list change :=
  match e, runs with
  | Keep l, Unchanged ls :: runs' => Unchanged (l :: ls) :: runs'
  | Ins l, Inserted ls :: runs' => Inserted (l :: ls) :: runs'
  | Del l, Deleted ls :: runs' => Deleted (l :: ls) :: runs'
  | Keep l, _ => Unchanged [l] :: runs
  | Ins l, _ => Inserted [l] :: runs
  | Del l, _ => Deleted [l] :: runs
  end.

Definition runs_of (es : list edit) : list change := fold_right push [] es.

Definition diffLines (a b : string) : list change :=
  runs_of (line_diff (split_lines a) (split_lines b)).

Definition is_edit_run (c : change) : bool :=
  match c with
  | Unchanged _ => false
  | Inserted _ | Deleted _ => true
  end.

End Diff.

(** What round-trip validation hands to the response renderer. *)
Record report : Type := mkReport {
  rt_headers : string;
  rt_bodyNodes : string;
  rt_htmlSpeChars : string;
  rt_patch : list Diff.change;
  rt_reqUrl : string
}.

Inductive logarg : Type :=
| LStr (s : string)
| LVal (v : jsval)
| LErr (e : error)
| LCompleted (what : string).

(** Everything a request does that is visible outside the handler. *)
Inductive event : Type :=
| EvLog (level : string) (args : list logarg)
| EvProcessSend (msg : jsval)
| EvSetHeader (name : string) (value : string)
| EvEndResponse (body : string)
| EvJsonResponse (body : jsval)
| EvSendResponse (body : string) (code : nat)
| EvRenderResponse (view : string) (data : report)
| EvRelativeRedirect (path : string) (code : option nat)
| EvTimerTiming (name : string)
| EvTimerCount (name : string)
| EvFetchPageSrc (target : string) (oldid : jsval)
| EvPHPParse (target : string) (wt : string) (onlypst : bool)
| EvCacheRequest (title : string) (cacheID : jsval)
| EvPipelineParse (src : string) (reuse : option expansions)
| EvSerializeDOM (body : list node) (useSelser : bool)
| EvNext.

(** ** Synchronous code: a writer monad over the trace *)

Definition sync (A : Type) : Type := (list event * A)%type.

Definition ret {A : Type} (a : A) : sync A := ([], a).

Definition bind {A B : Type} (m : sync A) (k : A -> sync B) : sync B :=
  let '(e1, a) := m in
  let '(e2, b) := k a in
  (e1 ++ e2, b).

Definition emit (e : event) : sync unit := ([e], tt).

Definition when (b : bool) (m : sync unit) : sync unit :=
  if b then m else ret tt.

Declare Scope sync_scope.
Delimit Scope sync_scope with sync.
Notation "x <- m ;; k" := (bind m (fun x => k))
  (at level 100, m at next level, right associativity) : sync_scope.
Notation "m ;;; k" := (bind m (fun _ => k))
  (at level 100, right associativity) : sync_scope.
Open Scope sync_scope.

(** ** Promises

    A promise is described by what its chain of callbacks does and when:
    the effects of the callbacks, each stamped with the logical time (in
    ms since the handler was entered) at which it runs, in the order in
    which the callbacks run along the chain; and the settlement, [None]
    for a promise that stays pending for ever. *)

Definition time : Type := N.

Inductive settlement (A : Type) : Type :=
| Fulfilled (a : A)
| Rejected (e : error).
Arguments Fulfilled {A} a.
Arguments Rejected {A} e.

Record promise (A : Type) : Type := mkPromise {
  effects : list (time * event);
  outcome : option (time * settlement A)
}.
Arguments mkPromise {A} effects outcome.
Arguments effects {A} p.
Arguments outcome {A} p.

Module Promise.

Definition resolve {A : Type} (a : A) : promise A :=
  mkPromise [] (Some (0%N, Fulfilled a)).

Definition reject {A : Type} (e : error) : promise A :=
  mkPromise [] (Some (0%N, Rejected e)).

(** An asynchronous operation of a collaborator: it performs no effect of
    its own in the trace and settles as the collaborator decides. *)
Definition external {A : Type} (o : option (time * settlement A)) : promise A :=
  mkPromise [] o.

Definition stamp (t : time) (evs : list event) : list (time * event) :=
  map (fun e => (t, e)) evs.

Definition shift (t : time) (evs : list (time * event)) : list (time * event) :=
  map (fun te => ((t + fst te)%N, snd te)) evs.

(** A callback runs at time [t]: its synchronous effects happen at [t],
    and the promise it returns is measured from [t]. *)
Definition run_at {B : Type} (t : time) (before : list (time * event))
  (cb : sync (promise B)) : promise B :=
  let '(evs, q) := cb in
  mkPromise (before ++ stamp t evs ++ shift t (effects q))
            (match outcome q with
             | Some (t', r) => Some ((t + t')%N, r)
             | None => None
             end).

(** [p.then(onFulfilled, onRejected)] *)
Definition then2 {A B : Type} (p : promise A)
  (onFulfilled : A -> sync (promise B))
  (onRejected : error -> sync (promise B)) : promise B :=
  match outcome p with
  | None => mkPromise (effects p) None
  | Some (t, Fulfilled a) => run_at t (effects p) (onFulfilled a)
  | Some (t, Rejected e) => run_at t (effects p) (onRejected e)
  end.

(** [p.then(onFulfilled)] *)
Definition then_ {A B : Type} (p : promise A)
  (onFulfilled : A -> sync (promise B)) : promise B :=
  then2 p onFulfilled (fun e => ret (reject e)).

(** [p.catch(onRejected)] *)
Definition catch {A : Type} (p : promise A)
  (onRejected : error -> sync (promise A)) : promise A :=
  then2 p (fun a => ret (resolve a)) onRejected.

(** [p.timeout(ms)]: the promise is raced against a timer started when
    [timeout] is called. The operation behind [p] is not cancelled, so
    its own effects still happen; only the settlement changes. A tie
    goes to the operation. *)
Definition timeout {A : Type} (ms : time) (p : promise A) : promise A :=
  mkPromise (effects p)
    (match outcome p with
     | Some (t, r) =>
         if (t <=? ms)%N then Some (t, r) else Some (ms, Rejected new_TimeoutError)
     | None => Some (ms, Rejected new_TimeoutError)
     end).

(** A second subscription [p.then(cb, cb)] whose result is dropped: the
    effects of [cb] at the time [p] settles. *)
Definition subscribe {A : Type} (p : promise A) (cb : sync unit)
  : list (time * event) :=
  match outcome p with
  | Some (t, _) => stamp t (fst cb)
  | None => []
  end.

End Promise.

(** The trace of a handler: its synchronous effects, at time 0, followed by
    those of the promise it leaves behind. *)
Definition trace {A : Type} (h : sync (promise A)) : list (time * event) :=
  Promise.stamp 0%N (fst h) ++ effects (snd h).

Definition events {A : Type} (h : sync (promise A)) : list event :=
  map snd (trace h).

(** ** Configuration, environment and request context *)

(** The fields of the service configuration ([parsoidConfig], which is also
    [env.conf.parsoid]) that the routes read. *)
Record parsoid_config : Type := mkConfig {
  timeouts_request : time;
  timeouts_cpu : time;
  useSelser : jsval;
  allowCORS : jsval;
  parsoidCacheURI : jsval;
  performanceTimer : bool;
  defaultWiki : jsval;
  mwApiMap : gmap string string;
  reverseMwApiMap : gmap string jsval
}.

(** [process.version] and [cluster.isMaster]. *)
Record process : Type := mkProcess {
  version : string;
  isMaster : bool
}.

(** The per-request parser environment: the page under conversion and the
    flags the handlers toggle. *)
Record env : Type := mkEnv {
  page_name : string;
  page_src : string;
  page_id : jsval;
  page_dom : option (list node);
  meta_title : string;
  meta_revid : jsval;
  meta_parentid : jsval;
  discardDataParsoid : bool;
  storeDataParsoid : bool;
  scrubWikitext : bool
}.

Definition set_page_id (e : env) (v : jsval) : env :=
  mkEnv (page_name e) (page_src e) v (page_dom e) (meta_title e) (meta_revid e)
        (meta_parentid e) (discardDataParsoid e) (storeDataParsoid e) (scrubWikitext e).

Definition set_page_name (e : env) (n : string) : env :=
  mkEnv n (page_src e) (page_id e) (page_dom e) (meta_title e) (meta_revid e)
        (meta_parentid e) (discardDataParsoid e) (storeDataParsoid e) (scrubWikitext e).

Definition set_page_dom (e : env) (d : list node) : env :=
  mkEnv (page_name e) (page_src e) (page_id e) (Some d) (meta_title e) (meta_revid e)
        (meta_parentid e) (discardDataParsoid e) (storeDataParsoid e) (scrubWikitext e).

Definition set_discardDataParsoid (e : env) (b : bool) : env :=
  mkEnv (page_name e) (page_src e) (page_id e) (page_dom e) (meta_title e) (meta_revid e)
        (meta_parentid e) b (storeDataParsoid e) (scrubWikitext e).

Definition set_scrubWikitext (e : env) (b : bool) : env :=
  mkEnv (page_name e) (page_src e) (page_id e) (page_dom e) (meta_title e) (meta_revid e)
        (meta_parentid e) (discardDataParsoid e) (storeDataParsoid e) b.

(** Modelled from the spec: [env.setPageSrcInfo(src)] of the parser
    environment, which is not among the sources. With a source text it
    adopts the text as the page source ("adopt it as the baseline source
    text"); the page metadata of an earlier fetch is dropped. *)
Definition env_setPageSrcInfo (e : env) (src : jsval) : env :=
  mkEnv (page_name e) (match src with JStr s => s | _ => "" end) (page_id e) None
        (meta_title e) JUndefined JUndefined
        (discardDataParsoid e) (storeDataParsoid e) (scrubWikitext e).

(** What the remote content source answers: the source text with its
    revision metadata. *)
Record page_info : Type := mkPageInfo {
  pi_src : string;
  pi_title : string;
  pi_revid : jsval;
  pi_parentid : jsval
}.

(** Modelled from the spec: what [TemplateRequest.setPageSrcInfo], which is
    not among the sources, leaves in the environment when the content source
    has answered with "{markupText, revisionId, parentRevisionId}". *)
Definition env_setPageInfo (e : env) (pi : page_info) : env :=
  mkEnv (page_name e) (pi_src pi) (page_id e) None
        (pi_title pi) (pi_revid pi) (pi_parentid pi)
        (discardDataParsoid e) (storeDataParsoid e) (scrubWikitext e).

Record request : Type := mkRequest {
  req_method : string;
  req_url : string;
  req_params : list (string * jsval);
  req_query : list (string * jsval);
  req_body : jsval;
  req_headers : list (string * string)
}.

Definition param (req : request) (k : string) : jsval :=
  default JUndefined (assoc k (req_params req)).
Definition query (req : request) (k : string) : jsval :=
  default JUndefined (assoc k (req_query req)).
Definition body_field (req : request) (k : string) : jsval :=
  default JUndefined (get (req_body req) k).
Definition header (req : request) (k : string) : jsval :=
  match assoc k (req_headers req) with Some s => JStr s | None => JUndefined end.

(** The request-local store behind [res.local(name)]. *)
Record locals : Type := mkLocals {
  l_iwp : jsval;
  l_pageName : jsval;
  l_oldid : jsval;
  l_body : bool;
  l_subst : bool;
  l_v2 : jsval;
  l_timeoutId : jsval;
  l_env : env
}.

(** Tokens of the wikitext tokenizer: strings, and tag tokens carrying a
    name and the source range [tsr] they were read from. *)
Inductive token : Type :=
| StringTk (s : string)
| TagTk (name : string) (tsr : nat * nat)
| EndTagTk (name : string) (tsr : nat * nat)
| SelfclosingTagTk (name : string) (tsr : nat * nat)
| CommentTk (text : string)
| NlTk
| EOFTk.

(** [tk.name] and [tk.dataAttribs.tsr] *)
Definition tk_name (tk : token) : option string :=
  match tk with
  | TagTk n _ | EndTagTk n _ | SelfclosingTagTk n _ => Some n
  | _ => None
  end.

Definition tk_tsr (tk : token) : nat * nat :=
  match tk with
  | TagTk _ r | EndTagTk _ r | SelfclosingTagTk _ r => r
  | _ => (0, 0)
  end.

(** The collaborators of the routes, which the specification treats as
    opaque operations. An asynchronous one answers with the time it takes
    and how it settles, or [None] when it never does. *)
Record world : Type := mkWorld {
  PegTokenizer_tokenize : string -> list token;
  TemplateRequest_fetch : string -> jsval -> option (time * settlement page_info);
  PHPParseRequest_promise : string -> string -> bool -> option (time * settlement string);
  ParsoidCacheRequest_promise : string -> jsval -> option (time * settlement string);
  pipelineFactory_parse : env -> string -> option expansions -> option (time * settlement document);
  DU_serializeDOM : env -> list node -> bool -> option (time * settlement string);
  DU_parseHTML : jsval -> document;
  DU_applyDataParsoid : document -> jsval -> document;
  DU_extractExpansions : document -> expansions;
  DU_serializeNode : node -> string;
  DU_serializeDocument : document -> string;
  DU_extractDpAndSerialize : document -> bool -> string * jsval * string;
  domino_createDocument : string -> document;
  outerHTML : document -> string;
  innerHTML : document -> string;
  JSON_parse : string -> option jsval;
  encodeURIComponent : string -> string;
  qs_stringify : list (string * jsval) -> string;
  url_parse_host : string -> string;
  env_resolveTitle : string -> string;
  htmlSpecialChars : string -> string
}.

(** ** Timeouts *)

Section Timeouts.

Variable parsoidConfig : parsoid_config.
Variable proc : process.

Definition REQ_TIMEOUT : time := timeouts_request parsoidConfig.
Definition CPU_TIMEOUT : time := timeouts_cpu parsoidConfig.

Definition with_stack (e : error) (s : option string) : error :=
  mkError (err_class e) (err_message e) s (err_code e).

Definition timeoutResp (err : error) : sync unit :=
  let err :=
    if instanceof_TimeoutError err
    then with_stack (new_Error "Request timed out.") None
    else err in
  emit (EvLog "fatal/request" [LErr err]).

Definition makeDone (timeoutId : jsval) : sync unit :=
  emit (EvProcessSend
          (JObj [("type", JStr "timeout"); ("done", JBool true);
                 ("timeoutId", timeoutId)])).

Definition is_digit_0_8 (c : ascii) : bool :=
  let n := nat_of_ascii c in (48 <=? n)%nat && (n <=? 56)%nat.

(** [!/^v0\.[0-8]\./.test(process.version)] *)
Definition sufficientNodeVersion : bool :=
  negb
    match version proc with
    | String "v" (String "0" (String "." (String c (String "." _)))) =>
        is_digit_0_8 c
    | _ => false
    end.

(** [util.format("[%s/%s%s]", iwp, pageName, oldid ? "?oldid=" + oldid : "")] *)
Definition location_of (res : locals) : string :=
  "[" +:+ to_string (l_iwp res) +:+ "/" +:+ to_string (l_pageName res)
      +:+ (if truthy (l_oldid res) then "?oldid=" +:+ to_string (l_oldid res) else "")
      +:+ "]".

Definition cpuTimeout {A : Type} (p : promise A) (res : locals) : sync (promise A) :=
  let timeoutId := l_timeoutId res in
  let location := location_of res in
  (* the resolvers of the promise under construction *)
  let resolve := fun a : A => ret (Promise.resolve a) in
  let reject := fun e : error => ret (@Promise.reject A e) in
  if isMaster proc || negb sufficientNodeVersion
  then ret (Promise.then2 p resolve reject)
  else
    emit (EvProcessSend
            (JObj [("type", JStr "timeout"); ("timeout", JNum (Z.of_N CPU_TIMEOUT));
                   ("timeoutId", timeoutId); ("location", JStr location)])) ;;;
    let done := makeDone timeoutId in
    let p := mkPromise (effects p ++ Promise.subscribe p done) (outcome p) in
    ret (Promise.then2 p resolve reject).

(** [.catch(timeoutResp.bind(null, env))] *)
Definition catch_timeoutResp {A : Type} (p : promise A) : promise unit :=
  Promise.then2 p (fun _ => ret (Promise.resolve tt))
                  (fun e => timeoutResp e ;;; ret (Promise.resolve tt)).

(** [env.log("info", "completed %s in %s ms")]: the elapsed time is the
    stamp of the event. *)
Definition logTime (str : string) : sync unit :=
  emit (EvLog "info" [LCompleted str]).

End Timeouts.

(** ** Helpers of the routes *)

Definition setHeader (name value : string) : sync unit := emit (EvSetHeader name value).

(** [o.k] where [o] is known not to be [undefined] or [null]. *)
Definition prop (o : jsval) (k : string) : jsval := default JUndefined (get o k).

Definition throw_TypeError {A : Type} (what : string) : sync (promise A) :=
  ret (Promise.reject (new_TypeError ("Cannot read property '" +:+ what +:+ "' of undefined"))).

(** ** Reuse of expansions and the parse operation *)

(** The [ret] object of [parse]: the expansions of the prior rendering and,
    when known, the kind that was edited. *)
Record reuse : Type := mkReuse {
  ret_expansions : expansions;
  ret_mode : jsval
}.

(** [kinds.some(function(m) { if (update[m]) { ret.mode = m; return true; } })] *)
Fixpoint some_set_mode (update : jsval) (kinds : list string) (r : reuse) : reuse :=
  match kinds with
  | [] => r
  | m :: kinds' =>
      if truthy (prop update m)
      then mkReuse (ret_expansions r) (JStr m)
      else some_set_mode update kinds' r
  end.

(** The [switch (ret.mode)] of [parse], under [if (ret)]. *)
Definition figure_out_reuse (r : option reuse) : option reuse :=
  match r with
  | Some r =>
      let exps := ret_expansions r in
      if strict_eq_str (ret_mode r) "templates"
      then Some (mkReuse (mkExpansions (Some ∅) (extensions exps) (files exps)) (ret_mode r))
      else if strict_eq_str (ret_mode r) "files"
      then Some (mkReuse (mkExpansions (transclusions exps) (extensions exps) (Some ∅)) (ret_mode r))
      else Some r
  | None => None
  end.

Section Parse.

Variable W : world.
Variable parsoidConfig : parsoid_config.

(** The first branch of [parse]: expansions of an explicit prior payload. *)
Definition reuse_from_revision (v2 : jsval) : sync (promise (option reuse)) :=
  let revision := or (prop v2 "previous") (prop v2 "original") in
  match get (prop revision "html") "body" with
  | None => throw_TypeError "body"
  | Some html =>
      let doc := DU_parseHTML W html in
      match get (prop revision "data-parsoid") "body" with
      | None => throw_TypeError "body"
      | Some dp =>
          let doc := DU_applyDataParsoid W doc dp in
          let r := mkReuse (DU_extractExpansions W doc) JUndefined in
          let r :=
            if truthy (prop v2 "update")
            then some_set_mode (prop v2 "update") ["templates"; "files"] r
            else r in
          ret (Promise.resolve (Some r))
      end
  end.

(** The second branch: a lookup in the remote rendering cache. *)
Definition reuse_from_cache (e : env) (req : request) : sync (promise (option reuse)) :=
  match (if truthy (header req "x-parsoid")
         then JSON_parse W (to_string (header req "x-parsoid"))
         else Some (JObj [])) with
  | None => ret (Promise.reject (mkError ErrorClass "Unexpected token" (Some "SyntaxError") None))
  | Some parsoidHeader =>
      match get parsoidHeader "cacheID" with
      | None => throw_TypeError "cacheID"
      | Some cacheIDh =>
          let cacheID := or cacheIDh (meta_parentid e) in
          emit (EvCacheRequest (meta_title e) cacheID) ;;;
          ret (Promise.then2
                 (Promise.external (ParsoidCacheRequest_promise W (meta_title e) cacheID))
                 (fun src =>
                    let r := mkReuse (DU_extractExpansions W (DU_parseHTML W (JStr src)))
                                     JUndefined in
                    let r :=
                      if truthy (prop parsoidHeader "cacheID")
                      then mkReuse (ret_expansions r) (prop parsoidHeader "mode")
                      else r in
                    ret (Promise.resolve (Some r)))
                 (fun err => ret (Promise.resolve None)))
      end
  end.

Definition parse (e : env) (req : request) (res : locals) : sync (promise document) :=
  emit (EvLog "info" [LStr "started parsing"]) ;;;
  let v2 := l_v2 res in
  let p := Promise.resolve (@None reuse) in
  let p :=
    if truthy v2 && truthy (or (prop v2 "previous") (prop v2 "original"))
    then Promise.then_ p (fun _ => reuse_from_revision v2)
    else if truthy (parsoidCacheURI parsoidConfig)
            && negb (truthy (header req "x-parsoid-request"))
    then Promise.then_ p (fun _ => reuse_from_cache e req)
    else p in
  ret (Promise.then_ p (fun r =>
    let r := figure_out_reuse r in
    let exps := option_map ret_expansions r in
    emit (EvPipelineParse (page_src e) exps) ;;;
    ret (Promise.external (pipelineFactory_parse W e (page_src e) exps)))).

(** ** Rendered document to markup *)

Definition wikitext_contentType : string :=
  "text/plain;profile=mediawiki.org/specs/wikitext/1.0.0;charset=utf-8".

(** [hasOldId && parsoidConfig.useSelser], with
    [hasOldId = (env.page.id && env.page.id !== '0')]. *)
Definition html2wt_useSelser (e : env) : jsval :=
  let hasOldId := and (page_id e) (JBool (strict_neq_str (page_id e) "0")) in
  and hasOldId (useSelser parsoidConfig).

Variable proc : process.

(** The page environment and the document that [html2wt] has built when it
    calls the serializer: the revision id, the baseline source text, and the
    baseline document with its annotations re-attached. *)
Definition html2wt_env (res : locals) : env :=
  let e := l_env res in
  let v2 := l_v2 res in
  let e := set_page_id e (l_oldid res) in
  let original := get_guarded v2 "original" in
  let e :=
    if truthy (get_guarded original "wikitext")
    then env_setPageSrcInfo e (prop (prop original "wikitext") "body")
    else e in
  if truthy (get_guarded original "html")
  then
    let odoc := DU_parseHTML W (prop (prop original "html") "body") in
    let odoc :=
      if truthy (prop original "data-parsoid")
      then DU_applyDataParsoid W odoc (prop (prop original "data-parsoid") "body")
      else odoc in
    set_page_dom e (doc_body odoc)
  else e.

Definition html2wt_doc (res : locals) (html : jsval) : document :=
  let original := get_guarded (l_v2 res) "original" in
  let doc := DU_parseHTML W html in
  if truthy (get_guarded original "data-parsoid")
  then DU_applyDataParsoid W doc (prop (prop original "data-parsoid") "body")
  else doc.

(** What the continuation of the serializer does with its output. *)
Definition html2wt_respond (res : locals) (output : string) : sync (promise unit) :=
  let timer := performanceTimer parsoidConfig in
  (if truthy (l_v2 res)
   then emit (EvJsonResponse
                (JObj [("wikitext",
                        JObj [("headers", JObj [("content-type", JStr wikitext_contentType)]);
                              ("body", JStr output)])]))
   else setHeader "content-type" wikitext_contentType ;;;
        emit (EvEndResponse output)) ;;;
  when timer (emit (EvTimerTiming "html2wt.total") ;;;
              emit (EvTimerTiming "html2wt.size.output")) ;;;
  logTime "serializing" ;;;
  ret (Promise.resolve tt).

Definition html2wt (req : request) (res : locals) (html : jsval) : sync (promise unit) :=
  let timer := performanceTimer parsoidConfig in
  emit (EvLog "info" [LStr "started serializing"]) ;;;
  when (truthy (allowCORS parsoidConfig))
       (setHeader "Access-Control-Allow-Origin" (to_string (allowCORS parsoidConfig))) ;;;
  when timer (emit (EvTimerTiming "html2wt.init.domparse") ;;;
              emit (EvTimerTiming "html2wt.size.input") ;;;
              emit (EvTimerTiming "html2wt.init")) ;;;
  let e := html2wt_env res in
  let doc := html2wt_doc res html in
  let useSelser := html2wt_useSelser e in
  emit (EvSerializeDOM (doc_body doc) (truthy useSelser)) ;;;
  let p := Promise.external (DU_serializeDOM W e (doc_body doc) (truthy useSelser)) in
  let p := Promise.timeout (REQ_TIMEOUT parsoidConfig) p in
  let p := Promise.then_ p (html2wt_respond res) in
  p <- cpuTimeout parsoidConfig proc p res ;;
  ret (catch_timeoutResp p).

End Parse.

(** ** Markup to rendered document *)

(** The variables of [wt2html] that its inner functions assign to, threaded
    along the promise chain. *)
Record closure : Type := mkClosure {
  c_env : env;
  c_wt : jsval;
  c_oldid : jsval;
  c_startTimers : list string
}.

Definition with_env (c : closure) (e : env) : closure :=
  mkClosure e (c_wt c) (c_oldid c) (c_startTimers c).
Definition with_wt (c : closure) (wt : jsval) : closure :=
  mkClosure (c_env c) wt (c_oldid c) (c_startTimers c).
Definition with_oldid (c : closure) (oldid : jsval) : closure :=
  mkClosure (c_env c) (c_wt c) oldid (c_startTimers c).
Definition startTimers_set (c : closure) (k : string) : closure :=
  mkClosure (c_env c) (c_wt c) (c_oldid c) (k :: c_startTimers c).
Definition startTimers_has (c : closure) (k : string) : bool :=
  existsb (String.eqb k) (c_startTimers c).

Definition no_cache : string := "private,no-cache,s-maxage=0".

(** An array element under [join]: [undefined] and [null] print empty. *)
Definition join_item (v : jsval) : string :=
  match v with JUndefined | JNull => "" | _ => to_string v end.

(** The loop of [substTopLevelTemplates]: every token named [template] has
    the two characters at its (shifted) start replaced by ['{{subst:']. *)
Fixpoint subst_loop (tokens : list token) (wt : string) (tsrIncr : nat) : string :=
  match tokens with
  | [] => wt
  | tk :: tokens' =>
      if bool_decide (tk_name tk = Some "template")
      then
        let tsr := tk_tsr tk in
        let wt := substring wt 0 (Some (fst tsr + tsrIncr))
                  +:+ "{{subst:"
                  +:+ substring wt (fst tsr + tsrIncr + 2) None in
        subst_loop tokens' wt (tsrIncr + 6)
      else subst_loop tokens' wt tsrIncr
  end.

Section Wt2html.

Variable W : world.
Variable parsoidConfig : parsoid_config.
Variable proc : process.

(** [TemplateRequest.setPageSrcInfo(env, target, oldid)]: the remote fetch,
    whose answer becomes the page of the environment. *)
Definition TemplateRequest_setPageSrcInfo (e : env) (target : string) (oldid : jsval)
  : sync (promise env) :=
  emit (EvFetchPageSrc target oldid) ;;;
  ret (Promise.then_ (Promise.external (TemplateRequest_fetch W target oldid))
         (fun pi => ret (Promise.resolve (env_setPageInfo e pi)))).

Section Handlers.

Variable req : request.
Variable res : locals.

Let timer : bool := performanceTimer parsoidConfig.
Let prefix : jsval := l_iwp res.
Let v2 : jsval := l_v2 res.
Let target : string := env_resolveTitle W (page_name (l_env res)).

Definition html_contentType : string :=
  "text/html;profile=mediawiki.org/specs/html/1.0.0;charset=utf-8".

Definition sendRes (cd : closure * document) : sync (promise unit) :=
  let '(c, doc) := cd in
  (if truthy v2 && strict_eq_str (prop v2 "format") "pagebundle"
   then
     let '(str, dp, type) := DU_extractDpAndSerialize W doc (l_body res) in
     emit (EvJsonResponse
             (JObj [("html",
                     JObj [("headers", JObj [("content-type", JStr html_contentType)]);
                           ("body", JStr str)]);
                    ("data-parsoid",
                     JObj [("headers", JObj [("content-type", JStr type)]);
                           ("body", dp)])]))
   else
     let output :=
       if l_body res
       then DU_serializeNode W (Element "body" [] (doc_body doc))
       else DU_serializeDocument W doc in
     setHeader "content-type" html_contentType ;;;
     emit (EvEndResponse output)) ;;;
  when timer
    ((if startTimers_has c "wt2html.wt.parse"
      then emit (EvTimerTiming "wt2html.wt.parse") ;;;
           emit (EvTimerTiming "wt2html.wt.size.output")
      else if startTimers_has c "wt2html.pageWithOldid.parse"
      then emit (EvTimerTiming "wt2html.pageWithOldid.parse") ;;;
           emit (EvTimerTiming "wt2html.pageWithOldid.size.output")
      else ret tt) ;;;
     emit (EvTimerTiming "wt2html.total")) ;;;
  logTime "parsing" ;;;
  ret (Promise.resolve tt).

Definition parseWt (c : closure) : sync (promise (closure * document)) :=
  let wt := c_wt c in
  emit (EvLog "info" [LStr "started parsing"]) ;;;
  let e := env_setPageSrcInfo (c_env c) wt in
  setHeader "Cache-Control" no_cache ;;;
  when timer (emit (EvTimerTiming "wt2html.wt.init") ;;;
              emit (EvTimerTiming "wt2html.wt.size.input")) ;;;
  let c := if timer then startTimers_set c "wt2html.wt.parse" else c in
  let e := if truthy (l_pageName res) then e else set_page_name e "" in
  let c := with_env c e in
  emit (EvPipelineParse (to_string wt) None) ;;;
  ret (Promise.then_ (Promise.external (pipelineFactory_parse W e (to_string wt) None))
         (fun doc => ret (Promise.resolve (c, doc)))).

Definition parsePageWithOldid (c : closure) : sync (promise (closure * document)) :=
  when timer (emit (EvTimerTiming "wt2html.pageWithOldid.init") ;;;
              emit (EvTimerTiming "wt2html.pageWithOldid.size.input")) ;;;
  let c := if timer then startTimers_set c "wt2html.pageWithOldid.parse" else c in
  p <- parse W parsoidConfig (c_env c) req res ;;
  ret (Promise.then_ p (fun doc =>
    (if truthy (or (header req "cookie") v2)
     then setHeader "Cache-Control" no_cache
     else setHeader "Cache-Control" "s-maxage=2592000") ;;;
    setHeader "content-revision-id" (to_string (c_oldid c)) ;;;
    ret (Promise.resolve (c, doc)))).

(** The path [redirectToOldid] builds, once [oldid] is the fetched
    revision id; [None] when the lookup of the wiki's API entry throws. *)
Definition redirect_path (oldid : jsval) : option string :=
  let with_query (path : string) (q : list (string * jsval)) : string :=
    if (0 <? length q)%nat then path +:+ "?" +:+ qs_stringify W q else path in
  if truthy v2
  then
    match (match prefix with JStr s => mwApiMap parsoidConfig !! s | _ => None end) with
    | None => None
    | Some uri =>
        Some (with_query
                ("/" +:+ join "/" ["v2"; url_parse_host W uri; join_item (prop v2 "format");
                                   encodeURIComponent W target; join_item oldid])
                (req_query req))
    end
  else
    Some (with_query
            ("/" +:+ join "/" [join_item prefix; encodeURIComponent W target])
            (assign "oldid" oldid (req_query req))).

Definition redirectToOldid (c : closure) : sync (promise unit) :=
  setHeader "Cache-Control" no_cache ;;;
  let oldid := meta_revid (c_env c) in
  emit (EvLog "info" [LStr "redirecting to revision"; LVal oldid]) ;;;
  when timer (emit (EvTimerCount "wt2html.redirectToOldid")) ;;;
  match redirect_path oldid with
  | None => throw_TypeError "uri"
  | Some path =>
      emit (EvRelativeRedirect path None) ;;;
      ret (Promise.resolve tt)
  end.

Definition substTopLevelTemplates (wt : string) (p : promise closure)
  : sync (promise closure) :=
  let tokens := PegTokenizer_tokenize W wt in
  let wt := subst_loop tokens wt 0 in
  let p := Promise.then_ p (fun c =>
    emit (EvPHPParse target wt true) ;;;
    ret (Promise.then_ (Promise.external (PHPParseRequest_promise W target wt true))
           (fun text => ret (Promise.resolve (c, text))))) in
  ret (Promise.then_ p (fun ct =>
    let '(c, text) := ct in
    let c := with_wt c (JStr text) in
    let c := with_env c (set_discardDataParsoid (c_env c) true) in
    ret (Promise.resolve c))).

(** The first decision of [wt2html]: fetch the page, or start from what the
    request brought. *)
Definition page_source (wt : jsval) : sync (promise closure) :=
  let e := l_env res in
  let oldid := l_oldid res in
  let c := mkClosure e wt oldid
             (if timer then ["wt2html.total"; "wt2html.init"] else []) in
  if truthy oldid || negb (is_string wt)
  then
    p <- TemplateRequest_setPageSrcInfo e target oldid ;;
    ret (Promise.then_ p (fun e' => ret (Promise.resolve (with_env c e'))))
  else ret (Promise.resolve c).

(** The second decision: parse the given markup, parse the fetched
    revision, or redirect to the latest revision. *)
Definition conversion (wt : jsval) (p : promise closure) : sync (promise unit) :=
  let oldid := l_oldid res in
  if is_string wt
  then
    p <- (if l_subst res then substTopLevelTemplates (to_string wt) p else ret p) ;;
    ret (Promise.then_
           (Promise.timeout (REQ_TIMEOUT parsoidConfig) (Promise.then_ p parseWt))
           sendRes)
  else if truthy oldid
  then
    ret (Promise.then_
           (Promise.timeout (REQ_TIMEOUT parsoidConfig)
              (Promise.then_ p parsePageWithOldid))
           sendRes)
  else ret (Promise.then_ p redirectToOldid).

Definition wt2html (wt : jsval) : sync (promise unit) :=
  when (truthy (allowCORS parsoidConfig))
       (setHeader "Access-Control-Allow-Origin" (to_string (allowCORS parsoidConfig))) ;;;
  p <- page_source wt ;;
  p <- conversion wt p ;;
  p <- cpuTimeout parsoidConfig proc p res ;;
  ret (catch_timeoutResp p).

End Handlers.

End Wt2html.

(** ** Middleware and routes *)

Section Routes.

Variable W : world.
Variable parsoidConfig : parsoid_config.
Variable proc : process.

(** [!!(req.query.k || req.body.k)] *)
Definition flag (req : request) (k : string) : bool :=
  truthy (or (query req k) (body_field req k)).

Definition interParams (req : request) (res : locals) : sync locals :=
  let res := mkLocals (or (or (param req "0") (defaultWiki parsoidConfig)) (JStr ""))
                      (or (param req "1") (JStr ""))
                      (or (or (body_field req "oldid") (query req "oldid")) JNull)
                      (flag req "body")
                      (flag req "subst")
                      (l_v2 res) (l_timeoutId res) (l_env res) in
  emit EvNext ;;;
  ret res.

Definition wt2htmlFormats : list string := ["pagebundle"; "html"].
Definition supportedFormats : list string := ["pagebundle"; "html"; "wt"].

(** [set.has(v)] for a set of strings. *)
Definition set_has (set : list string) (v : jsval) : bool :=
  match v with
  | JStr s => existsb (String.eqb s) set
  | _ => false
  end.

(** [map.get(k)] for a map with string keys. *)
Definition map_get {A : Type} (m : gmap string A) (k : jsval) : option A :=
  match k with
  | JStr s => m !! s
  | _ => None
  end.

(** [errOut(err, code)] of the middleware: [code || 404]. *)
Definition errOut (err : string) (code : option nat) : sync unit :=
  emit (EvSendResponse err (match code with Some 0 | None => 404 | Some c => c end)).

Definition v2Middle (req : request) (res : locals) : sync locals :=
  let iwp := default JUndefined (map_get (reverseMwApiMap parsoidConfig) (param req "domain")) in
  if negb (truthy iwp)
  then errOut "Invalid domain." None ;;; ret res
  else
    let res := mkLocals iwp (or (param req "title") (JStr ""))
                        (or (param req "revision") JNull)
                        (flag req "body")
                        (l_subst res) (l_v2 res) (l_timeoutId res) (l_env res) in
    let v2 := JObj (object_assign [("format", param req "format")] (req_body req)) in
    if negb (set_has supportedFormats (prop v2 "format"))
       || (String.eqb (req_method req) "GET"
           && negb (set_has wt2htmlFormats (prop v2 "format")))
    then errOut "Invalid format." None ;;; ret res
    else
      let res := mkLocals (l_iwp res) (l_pageName res) (l_oldid res) (l_body res)
                          (flag req "subst")
                          (l_v2 res) (l_timeoutId res) (l_env res) in
      if l_subst res && strict_neq_str (prop v2 "format") "html"
      then errOut "Substitution is only supported for the HTML format." (Some 501) ;;; ret res
      else
        let res :=
          if String.eqb (req_method req) "POST"
          then
            let original := or (prop v2 "original") (JObj []) in
            let oldid := if truthy (prop original "revid")
                         then prop original "revid" else l_oldid res in
            let pageName := if truthy (prop original "title")
                            then prop original "title" else l_pageName res in
            mkLocals (l_iwp res) pageName oldid (l_body res) (l_subst res)
                     (l_v2 res) (l_timeoutId res) (l_env res)
          else res in
        let res := mkLocals (l_iwp res) (l_pageName res) (l_oldid res) (l_body res)
                            (l_subst res) v2 (l_timeoutId res) (l_env res) in
        emit EvNext ;;;
        ret res.

Definition getArticle (req : request) (res : locals) : sync (promise unit) :=
  wt2html W parsoidConfig proc req res JUndefined.

Definition postArticle (req : request) (res : locals) : sync (promise unit) :=
  if truthy (body_field req "wt")
  then wt2html W parsoidConfig proc req res (body_field req "wt")
  else html2wt W parsoidConfig proc req res
         (or (or (body_field req "html") (body_field req "content")) (JStr "")).

Definition v2Get (req : request) (res : locals) : sync (promise unit) :=
  wt2html W parsoidConfig proc req res JUndefined.

Definition v2Post (req : request) (res : locals) : sync (promise unit) :=
  let v2 := l_v2 res in
  if set_has wt2htmlFormats (prop v2 "format")
  then
    let wikitext :=
      if truthy (prop v2 "wikitext") && negb (is_string (prop v2 "wikitext"))
      then prop (prop v2 "wikitext") "body"
      else prop v2 "wikitext" in
    if negb (is_string wikitext) && negb (truthy (l_pageName res))
    then emit (EvSendResponse "No title or wikitext was provided." 400) ;;;
         ret (Promise.resolve tt)
    else
      let wikitext :=
        if negb (is_string wikitext)
           && truthy (get_guarded (prop v2 "original") "wikitext")
        then prop (prop (prop v2 "original") "wikitext") "body"
        else wikitext in
      wt2html W parsoidConfig proc req res wikitext
  else
    match prop v2 "html" with
    | JUndefined =>
        emit (EvSendResponse "No html was supplied." 400) ;;;
        ret (Promise.resolve tt)
    | JNull => throw_TypeError "body"
    | html =>
        html2wt W parsoidConfig proc req res
          (if is_string html then html else or (prop html "body") (JStr ""))
    end.

End Routes.

(** ** Pre-substitution, as the specification words it

    The edits are computed against the offsets of the original text: the
    marker goes right after the two characters of each opening delimiter,
    and the text between insertion points is copied as it is. [off] is the
    offset in the original text at which [wt] starts. *)

Definition subst_marker : list ascii := list_ascii_of_string "subst:".

Fixpoint insert_markers_from (off : nat) (starts : list nat) (wt : list ascii)
  : list ascii :=
  match starts with
  | [] => wt
  | p :: starts' =>
      take (p + 2 - off) wt ++ subst_marker
        ++ insert_markers_from (p + 2) starts' (drop (p + 2 - off) wt)
  end.

Definition insert_markers (starts : list nat) (wt : string) : string :=
  string_of_list_ascii (insert_markers_from 0 starts (list_ascii_of_string wt)).

(** The start offsets of the tokens named [template], in token order. *)
Definition template_starts (tokens : list token) : list nat :=
  map (fun tk => fst (tk_tsr tk))
      (List.filter (fun tk => bool_decide (tk_name tk = Some "template")) tokens).

(** What the tokenizer guarantees of the template tokens it returns: each
    starts, at or after the end of the opening delimiter of the one before,
    on an opening delimiter of the text. *)
Fixpoint well_placed (off : nat) (starts : list nat) (wt : list ascii) : Prop :=
  match starts with
  | [] => True
  | p :: starts' =>
      off <= p /\ take 2 (drop p wt) = list_ascii_of_string "{{"
      /\ well_placed (p + 2) starts' wt
  end.

(** ** Round-trip validation *)

Definition selser_marker : string := "<!--rtSelserEditTestComment-->".

Fixpoint all_newlines (s : string) : bool :=
  match s with
  | EmptyString => true
  | String c s' => Ascii.eqb c "010"%char && all_newlines s'
  end.

(** [s] is the marker comment followed by line breaks only. *)
Definition is_marker_tail (s : string) : bool :=
  String.prefix selser_marker s
  && all_newlines (JS.substring s (String.length selser_marker) None).

(** [out.replace(/<!--rtSelserEditTestComment-->\n*$/, '')]: the match has
    to reach the end of the text, so what is removed is a tail. *)
Fixpoint strip_selser_comment (out : string) : string :=
  if is_marker_tail out then ""
  else
    match out with
    | EmptyString => ""
    | String c out' => String c (strip_selser_comment out')
    end.

Definition lower (c : ascii) : ascii :=
  let n := nat_of_ascii c in
  if (65 <=? n)%nat && (n <=? 90)%nat then ascii_of_nat (n + 32) else c.

Fixpoint toLowerCase (s : string) : string :=
  match s with
  | EmptyString => EmptyString
  | String c s' => String (lower c) (toLowerCase s')
  end.

Definition nodeName (n : node) : string :=
  match n with
  | Element name _ _ => name
  | Text _ => "#text"
  | Comment _ => "#comment"
  end.

(** [s.replace(/[\r\n]/g, '')] *)
Fixpoint strip_newlines (s : string) : string :=
  match s with
  | EmptyString => EmptyString
  | String c s' =>
      if Ascii.eqb c "010"%char || Ascii.eqb c "013"%char
      then strip_newlines s'
      else String c (strip_newlines s')
  end.

Section RoundTrip.

Variable W : world.
Variable parsoidConfig : parsoid_config.
Variable proc : process.

Definition rtResponse (data : report) : sync (promise unit) :=
  emit (EvRenderResponse "roundtrip" data) ;;;
  logTime "parsing" ;;;
  ret (Promise.resolve tt).

(** The first [base] element of the head, serialized. *)
Fixpoint base_of (hNodes : list node) : string :=
  match hNodes with
  | [] => ""
  | n :: hNodes' =>
      if String.eqb (toLowerCase (nodeName n)) "base"
      then DU_serializeNode W n
      else base_of hNodes'
  end.

Definition roundTripDiff (e : env) (req : request) (useSelser : bool) (doc : document)
  : sync (promise report) :=
  let doc := domino_createDocument W (outerHTML W doc) in
  emit (EvSerializeDOM (doc_body doc) useSelser) ;;;
  ret (Promise.then_ (Promise.external (DU_serializeDOM W e (doc_body doc) useSelser))
         (fun out =>
            let out := strip_selser_comment out in
            let headNodes := base_of (doc_head doc) in
            let bodyNodes :=
              fold_left (fun acc n => acc +:+ DU_serializeNode W n) (doc_body doc) "" in
            let htmlSpeChars := htmlSpecialChars W out in
            let patch := Diff.diffLines (page_src e) out in
            ret (Promise.resolve
                   (mkReport headNodes bodyNodes htmlSpeChars patch (req_url req))))).

(** The part the three round-trip routes share: the default for
    [scrubWikitext], the target and the fetch of the page. *)
Definition rt_env (req : request) (res : locals) : env :=
  let e := l_env res in
  if negb (bool_decide (is_Some (assoc "scrubWikitext" (req_query req))))
     && negb (hasOwnProperty (req_body req) "scrubWikitext")
  then set_scrubWikitext e true
  else e.

Definition rt_oldid (req : request) : jsval :=
  if truthy (query req "oldid") then query req "oldid" else JNull.

Definition rt_route (req : request) (res : locals)
  (derive : env -> document -> sync (promise report)) : sync (promise unit) :=
  let e := rt_env req res in
  let target := env_resolveTitle W (page_name e) in
  p <- TemplateRequest_setPageSrcInfo W e target (rt_oldid req) ;;
  let p := Promise.then_ p (fun e =>
    p <- parse W parsoidConfig e req res ;;
    ret (Promise.then_ p (fun doc => ret (Promise.resolve (e, doc))))) in
  let p := Promise.then_ p (fun ed => derive (fst ed) (snd ed)) in
  let p := Promise.timeout (REQ_TIMEOUT parsoidConfig) p in
  let p := Promise.then_ p rtResponse in
  p <- cpuTimeout parsoidConfig proc p res ;;
  ret (catch_timeoutResp p).

Definition roundtripTesting (req : request) (res : locals) : sync (promise unit) :=
  rt_route req res (fun e doc => roundTripDiff e req false doc).

Definition roundtripTestingNL (req : request) (res : locals) : sync (promise unit) :=
  rt_route req res (fun e doc =>
    let html := strip_newlines (innerHTML W doc) in
    roundTripDiff e req false (DU_parseHTML W (JStr html))).

Definition roundtripSelser (req : request) (res : locals) : sync (promise unit) :=
  rt_route req res (fun e doc =>
    let doc := DU_parseHTML W (JStr (DU_serializeDocument W doc)) in
    let doc := mkDocument (doc_head doc) (doc_body doc ++ [Comment "rtSelserEditTestComment"]) in
    roundTripDiff e req true doc).

End RoundTrip.

(** ** The configuration constructor

    [ParsoidConfig] builds the configuration object that every request
    shares, and then goes over its properties to freeze it. Objects are
    trees here, each with its frozen flag; a property is a data property or
    an accessor. *)

Module ParsoidConfig.

Inductive value : Type :=
| Prim (v : jsval)
| Obj (frozen : bool) (fields : list (string * value)).

Inductive property : Type :=
| Data (v : value)
| Accessor.

Definition props : Type := list (string * property).

(** The object under construction: its own properties, in creation order,
    whether [Object.freeze] has been applied to it, and whether the
    constructor was left by a [TypeError] instead of returning. *)
Record instance : Type := mkInstance {
  own : props;
  frozen : bool;
  thrown : bool
}.

Definition typeof (v : value) : string :=
  match v with
  | Prim JUndefined => "undefined"
  | Prim (JBool _) => "boolean"
  | Prim (JNum _) => "number"
  | Prim (JStr _) => "string"
  | Prim JNull | Prim (JObj _) | Obj _ _ => "object"
  end.

Definition value_truthy (v : value) : bool :=
  match v with
  | Prim p => truthy p
  | Obj _ _ => true
  end.

Definition num (n : Z) : value := Prim (JNum n).

(** [CONFIG_DEFAULTS], frozen at the top only. *)
Definition CONFIG_DEFAULTS : list (string * value) :=
  [("timeouts",
    Obj false
      [("request", num (4 * 60 * 1000));
       ("cpu", num (5 * 60 * 1000));
       ("mwApi",
        Obj false
          [("preprocessor", num (30 * 1000));
           ("extParse", num (30 * 1000));
           ("srcFetch", num (40 * 1000));
           ("imgInfo", num (40 * 1000));
           ("configInfo", num (40 * 1000))]);
       ("parsoidCacheReq", num (10 * 1000));
       ("parsoidCacheReparse", num (50 * 1000))]);
   ("retries",
    Obj false
      [("mwApi", Obj false [("all", num 1); ("configInfo", num 0)]);
       ("parsoidCacheReq", num 0)])].

Definition default_of (k : string) : value :=
  default (Prim JUndefined) (assoc k CONFIG_DEFAULTS).

(** The enumerable properties of [ParsoidConfig.prototype], in the order of
    their definition, with the defaults that the constructor reads. *)
Definition prototype : list (string * value) :=
  [("debug", Prim (JBool false)); ("traceFlags", Prim JNull);
   ("debugFlags", Prim JNull); ("dumpFlags", Prim JNull);
   ("fetchTemplates", Prim (JBool true)); ("expandExtensions", Prim (JBool true));
   ("maxDepth", num 40); ("usePHPPreProcessor", Prim (JBool true));
   ("defaultWiki", Prim (JStr "enwiki")); ("useSelser", Prim (JBool false));
   ("fetchConfig", Prim (JBool true)); ("rtTestMode", Prim (JBool false));
   ("version", num 0); ("storeDataParsoid", Prim (JBool false));
   ("addHTMLTemplateParameters", Prim (JBool false)); ("linting", Prim (JBool false));
   ("linterAPI", Prim JNull); ("loggerBackend", Prim JNull);
   ("tracerBackend", Prim JNull); ("strictSSL", Prim (JBool true));
   ("defaultAPIProxyURI", Prim JUndefined); ("modulesLoadURI", Prim JUndefined);
   ("loadWMF", Prim (JBool true)); ("performanceTimer", Prim JNull);
   ("userAgent", Prim (JStr "Parsoid/")); ("maxListeners", num 50000);
   ("maxFormSize", num (15 * 1024 * 1024)); ("logMwApiWarnings", Prim (JBool false));
   ("heapUsageSampleInterval", num (5 * 60 * 1000));
   ("getModulesLoadURI", Obj false []); ("initMwApiMap", Obj false []);
   ("setMwApi", Obj false []); ("setInterwiki", Obj false []);
   ("removeMwApi", Obj false []); ("removeInterwiki", Obj false []);
   ("_sanitizeIt", Obj false []); ("sanitizeConfig", Obj false [])].

(** [this.k]: the own property, or else the one of the prototype. *)
Definition read (this : props) (k : string) : value :=
  match assoc k this with
  | Some (Data v) => v
  | Some Accessor => Prim JUndefined
  | None => default (Prim JUndefined) (assoc k prototype)
  end.

(** The keys [for (var prop in this)] goes through: the own properties
    first, then those inherited from the prototype that are not shadowed. *)
Definition for_in_keys (this : props) : list string :=
  map fst this
  ++ List.filter (fun k => negb (bool_decide (is_Some (assoc k this)))) (map fst prototype).

Definition ignoreFields : list string :=
  ["performanceTimer"; "loggerBackend"; "nativeExtensions"].

Section Constructor.

(** Helpers of other modules: [Util.clone], [JSUtils.deepFreeze], the
    native extension and timer objects, and the filling of the API maps
    from the site matrix. *)
Variable Util_clone : value -> value.
Variable JSUtils_deepFreeze : value -> value.
Variable new_Cite : value.
Variable new_StatsD : value.
Variable initMwApiMap : props -> props.

(** [sanitizeConfig(obj, defaults)], for one key of [defaults]: what
    [obj[key]] is afterwards, and whether the call went through. The file
    is in strict mode, so that the assignment
    [obj[key] = Util.clone(defaults[key])] throws a [TypeError] when [obj]
    is frozen ([obj_frozen]); the result is then the member as it is at
    that point, and [false]. A frozen object whose members need no reset
    is gone through without an assignment to it. *)
Fixpoint sanitize_value (dflt : value) (obj_frozen : bool) (v : option value)
  {struct dflt} : option value * bool :=
  let reset := if obj_frozen then (v, false) else (Some (Util_clone dflt), true) in
  match v with
  | None | Some (Prim JNull) | Some (Prim JUndefined) => reset
  | Some x =>
      if negb (String.eqb (typeof x) (typeof dflt)) then reset
      else
        match dflt, x with
        | Obj _ dfields, Obj fr fields =>
            let '(fields, ok) :=
              (fix each (ds : list (string * value)) (fields : list (string * value))
                 : list (string * value) * bool :=
                 match ds with
                 | [] => (fields, true)
                 | (k, d) :: ds' =>
                     let '(m, ok) := sanitize_value d fr (assoc k fields) in
                     let fields :=
                       match m with
                       | Some m => assign k m fields
                       | None => fields
                       end in
                     if ok then each ds' fields else (fields, false)
                 end) dfields fields in
            (Some (Obj fr fields), ok)
        | _, _ => (v, true)
        end
  end.

Definition own_value (this : props) (k : string) : option value :=
  match assoc k this with
  | Some (Data v) => Some v
  | _ => None
  end.

(** [this._sanitizeIt()]: the object afterwards, and whether the call went
    through. The object under construction is not frozen. A setting behind
    an accessor reads [undefined], as in [read], and the assignment to it
    throws. *)
Definition sanitizeIt (this : props) : props * bool :=
  fold_left
    (fun (st : props * bool) (kd : string * value) =>
       let '(this, ok) := st in
       if ok
       then
         match assoc (fst kd) this with
         | Some Accessor => (this, false)
         | Some (Data v) =>
             let '(m, ok) := sanitize_value (snd kd) false (Some v) in
             (match m with
              | Some m => assign (fst kd) (Data m) this
              | None => this
              end, ok)
         | None => (assign (fst kd) (Data (Util_clone (snd kd))) this, true)
         end
       else st)
    CONFIG_DEFAULTS (this, true).

(** The loop over the properties. Its body leaves the constructor with
    [return] on an ignored field, an inherited property or an accessor:
    the result tells whether the loop ran to its end. *)
Fixpoint freeze_loop (keys : list string) (this : props) : props * bool :=
  match keys with
  | [] => (this, true)
  | prop :: keys' =>
      match assoc prop this with
      | Some (Data v) =>
          if existsb (String.eqb prop) ignoreFields
          then (this, false)
          else freeze_loop keys' (assign prop (Data (JSUtils_deepFreeze v)) this)
      | Some Accessor | None => (this, false)
      end
  end.

(** [Object.freeze(v)]: shallow. *)
Definition Object_freeze (v : value) : value :=
  match v with
  | Obj _ fields => Obj true fields
  | Prim p => Prim p
  end.

(** [new ParsoidConfig(localSettings, options)]: [setup] is
    [localSettings.setup], when there is one, and [options] are the values
    that [Object.assign] copies onto the object. When [_sanitizeIt] throws,
    the constructor is left there, with the object as it is. *)
Definition new (setup : option (props -> props))
  (options : option (list (string * value))) : instance :=
  let this : props :=
    [("mwApiMap", Data (Obj false []));
     ("reverseMwApiMap", Data (Obj false []));
     ("mwApiRegexp", Data (Prim (JStr "")));
     ("timeouts", Data (Util_clone (default_of "timeouts")));
     ("retries", Data (Util_clone (default_of "retries")))] in
  let this := match setup with Some f => f this | None => this end in
  let this :=
    match options with
    | Some o => fold_left (fun this kv => assign (fst kv) (Data (snd kv)) this) o this
    | None => this
    end in
  let this := if value_truthy (read this "loadWMF") then initMwApiMap this else this in
  let this := assign "nativeExtensions" (Data (Obj false [("cite", new_Cite)])) this in
  let this := assign "allowCORS" (Data (Prim (JStr "*"))) this in
  let '(this, sanitized) := sanitizeIt this in
  if negb sanitized then mkInstance this false true
  else
    let this :=
      if value_truthy (read this "useDefaultPerformanceTimer")
      then assign "performanceTimer" (Data new_StatsD) this
      else this in
    let '(this, completed) := freeze_loop (for_in_keys this) this in
    if completed
    then
      let this :=
        assign "nativeExtensions" (Data (Object_freeze (read this "nativeExtensions"))) this in
      mkInstance this true false
    else mkInstance this false false.

End Constructor.

(** A deep freeze and a deep copy, to run the constructor with. *)
Fixpoint deep_freeze (v : value) : value :=
  match v with
  | Prim p => Prim p
  | Obj _ fields => Obj true (map (fun kv => (fst kv, deep_freeze (snd kv))) fields)
  end.

Fixpoint deep_copy (v : value) : value :=
  match v with
  | Prim p => Prim p
  | Obj _ fields => Obj false (map (fun kv => (fst kv, deep_copy (snd kv))) fields)
  end.

Fixpoint deeply_frozen (v : value) : bool :=
  match v with
  | Prim _ => true
  | Obj fr fields => fr && forallb (fun kv => deeply_frozen (snd kv)) fields
  end.

(** The configuration built without local settings or options. *)
Definition default_instance : instance :=
  new deep_copy deep_freeze (Obj false []) (Obj false []) (fun this => this) None None.

End ParsoidConfig.

(** ** A sample deployment

    Concrete collaborators, configuration and requests, on which the
    definitions above can be run. *)

Module Sample.

(** Modelled from the spec: the tokenizer is not among the sources; this
    stand-in does what the specification asks of it for pre-substitution,
    "locate every top-level template invocation by its source range", by
    matching the delimiters of invocations and keeping the outermost. *)
Fixpoint scan_templates (cs : list ascii) (pos depth start : nat) (skip : bool)
  : list token :=
  match cs with
  | [] => [EOFTk]
  | c :: cs' =>
      if skip then scan_templates cs' (S pos) depth start false
      else
        match c, cs' with
        | "{"%char, "{"%char :: _ =>
            scan_templates cs' (S pos) (S depth)
              (if (depth =? 0)%nat then pos else start) true
        | "}"%char, "}"%char :: _ =>
            match depth with
            | 0 => scan_templates cs' (S pos) 0 start true
            | 1 => SelfclosingTagTk "template" (start, pos + 2)
                     :: scan_templates cs' (S pos) 0 start true
            | S d => scan_templates cs' (S pos) d start true
            end
        | _, _ => scan_templates cs' (S pos) depth start false
        end
  end.

Definition tokenize (wt : string) : list token :=
  scan_templates (list_ascii_of_string wt) 0 0 0 false.

Fixpoint text_of (n : node) : string :=
  match n with
  | Element _ _ children => fold_right (fun c acc => text_of c +:+ acc) "" children
  | Text s => s
  | Comment s => "<!--" +:+ s +:+ "-->"
  end.

Definition text_of_nodes (ns : list node) : string :=
  fold_right (fun c acc => text_of c +:+ acc) "" ns.

(** The expansions found in every prior rendering of the sample. *)
Definition old_expansions : expansions :=
  mkExpansions (Some {[ "{{Template}}" := "<p>old template</p>" ]})
               (Some ∅)
               (Some {[ "File:Stale.png" := "<img src='stale.png'>" ]}).

(** A page source that the content source serves for every title. *)
Definition latest : page_info :=
  mkPageInfo "Hello {{Template}}" "Main_Page" (JNum 4711) (JNum 4710).

(** [serialize] and [cache] are the answers of the serializer and of the
    rendering cache, so that a prompt and a stuck serializer, a cache miss
    and a cache hit can be tried. *)
Definition world_with (serialize cache : option (time * settlement string)) : world :=
  {| PegTokenizer_tokenize := tokenize;
     TemplateRequest_fetch := fun _ _ => Some (120%N, Fulfilled latest);
     PHPParseRequest_promise := fun _ wt _ => Some (80%N, Fulfilled wt);
     ParsoidCacheRequest_promise := fun _ _ => cache;
     pipelineFactory_parse := fun _ src _ => Some (200%N, Fulfilled (mkDocument [] [Text src]));
     DU_serializeDOM := fun _ _ _ => serialize;
     DU_parseHTML := fun v => mkDocument [] [Text (to_string v)];
     DU_applyDataParsoid := fun d _ => d;
     DU_extractExpansions := fun _ => old_expansions;
     DU_serializeNode := text_of;
     DU_serializeDocument := fun d => text_of_nodes (doc_body d);
     DU_extractDpAndSerialize := fun d _ =>
       (text_of_nodes (doc_body d), JObj [], "application/json");
     domino_createDocument := fun s => mkDocument [] [Text s];
     outerHTML := fun d => text_of_nodes (doc_body d);
     innerHTML := fun d => text_of_nodes (doc_body d);
     JSON_parse := fun _ =>
       Some (JObj [("cacheID", JNum 4709); ("mode", JStr "templates")]);
     encodeURIComponent := fun s => s;
     qs_stringify := fun q =>
       join "&" (map (fun kv => fst kv +:+ "=" +:+ to_string (snd kv)) q);
     url_parse_host := fun _ => "en.wikipedia.org";
     env_resolveTitle := fun s => s;
     htmlSpecialChars := fun s => s |}.

Definition cache_miss : option (time * settlement string) :=
  Some (30%N, Rejected (new_Error "miss")).

Definition world0 : world := world_with (Some (150%N, Fulfilled "Hello")) cache_miss.

(** The serializer never answers. *)
Definition stuck_world : world := world_with None cache_miss.

(** The serializer gives the page source back. *)
Definition faithful_world : world :=
  world_with (Some (150%N, Fulfilled "Hello {{Template}}")) cache_miss.

(** The rendering cache has the page. *)
Definition cached_world : world :=
  world_with (Some (150%N, Fulfilled "Hello")) (Some (30%N, Fulfilled "<p>cached</p>")).

(** The timeouts are those of [CONFIG_DEFAULTS]. *)
Definition config : parsoid_config :=
  {| timeouts_request := (4 * 60 * 1000)%N;
     timeouts_cpu := (5 * 60 * 1000)%N;
     useSelser := JBool true;
     allowCORS := JStr "*";
     parsoidCacheURI := JUndefined;
     performanceTimer := false;
     defaultWiki := JStr "enwiki";
     mwApiMap := {[ "enwiki" := "https://en.wikipedia.org/w/api.php" ]};
     reverseMwApiMap := {[ "en.wikipedia.org" := JStr "enwiki" ]} |}.

Definition cached_config : parsoid_config :=
  mkConfig (timeouts_request config) (timeouts_cpu config) (useSelser config)
           (allowCORS config) (JStr "http://cache.example/") (performanceTimer config)
           (defaultWiki config) (mwApiMap config) (reverseMwApiMap config).

Definition worker : process := mkProcess "v0.10.25" false.
Definition master : process := mkProcess "v0.10.25" true.
Definition old_worker : process := mkProcess "v0.8.26" false.

Definition env0 : env :=
  mkEnv "Main_Page" "" JNull None "" JUndefined JUndefined false false false.

Definition locals0 : locals :=
  mkLocals (JStr "enwiki") (JStr "Main_Page") JNull false false JUndefined (JNum 1) env0.

Definition get_request : request :=
  mkRequest "GET" "/enwiki/Main_Page" [("0", JStr "enwiki"); ("1", JStr "Main_Page")]
            [] (JObj []) [].

(** The request of the job that refreshes a page after a template edit. *)
Definition update_request : request :=
  mkRequest "GET" "/enwiki/Main_Page" [("0", JStr "enwiki"); ("1", JStr "Main_Page")]
            [("oldid", JNum 4711)] (JObj [])
            [("x-parsoid", "{'cacheID':4709,'mode':'templates'}")].

Definition subst_locals : locals :=
  mkLocals (JStr "enwiki") (JStr "Main_Page") JNull false true JUndefined (JNum 1) env0.

End Sample.

(** ** The environment middleware and the form-based round trip *)

Definition set_storeDataParsoid (e : env) (b : bool) : env :=
  mkEnv (page_name e) (page_src e) (page_id e) (page_dom e) (meta_title e) (meta_revid e)
        (meta_parentid e) (discardDataParsoid e) b (scrubWikitext e).

(** [!(!v || v === "false")] *)
Definition scrub_flag (v : jsval) : bool :=
  negb (negb (truthy v) || strict_eq_str v "false").

(** The callback of [parserEnvMw] for the environment [e] that
    [MWParserEnv.getParserEnv] has built: it sets the flags of the request
    in the environment, stores it in the request context and calls the next
    handler. The registration of [errBack] with the logger of the
    environment leaves no effect in the trace. *)
Definition parserEnvMw_ready (req : request) (res : locals) (e : env) : sync locals :=
  let e :=
    if truthy (l_v2 res) && strict_eq_str (prop (l_v2 res) "format") "pagebundle"
    then set_storeDataParsoid e true
    else e in
  let e :=
    if hasOwnProperty (req_body req) "scrubWikitext"
    then set_scrubWikitext e (scrub_flag (body_field req "scrubWikitext"))
    else if bool_decide (is_Some (assoc "scrubWikitext" (req_query req)))
    then set_scrubWikitext e (scrub_flag (query req "scrubWikitext"))
    else e in
  let res := mkLocals (l_iwp res) (l_pageName res) (l_oldid res) (l_body res)
                      (l_subst res) (l_v2 res) (l_timeoutId res) e in
  emit EvNext ;;;
  ret res.

Section Forms.

Variable W : world.
Variable parsoidConfig : parsoid_config.

(** [routes.postRtForm]: the round trip of the text of a form. The chain
    is neither raced against [REQ_TIMEOUT] nor announced to the supervising
    process, and its [catch] logs the error as it is. *)
Definition postRtForm (req : request) (res : locals) : sync (promise unit) :=
  let e := rt_env req res in
  let e := env_setPageSrcInfo e (body_field req "content") in
  p <- parse W parsoidConfig e req res ;;
  let p := Promise.then_ p (fun doc => roundTripDiff W e req false doc) in
  let p := Promise.then_ p rtResponse in
  ret (Promise.catch p (fun err =>
         emit (EvLog "fatal/request" [LErr err]) ;;;
         ret (Promise.resolve tt))).

End Forms.

(** ** The API maps of the configuration

    [mwApiMap] gives the API entry of each wiki prefix, [reverseMwApiMap]
    the prefix of each host, and [mwApiRegexp] is the alternation of the
    prefixes. *)

Module MwApi.

Record proxy_conf : Type := mkProxy {
  proxy_uri : jsval;
  strip_https : bool
}.

Record api_conf : Type := mkApiConf {
  uri : string;
  proxy : option proxy_conf
}.

(** The three fields of the configuration that [setMwApi] and
    [removeMwApi] keep. The keys of [reverseMwApiMap] are what
    [url.parse(uri).host] gives, [null] ([None]) for a URI without host. *)
Record maps : Type := mkMaps {
  mwApiMap : gmap string api_conf;
  reverseMwApiMap : gmap (option string) string;
  mwApiRegexp : string
}.

(** What the constructor starts with. *)
Definition empty : maps := mkMaps ∅ ∅ "".

(** An entry of the site matrix. *)
Record site : Type := mkSite {
  dbname : string;
  url : string;
  has_private : bool;
  has_fishbowl : bool
}.

(** A value of the site matrix: a language object with its [site] array,
    the array of the special sites, or something else (the count). *)
Inductive matrix_value : Type :=
| Language (site : list site)
| Sites (sites : list site)
| Other.

Section Maps.

(** [url.parse(uri).host]; [s.match(pattern) !== null]; and
    [s.replace(new RegExp(pattern), replacer)], the replacer being given
    the matched text. *)
Variable url_host : string -> option string.
Variable String_matches : string -> string -> bool.
Variable String_replace : string -> string -> (string -> string) -> string.

(** ['(^|\\|)' + prefix + '(\\||$)'] *)
Definition prefix_pattern (prefix : string) : string :=
  "(^|\|)" +:+ prefix +:+ "(\||$)".

Definition setMwApi (prefix : string) (apiConf : string + api_conf) (this : maps) : maps :=
  let apiConf :=
    match apiConf with
    | inl s => mkApiConf s None
    | inr c => c
    end in
  let reverse :=
    match mwApiMap this !! prefix with
    | Some old => delete (url_host (uri old)) (reverseMwApiMap this)
    | None => reverseMwApiMap this
    end in
  let apis := <[prefix := apiConf]> (mwApiMap this) in
  let reverse := <[url_host (uri apiConf) := prefix]> reverse in
  let regexp :=
    if String_matches (mwApiRegexp this) (prefix_pattern prefix)
    then mwApiRegexp this
    else mwApiRegexp this
         +:+ (if String.eqb (mwApiRegexp this) "" then "" else "|") +:+ prefix in
  mkMaps apis reverse regexp.

Definition removeMwApi (prefix : string) (this : maps) : maps :=
  match mwApiMap this !! prefix with
  | None => this
  | Some old =>
      mkMaps (delete prefix (mwApiMap this))
             (delete (url_host (uri old)) (reverseMwApiMap this))
             (String_replace (mwApiRegexp this) (prefix_pattern prefix)
                (fun m => if String.eqb m ("|" +:+ prefix +:+ "|") then "|" else ""))
  end.

(** [insertInMaps] of [initMwApiMap] *)
Definition insertInMaps (proxyURI : jsval) (this : maps) (s : site) : maps :=
  match mwApiMap this !! dbname s with
  | Some _ => this
  | None =>
      setMwApi (dbname s)
        (inr (mkApiConf (url s +:+ "/w/api.php") (Some (mkProxy proxyURI true))))
        this
  end.

(** [!Number.isNaN(Number(key))] *)
Variable is_number : string -> bool.

(** [initMwApiMap], over the site matrix in the order of its keys. A key
    that reads as a number whose value has no [site] array, or a
    [specials] that is no array, is a [TypeError]: the result is the maps
    as they are at that point, and [false]. *)
Fixpoint initMwApiMap (sitematrix : list (string * matrix_value)) (this : maps)
  : maps * bool :=
  match sitematrix with
  | [] => (this, true)
  | (key, val) :: rest =>
      if is_number key
      then
        match val with
        | Language sites =>
            initMwApiMap rest (fold_left (insertInMaps JUndefined) sites this)
        | _ => (this, false)
        end
      else if String.eqb key "specials"
      then
        match val with
        | Sites sites =>
            initMwApiMap rest
              (fold_left
                 (fun this s =>
                    let prv := has_private s || has_fishbowl s in
                    insertInMaps (if prv then JNull else JUndefined) this s)
                 sites this)
        | _ => (this, false)
        end
      else initMwApiMap rest this
  end.

(** A call of one of the three methods. *)
Inductive call : Type :=
| SetMwApi (prefix : string) (apiConf : string + api_conf)
| RemoveMwApi (prefix : string)
| InitMwApiMap (sitematrix : list (string * matrix_value)).

Definition apply_call (this : maps) (c : call) : maps :=
  match c with
  | SetMwApi prefix apiConf => setMwApi prefix apiConf this
  | RemoveMwApi prefix => removeMwApi prefix this
  | InitMwApiMap sitematrix => fst (initMwApiMap sitematrix this)
  end.

(** The maps of a configuration on which the calls have been made, in
    order, since its construction. *)
Definition after (calls : list call) : maps := fold_left apply_call calls empty.

End Maps.

End MwApi.

(** ** The URI of the resource loader *)

(** The fields of the wiki's configuration that [getModulesLoadURI]
    reads. *)
Record wiki_conf : Type := mkWikiConf {
  apiURI : string;
  server : string
}.

Definition is_slash (c : ascii) : bool := Ascii.eqb c "/"%char.

(** A match of [[^\/]*\/\/] at the start of [s]: characters other than
    slashes, then two slashes. The result is what follows the match. *)
Fixpoint run_then_slashes (s : string) : option string :=
  match s with
  | EmptyString => None
  | String c s' =>
      if is_slash c
      then match s' with
           | String c' rest => if is_slash c' then Some rest else None
           | EmptyString => None
           end
      else run_then_slashes s'
  end.

(** [s.replace(/[^\/]*\/\//, r)]: the leftmost match is replaced by [r];
    a text without match is returned as it is. *)
Fixpoint replace_scheme (r s : string) : string :=
  match run_then_slashes s with
  | Some rest => r +:+ rest
  | None =>
      match s with
      | EmptyString => EmptyString
      | String c s' => String c (replace_scheme r s')
      end
  end.

(** The dot of a regular expression matches every character but a line
    terminator. *)
Definition is_line_terminator (c : ascii) : bool :=
  Ascii.eqb c "010"%char || Ascii.eqb c "013"%char.

(** [s] is matched by [\/api.php] as a whole. *)
Definition is_api_tail (s : string) : bool :=
  match s with
  | String c0 (String c1 (String c2 (String c3 (String c4
      (String c5 (String c6 (String c7 EmptyString))))))) =>
      Ascii.eqb c0 "/"%char && Ascii.eqb c1 "a"%char && Ascii.eqb c2 "p"%char
      && Ascii.eqb c3 "i"%char && negb (is_line_terminator c4)
      && Ascii.eqb c5 "p"%char && Ascii.eqb c6 "h"%char && Ascii.eqb c7 "p"%char
  | _ => false
  end.

(** [s.replace(/\/api.php$/, '/load.php')] *)
Fixpoint replace_api_php (s : string) : string :=
  if is_api_tail s then "/load.php"
  else
    match s with
    | EmptyString => EmptyString
    | String c s' => String c (replace_api_php s')
    end.

(** [ParsoidConfig.prototype.getModulesLoadURI], for the value of
    [this.modulesLoadURI]. *)
Definition getModulesLoadURI (modulesLoadURI : jsval) (wikiConf : wiki_conf) : jsval :=
  match modulesLoadURI with
  | JUndefined => JStr (replace_api_php (replace_scheme "//" (apiURI wikiConf)))
  | JBool true =>
      JStr (replace_scheme "//bits.wikimedia.org/" (server wikiConf) +:+ "/load.php")
  | v => v
  end.

(** ** Vocabulary of the properties *)

Definition start_message (cfg : parsoid_config) (res : locals) : jsval :=
  JObj [("type", JStr "timeout"); ("timeout", JNum (Z.of_N (timeouts_cpu cfg)));
        ("timeoutId", l_timeoutId res); ("location", JStr (location_of res))].

Definition done_message (res : locals) : jsval :=
  JObj [("type", JStr "timeout"); ("done", JBool true); ("timeoutId", l_timeoutId res)].

(** The worker-pool mode: neither the cluster master nor an old runtime. *)
Definition worker_mode (proc : process) : bool :=
  negb (isMaster proc || negb (sufficientNodeVersion proc)).

Definition heartbeat_done {A : Type} (proc : process) (res : locals) (p : promise A)
  : list (time * event) :=
  if worker_mode proc
  then match outcome p with
       | Some (t, _) => [(t, EvProcessSend (done_message res))]
       | None => []
       end
  else [].

Definition heartbeat_start (cfg : parsoid_config) (proc : process) (res : locals)
  : list event :=
  if worker_mode proc then [EvProcessSend (start_message cfg res)] else [].

(** The operation is still unsettled when [ms] have passed. *)
Definition exceeds {A : Type} (ms : time) (op : promise A) : Prop :=
  match outcome op with
  | Some (t, _) => (ms < t)%N
  | None => True
  end.

(** The error [timeoutResp] reports in place of a [TimeoutError]. *)
Definition generic_timeout_error : error :=
  mkError ErrorClass "Request timed out." None None.

(** An event that answers the request with a conversion result, or that
    reports a failure of the request. *)
Definition delivers_result (ev : event) : bool :=
  match ev with
  | EvEndResponse _ | EvJsonResponse _ => true
  | _ => false
  end.

Definition reports_failure (ev : event) : bool :=
  match ev with
  | EvLog level _ => String.eqb level "fatal/request"
  | _ => false
  end.

Definition silent (te : time * event) : bool :=
  negb (delivers_result (snd te)) && negb (reports_failure (snd te)).

(** The call of the serializer that [html2wt] makes. *)
Definition html2wt_serialize (W : world) (cfg : parsoid_config) (res : locals)
  (html : jsval) : promise string :=
  Promise.external
    (DU_serializeDOM W (html2wt_env W res) (doc_body (html2wt_doc W res html))
       (truthy (html2wt_useSelser cfg (html2wt_env W res)))).

(** The synchronous effects of [html2wt] up to the call of the serializer. *)
Definition html2wt_prelude (W : world) (cfg : parsoid_config) (res : locals)
  (html : jsval) : list event :=
  [EvLog "info" [LStr "started serializing"]]
  ++ (if truthy (allowCORS cfg)
      then [EvSetHeader "Access-Control-Allow-Origin" (to_string (allowCORS cfg))]
      else [])
  ++ (if performanceTimer cfg
      then [EvTimerTiming "html2wt.init.domparse"; EvTimerTiming "html2wt.size.input";
            EvTimerTiming "html2wt.init"]
      else [])
  ++ [EvSerializeDOM (doc_body (html2wt_doc W res html))
        (truthy (html2wt_useSelser cfg (html2wt_env W res)))].

Definition not_serialize (te : time * event) : bool :=
  match snd te with EvSerializeDOM _ _ => false | _ => true end.

(** The revision that [parse] takes the prior payload from. *)
Definition prior_revision (v2 : jsval) : jsval :=
  or (prop v2 "previous") (prop v2 "original").

(** The expansions extracted from a prior payload, before the [switch]. *)
Definition extracted (W : world) (html dp : jsval) : expansions :=
  DU_extractExpansions W (DU_applyDataParsoid W (DU_parseHTML W html) dp).

(** The mode that the [some] loop leaves in [ret]. *)
Definition signaled_mode (v2 : jsval) : jsval :=
  if truthy (prop v2 "update")
  then ret_mode (some_set_mode (prop v2 "update") ["templates"; "files"]
                   (mkReuse (mkExpansions None None None) JUndefined))
  else JUndefined.

(** The loop on the characters of the text and the start offsets of the
    template tokens. *)
Fixpoint subst_chars (starts : list nat) (wt : list ascii) (tsrIncr : nat) : list ascii :=
  match starts with
  | [] => wt
  | p :: starts' =>
      subst_chars starts'
        (take (p + tsrIncr) wt ++ list_ascii_of_string "{{subst:"
           ++ drop (p + tsrIncr + 2) wt)
        (tsrIncr + 6)
  end.

Definition target_of (W : world) (res : locals) : string :=
  env_resolveTitle W (page_name (l_env res)).

Definition cors_header (cfg : parsoid_config) : list event :=
  if truthy (allowCORS cfg)
  then [EvSetHeader "Access-Control-Allow-Origin" (to_string (allowCORS cfg))]
  else [].

Definition is_parse (te : time * event) : bool :=
  match snd te with EvPipelineParse _ _ => true | _ => false end.

(** What the redirect branch does once the content source has answered. *)
Definition redirect_events (cfg : parsoid_config) (revid : jsval) (path : string)
  : list event :=
  [EvSetHeader "Cache-Control" "private,no-cache,s-maxage=0";
   EvLog "info" [LStr "redirecting to revision"; LVal revid]]
  ++ (if performanceTimer cfg then [EvTimerCount "wt2html.redirectToOldid"] else [])
  ++ [EvRelativeRedirect path None].

(** The kinds that the caller of a v2 request signals as edited. *)
Definition signals (v2 : jsval) (kind : string) : bool :=
  truthy (prop (prop v2 "update") kind).

(** No expansion of a signaled kind reaches the parser: every call of the
    parse operation that reuses expansions has the mapping of each
    signaled kind empty. *)
Definition signaled_kinds_cleared (W : world) (cfg : parsoid_config)
  (e : env) (req : request) (res : locals) : Prop :=
  forall src exps,
    In (EvPipelineParse src (Some exps)) (events (parse W cfg e req res)) ->
    (signals (l_v2 res) "templates" = true -> transclusions exps = Some ∅)
    /\ (signals (l_v2 res) "files" = true -> files exps = Some ∅).

(** A v2 request body with a prior rendering, signaling what was edited. *)
Definition v2_with_original (update : list (string * jsval)) : jsval :=
  JObj [("format", JStr "html");
        ("original",
         JObj [("html", JObj [("body", JStr "<p>old</p>")]);
               ("data-parsoid", JObj [("body", JObj [])])]);
        ("update", JObj update)].

Definition locals_with_v2 (v2 : jsval) : locals :=
  mkLocals (JStr "enwiki") (JStr "Main_Page") (JNum 4711) false false v2 (JNum 1)
           Sample.env0.

(** The interwiki prefix the v2 middleware finds for the domain of the
    request, and the format it settles on: the one of the path, unless the
    body carries a [format] of its own. *)
Definition v2_iwp (cfg : parsoid_config) (req : request) : jsval :=
  default JUndefined (map_get (reverseMwApiMap cfg) (param req "domain")).

Definition v2_of (req : request) : jsval :=
  JObj (object_assign [("format", param req "format")] (req_body req)).

Definition v2_format (req : request) : jsval := prop (v2_of req) "format".

(** The format check of the middleware lets the request through. *)
Definition format_accepted (req : request) : bool :=
  set_has supportedFormats (v2_format req)
  && negb (String.eqb (req_method req) "GET"
           && negb (set_has wt2htmlFormats (v2_format req))).

Definition is_4xx (code : nat) : bool := (400 <=? code)%nat && (code <? 500)%nat.

(** The claim on substitution as the specification states it: a request
    with the flag and another format than [html] is answered with the
    message on substitution and a 4xx status. *)
Definition subst_rejected_as_client_error (cfg : parsoid_config)
  (req : request) (res : locals) : Prop :=
  flag req "subst" = true ->
  v2_format req <> JStr "html" ->
  exists code,
    fst (v2Middle cfg req res)
    = [EvSendResponse "Substitution is only supported for the HTML format." code]
    /\ is_4xx code = true.

Definition v2_post (format : string) (body : list (string * jsval)) : request :=
  mkRequest "POST" ("/v2/en.wikipedia.org/" +:+ format +:+ "/Main_Page")
            [("domain", JStr "en.wikipedia.org"); ("format", JStr format);
             ("title", JStr "Main_Page")]
            [] (JObj body) [].

(** Some tail of the text is the selser test marker followed by line
    breaks only: the text ends in what round-trip validation strips. *)
Fixpoint has_marker_tail (s : string) : bool :=
  is_marker_tail s
  || match s with
     | EmptyString => false
     | String _ s' => has_marker_tail s'
     end.

(** The edit script has no insert or delete run. *)
Definition no_edit_runs (patch : list Diff.change) : bool :=
  forallb (fun c => negb (Diff.is_edit_run c)) patch.

(** A v2 request context without a revision id. *)
Definition v2_locals : locals :=
  mkLocals (JStr "enwiki") (JStr "Main_Page") JNull false false
           (JObj [("format", JStr "html")]) (JNum 1) Sample.env0.

(** A v1 request context with a revision id. *)
Definition locals_with_oldid (oldid : jsval) : locals :=
  mkLocals (JStr "enwiki") (JStr "Main_Page") oldid false false JUndefined (JNum 1)
           Sample.env0.

(** The messages sent to the supervising process, in order. *)
Fixpoint sends_of (evs : list event) : list jsval :=
  match evs with
  | [] => []
  | EvProcessSend msg :: evs' => msg :: sends_of evs'
  | _ :: evs' => sends_of evs'
  end.

Definition sends (l : list (time * event)) : list jsval := sends_of (map snd l).

(** Code that sends nothing to the supervising process, neither at once nor
    in the callbacks of the promise it returns. *)
Definition quiet {A : Type} (h : sync (promise A)) : Prop :=
  sends_of (fst h) = [] /\ sends (effects (snd h)) = [].

(** The heartbeat of a request whose wrapped operation is [p]. *)
Definition heartbeat {A : Type} (cfg : parsoid_config) (proc : process)
  (res : locals) (p : promise A) : list jsval :=
  if worker_mode proc
  then start_message cfg res
       :: match outcome p with
          | Some _ => [done_message res]
          | None => []
          end
  else [].

(** An edit that keeps a line. *)
Definition keeps (e : Diff.edit) : bool :=
  match e with
  | Diff.Keep _ => true
  | _ => false
  end.

(** The claim on round-trip validation as the specification states it:
    whenever the serializer gives the markup of the page back for the
    document that the parse operation made of it, the diff that
    [roundTripDiff] reports has no insert or delete run. *)
Definition faithful_round_trip_has_no_edits (W : world) (cfg : parsoid_config)
  (req : request) (res : locals) : Prop :=
  forall (pi : page_info) (doc : document) (t0 t1 t2 : time),
    let e := env_setPageInfo (rt_env req res) pi in
    TemplateRequest_fetch W (env_resolveTitle W (page_name (rt_env req res))) (rt_oldid req)
    = Some (t0, Fulfilled pi) ->
    outcome (snd (parse W cfg e req res)) = Some (t1, Fulfilled doc) ->
    DU_serializeDOM W e (doc_body (domino_createDocument W (outerHTML W doc))) false
    = Some (t2, Fulfilled (pi_src pi)) ->
    exists r,
      outcome (snd (roundTripDiff W e req false doc)) = Some (t2, Fulfilled r)
      /\ no_edit_runs (rt_patch r) = true.

(** A page whose markup ends in the comment that serves as the test marker
    of selective serialization, and a deployment in which the content
    source serves it and the serializer gives it back as it is. *)
Definition marked_page : page_info :=
  mkPageInfo "Hello<!--rtSelserEditTestComment-->" "Main_Page" (JNum 4711) (JNum 4710).

Definition marked_world : world :=
  {| PegTokenizer_tokenize := PegTokenizer_tokenize Sample.world0;
     TemplateRequest_fetch := fun _ _ => Some (120%N, Fulfilled marked_page);
     PHPParseRequest_promise := PHPParseRequest_promise Sample.world0;
     ParsoidCacheRequest_promise := ParsoidCacheRequest_promise Sample.world0;
     pipelineFactory_parse := pipelineFactory_parse Sample.world0;
     DU_serializeDOM := fun _ _ _ => Some (150%N, Fulfilled (pi_src marked_page));
     DU_parseHTML := DU_parseHTML Sample.world0;
     DU_applyDataParsoid := DU_applyDataParsoid Sample.world0;
     DU_extractExpansions := DU_extractExpansions Sample.world0;
     DU_serializeNode := DU_serializeNode Sample.world0;
     DU_serializeDocument := DU_serializeDocument Sample.world0;
     DU_extractDpAndSerialize := DU_extractDpAndSerialize Sample.world0;
     domino_createDocument := domino_createDocument Sample.world0;
     outerHTML := outerHTML Sample.world0;
     innerHTML := innerHTML Sample.world0;
     JSON_parse := JSON_parse Sample.world0;
     encodeURIComponent := encodeURIComponent Sample.world0;
     qs_stringify := qs_stringify Sample.world0;
     url_parse_host := url_parse_host Sample.world0;
     env_resolveTitle := env_resolveTitle Sample.world0;
     htmlSpecialChars := htmlSpecialChars Sample.world0 |}.

(** ** Observations on traces *)

(** What an observer [f] sees of a trace: the events it selects, in order. *)
Definition observe {X : Type} (f : event -> option X) (l : list (time * event)) : list X :=
  omap (fun te => f (snd te)) l.

(** Code of which [f] sees nothing, neither at once nor in the callbacks of
    the promise it returns. *)
Definition unobserved {X A : Type} (f : event -> option X) (h : sync (promise A)) : Prop :=
  omap f (fst h) = [] /\ observe f (effects (snd h)) = [].

(** The answers to a request: a response, a redirect, or the report of a
    failure. *)
Definition answer (ev : event) : option event :=
  match ev with
  | EvEndResponse _ | EvJsonResponse _ | EvSendResponse _ _
  | EvRenderResponse _ _ | EvRelativeRedirect _ _ => Some ev
  | EvLog level _ => if String.eqb level "fatal/request" then Some ev else None
  | _ => None
  end.

Definition header_set (ev : event) : option (string * string) :=
  match ev with
  | EvSetHeader name value => Some (name, value)
  | _ => None
  end.

Definition parse_call (ev : event) : option (string * option expansions) :=
  match ev with
  | EvPipelineParse src exps => Some (src, exps)
  | _ => None
  end.

Definition cache_call (ev : event) : option (string * jsval) :=
  match ev with
  | EvCacheRequest title cacheID => Some (title, cacheID)
  | _ => None
  end.

Definition heartbeat_message (ev : event) : option jsval :=
  match ev with
  | EvProcessSend msg => Some msg
  | _ => None
  end.

(** ** Vocabulary of the API maps *)

(** Every host of the reverse map leads to a prefix that the map of the
    APIs has, with an API on that host. *)
Definition reverse_sound (url_host : string -> option string) (m : MwApi.maps) : Prop :=
  forall h p, MwApi.reverseMwApiMap m !! h = Some p ->
    exists c, MwApi.mwApiMap m !! p = Some c /\ url_host (MwApi.uri c) = h.

(** The entry that [initMwApiMap] makes for a site. *)
Definition site_conf (proxyURI : jsval) (s : MwApi.site) : MwApi.api_conf :=
  MwApi.mkApiConf (MwApi.url s +:+ "/w/api.php") (Some (MwApi.mkProxy proxyURI true)).

(** The sites of the matrix that [initMwApiMap] goes through, each with
    the proxy it is inserted with. *)
Fixpoint matrix_sites (is_number : string -> bool)
  (sitematrix : list (string * MwApi.matrix_value)) : list (jsval * MwApi.site) :=
  match sitematrix with
  | [] => []
  | (key, val) :: rest =>
      if is_number key
      then match val with
           | MwApi.Language sites =>
               map (fun s => (JUndefined, s)) sites ++ matrix_sites is_number rest
           | _ => []
           end
      else if String.eqb key "specials"
      then match val with
           | MwApi.Sites sites =>
               map (fun s => (if MwApi.has_private s || MwApi.has_fishbowl s
                              then JNull else JUndefined, s)) sites
               ++ matrix_sites is_number rest
           | _ => []
           end
      else matrix_sites is_number rest
  end.

(** ** Vocabulary of the further properties of the routes *)

(** The error that [timeoutResp] logs for [err]. *)
Definition reported (err : error) : error :=
  if instanceof_TimeoutError err then generic_timeout_error else err.

Definition failure_report (err : error) : event :=
  EvLog "fatal/request" [LErr (reported err)].

(** The response of [html2wt] that carries the serializer's output. *)
Definition wikitext_response (res : locals) (output : string) : event :=
  if truthy (l_v2 res)
  then EvJsonResponse
         (JObj [("wikitext",
                 JObj [("headers", JObj [("content-type", JStr wikitext_contentType)]);
                       ("body", JStr output)])])
  else EvEndResponse output.

(** The values given to the [Cache-Control] header. *)
Definition cache_control (ev : event) : option string :=
  match ev with
  | EvSetHeader name value => if String.eqb name "Cache-Control" then Some value else None
  | _ => None
  end.

(** The caching that [wt2html] allows for its response: shared caches may
    keep the rendering of a given revision requested without cookie through
    v1, and nothing else. *)
Definition cache_policy (req : request) (res : locals) (wt : jsval) : string :=
  if negb (is_string wt) && truthy (l_oldid res)
     && negb (truthy (or (header req "cookie") (l_v2 res)))
  then "s-maxage=2592000"
  else "private,no-cache,s-maxage=0".

(** The text that [wt2html] parses for inline wikitext [s]: the text
    itself, or, with the [subst] flag, what the preprocessor made of the
    text with its top-level templates marked, if it answered. *)
Definition text_to_parse (W : world) (res : locals) (s : string) : option string :=
  if l_subst res
  then match PHPParseRequest_promise W (target_of W res)
               (subst_loop (PegTokenizer_tokenize W s) s 0) true with
       | Some (_, Fulfilled text) => Some text
       | _ => None
       end
  else Some s.

(** The page source is there: no fetch was needed, or the content source
    has answered. *)
Definition page_available (W : world) (res : locals) (wt : jsval) : bool :=
  if truthy (l_oldid res) || negb (is_string wt)
  then match TemplateRequest_fetch W (target_of W res) (l_oldid res) with
       | Some (_, Fulfilled _) => true
       | _ => false
       end
  else true.

(** The page source that [wt2html] starts from, after the substitution
    if there is one, and the operation that it hands to [cpuTimeout]. *)
Definition wt2html_source (W : world) (cfg : parsoid_config) (res : locals) (wt : jsval)
  : promise closure :=
  let p0 := snd (page_source W cfg res wt) in
  if l_subst res then snd (substTopLevelTemplates W res (to_string wt) p0) else p0.

Definition wt2html_operation (W : world) (cfg : parsoid_config) (req : request)
  (res : locals) (wt : jsval) : promise unit :=
  if is_string wt
  then Promise.then_
         (Promise.timeout (REQ_TIMEOUT cfg)
            (Promise.then_ (wt2html_source W cfg res wt) (parseWt W cfg res)))
         (sendRes W cfg res)
  else if truthy (l_oldid res)
  then Promise.then_
         (Promise.timeout (REQ_TIMEOUT cfg)
            (Promise.then_ (snd (page_source W cfg res wt))
               (parsePageWithOldid W cfg req res)))
         (sendRes W cfg res)
  else Promise.then_ (snd (page_source W cfg res wt)) (redirectToOldid W cfg req res).


(** [JSON.parse(req.headers['x-parsoid'] || '{}')]; [None] when the
    header does not parse. *)
Definition parsoid_header (W : world) (req : request) : option jsval :=
  if truthy (header req "x-parsoid")
  then JSON_parse W (to_string (header req "x-parsoid"))
  else Some (JObj []).

(** [parse] has a prior payload to take the expansions from. *)
Definition has_prior_payload (res : locals) : bool :=
  truthy (l_v2 res) && truthy (prior_revision (l_v2 res)).

(** [parse] turns to the rendering cache: there is no prior payload, the
    cache is configured, and the request does not come from Parsoid
    itself. *)
Definition consults_cache (cfg : parsoid_config) (req : request) (res : locals) : bool :=
  negb (has_prior_payload res)
  && truthy (parsoidCacheURI cfg)
  && negb (truthy (header req "x-parsoid-request")).

(** The settlement of a promise [t] later. *)
Definition later {A : Type} (t : time) (o : option (time * settlement A))
  : option (time * settlement A) :=
  match o with
  | Some (t', r) => Some ((t + t')%N, r)
  | None => None
  end.

(** ** Vocabulary of the sanitized configuration *)

(** [v] has the shape of the defaults [dflt]: it has the type of [dflt]
    and, where [dflt] is an object, every member of [dflt] is a member of
    [v] that has the shape of the default member. Members that the defaults
    do not know are free. *)
Fixpoint conforms (dflt v : ParsoidConfig.value) {struct dflt} : bool :=
  match v with
  | ParsoidConfig.Prim JNull | ParsoidConfig.Prim JUndefined => false
  | _ =>
      String.eqb (ParsoidConfig.typeof v) (ParsoidConfig.typeof dflt)
      && match dflt, v with
         | ParsoidConfig.Obj _ ds, ParsoidConfig.Obj _ fs =>
             forallb (fun kd => match assoc (fst kd) fs with
                                | Some fv => conforms (snd kd) fv
                                | None => false
                                end) ds
         | ParsoidConfig.Obj _ _, ParsoidConfig.Prim _ => false
         | ParsoidConfig.Prim _, _ => true
         end
  end.

(** Defaults as [CONFIG_DEFAULTS] has them: booleans, numbers, strings and
    objects of such, each member named once. *)
Fixpoint well_formed (dflt : ParsoidConfig.value) : bool :=
  match dflt with
  | ParsoidConfig.Prim (JBool _) | ParsoidConfig.Prim (JNum _)
  | ParsoidConfig.Prim (JStr _) => true
  | ParsoidConfig.Prim _ => false
  | ParsoidConfig.Obj _ ds =>
      bool_decide (NoDup (map fst ds))
      && forallb (fun kd => well_formed (snd kd)) ds
  end.

(** Every object in [v] is given with its members. *)
Fixpoint explicit (v : ParsoidConfig.value) : bool :=
  match v with
  | ParsoidConfig.Prim (JObj _) => false
  | ParsoidConfig.Prim _ => true
  | ParsoidConfig.Obj _ fs => forallb (fun kv => explicit (snd kv)) fs
  end.

(** The loop of [sanitizeConfig] over the keys of the defaults, for an
    object with the frozen flag [fr]. *)
Fixpoint sanitize_fields (clone : ParsoidConfig.value -> ParsoidConfig.value) (fr : bool)
  (ds fields : list (string * ParsoidConfig.value))
  : list (string * ParsoidConfig.value) * bool :=
  match ds with
  | [] => (fields, true)
  | (k, d) :: ds' =>
      let '(m, ok) := ParsoidConfig.sanitize_value clone d fr (assoc k fields) in
      let fields :=
        match m with
        | Some m => assign k m fields
        | None => fields
        end in
      if ok then sanitize_fields clone fr ds' fields else (fields, false)
  end.

(** One turn of the loop of [_sanitizeIt], for the setting [key] with the
    default [d]. *)
Definition sanitize_setting (clone : ParsoidConfig.value -> ParsoidConfig.value)
  (this : ParsoidConfig.props) (key : string) (d : ParsoidConfig.value)
  : ParsoidConfig.props * bool :=
  match assoc key this with
  | Some ParsoidConfig.Accessor => (this, false)
  | Some (ParsoidConfig.Data v) =>
      let '(m, ok) := ParsoidConfig.sanitize_value clone d false (Some v) in
      (match m with
       | Some m => assign key (ParsoidConfig.Data m) this
       | None => this
       end, ok)
  | None => (assign key (ParsoidConfig.Data (clone d)) this, true)
  end.

(** No object in [v] is frozen. *)
Fixpoint thawed (v : ParsoidConfig.value) : bool :=
  match v with
  | ParsoidConfig.Prim _ => true
  | ParsoidConfig.Obj fr fs => negb fr && forallb (fun kv => thawed (snd kv)) fs
  end.

(** The setting [key] can be written to: it is no accessor, and nothing in
    it is frozen. *)
Definition writable (this : ParsoidConfig.props) (key : string) : bool :=
  match assoc key this with
  | Some ParsoidConfig.Accessor => false
  | Some (ParsoidConfig.Data v) => thawed v
  | None => true
  end.

(** The members of an object. *)
Definition members (v : ParsoidConfig.value) : list (string * ParsoidConfig.value) :=
  match v with
  | ParsoidConfig.Obj _ fs => fs
  | ParsoidConfig.Prim _ => []
  end.

(** Local settings that freeze an empty [timeouts]. *)
Definition freezing_setup (this : ParsoidConfig.props) : ParsoidConfig.props :=
  assign "timeouts" (ParsoidConfig.Data (ParsoidConfig.Obj true [])) this.

(** Local settings that leave [timeouts] half filled, with a string where
    a number is due, and drop [retries]. *)
Definition careless_setup (this : ParsoidConfig.props) : ParsoidConfig.props :=
  assign "timeouts"
    (ParsoidConfig.Data
       (ParsoidConfig.Obj false
          [("request", ParsoidConfig.Prim (JStr "soon"));
           ("cpu", ParsoidConfig.num 1000)]))
    (assign "retries" (ParsoidConfig.Data (ParsoidConfig.Prim JNull)) this).

(** Settings of the deployment for [timeouts]: shorter deadlines, and a
    member of its own. *)
Definition custom_timeouts : ParsoidConfig.value :=
  ParsoidConfig.Obj false
    [("request", ParsoidConfig.num 60000);
     ("cpu", ParsoidConfig.num 90000);
     ("mwApi",
      ParsoidConfig.Obj false
        [("preprocessor", ParsoidConfig.num 1000);
         ("extParse", ParsoidConfig.num 1000);
         ("srcFetch", ParsoidConfig.num 1000);
         ("imgInfo", ParsoidConfig.num 1000);
         ("configInfo", ParsoidConfig.num 1000)]);
     ("parsoidCacheReq", ParsoidConfig.num 1000);
     ("parsoidCacheReparse", ParsoidConfig.num 1000);
     ("note", ParsoidConfig.Prim (JStr "tuned"))].

(** The environment that [parseWt] hands to the parser for the inline
    wikitext [s]: the text is the page source, and the default page name is
    cleared when the request names no page. *)
Definition inline_env (res : locals) (s : string) : env :=
  let e := env_setPageSrcInfo (l_env res) (JStr s) in
  if truthy (l_pageName res) then e else set_page_name e "".

(** The response of [sendRes] for the document [doc]. *)
Definition html_response (W : world) (res : locals) (doc : document) : event :=
  if truthy (l_v2 res) && strict_eq_str (prop (l_v2 res) "format") "pagebundle"
  then
    let '(str, dp, type) := DU_extractDpAndSerialize W doc (l_body res) in
    EvJsonResponse
      (JObj [("html",
              JObj [("headers", JObj [("content-type", JStr html_contentType)]);
                    ("body", JStr str)]);
             ("data-parsoid",
              JObj [("headers", JObj [("content-type", JStr type)]);
                    ("body", dp)])])
  else
    EvEndResponse
      (if l_body res
       then DU_serializeNode W (Element "body" [] (doc_body doc))
       else DU_serializeDocument W doc).

(** The answer of a handler whose operation [o], raced against the
    deadline [ms], is answered with [response] when it fulfils. *)
Definition answer_by_deadline {A : Type} (ms : time) (o : option (time * settlement A))
  (response : A -> event) : event :=
  match o with
  | Some (t, Fulfilled a) =>
      if (t <=? ms)%N then response a else failure_report new_TimeoutError
  | Some (t, Rejected err) =>
      if (t <=? ms)%N then failure_report err else failure_report new_TimeoutError
  | None => failure_report new_TimeoutError
  end.

(** ** Vocabulary of the URIs *)

Fixpoint no_slash (s : string) : bool :=
  match s with
  | EmptyString => true
  | String c s' => negb (is_slash c) && no_slash s'
  end.

(** ** More of the sample deployment *)

Module Sample2.

(** The sample world with another content source, preprocessor or
    parser. *)
Definition with_fetch (W : world)
  (fetch : string -> jsval -> option (time * settlement page_info)) : world :=
  mkWorld (PegTokenizer_tokenize W) fetch (PHPParseRequest_promise W)
          (ParsoidCacheRequest_promise W) (pipelineFactory_parse W) (DU_serializeDOM W)
          (DU_parseHTML W) (DU_applyDataParsoid W) (DU_extractExpansions W)
          (DU_serializeNode W) (DU_serializeDocument W) (DU_extractDpAndSerialize W)
          (domino_createDocument W) (outerHTML W) (innerHTML W) (JSON_parse W)
          (encodeURIComponent W) (qs_stringify W) (url_parse_host W)
          (env_resolveTitle W) (htmlSpecialChars W).

Definition with_parser (W : world)
  (parser : env -> string -> option expansions -> option (time * settlement document))
  : world :=
  mkWorld (PegTokenizer_tokenize W) (TemplateRequest_fetch W) (PHPParseRequest_promise W)
          (ParsoidCacheRequest_promise W) parser (DU_serializeDOM W)
          (DU_parseHTML W) (DU_applyDataParsoid W) (DU_extractExpansions W)
          (DU_serializeNode W) (DU_serializeDocument W) (DU_extractDpAndSerialize W)
          (domino_createDocument W) (outerHTML W) (innerHTML W) (JSON_parse W)
          (encodeURIComponent W) (qs_stringify W) (url_parse_host W)
          (env_resolveTitle W) (htmlSpecialChars W).

(** The content source does not have the page. *)
Definition no_page : error := new_Error "no such page".

Definition pageless_world : world :=
  with_fetch Sample.world0 (fun _ _ => Some (50%N, Rejected no_page)).

(** The parser gives up with a timeout error of its own, or never
    answers. *)
Definition slow_parser_world : world :=
  with_parser Sample.world0 (fun _ _ _ => Some (10%N, Rejected new_TimeoutError)).

Definition stuck_parser_world : world :=
  with_parser Sample.world0 (fun _ _ _ => None).

(** The form of the round-trip test page, filled in. *)
Definition rt_form_request : request :=
  mkRequest "POST" "/_rtform/" [] [] (JObj [("content", JStr "Hello")]) [].

(** A v2 request whose prior rendering has lost its [html]. *)
Definition broken_v2 : jsval :=
  JObj [("format", JStr "html");
        ("original", JObj [("data-parsoid", JObj [("body", JObj [])])])].

(** A v2 POST without title. *)
Definition untitled_post : request :=
  mkRequest "POST" "/v2/en.wikipedia.org/html/"
            [("domain", JStr "en.wikipedia.org"); ("format", JStr "html")]
            [] (JObj []) [].

(** A v2 request context whose prefix has no API entry. *)
Definition unmapped_locals : locals :=
  mkLocals (JStr "dewiki") (JStr "Main_Page") JNull false false
           (JObj [("format", JStr "html")]) (JNum 1) Sample.env0.

(** A stand-in for [url.parse(uri).host], for URIs of the form
    [scheme://host/path]. *)
Fixpoint until_slash (s : string) : string :=
  match s with
  | EmptyString => EmptyString
  | String c s' => if is_slash c then EmptyString else String c (until_slash s')
  end.

Definition url_host (uri : string) : option string :=
  option_map until_slash (run_then_slashes uri).

(** The alternatives of [mwApiRegexp]. *)
Fixpoint alternatives (acc s : string) : list string :=
  match s with
  | EmptyString => [acc]
  | String c s' =>
      if Ascii.eqb c "|"%char then acc :: alternatives "" s'
      else alternatives (acc +:+ String c "") s'
  end.

(** The prefix in the pattern ['(^|\\|)' + prefix + '(\\||$)']. *)
Definition pattern_prefix (pattern : string) : string :=
  substring pattern 6 (Some (String.length pattern - 6)).

(** Stand-ins for [match] and [replace] with that pattern, for prefixes
    without operators of regular expressions. *)
Definition String_matches (s pattern : string) : bool :=
  existsb (String.eqb (pattern_prefix pattern)) (alternatives "" s).

Fixpoint replace_alternative (prefix : string) (first : bool) (alts : list string)
  (replacer : string -> string) : string :=
  match alts with
  | [] => ""
  | a :: rest =>
      if String.eqb a prefix
      then replacer ((if first then "" else "|") +:+ prefix
                     +:+ (match rest with [] => "" | _ => "|" end))
           +:+ join "|" rest
      else (if first then "" else "|") +:+ a
           +:+ replace_alternative prefix false rest replacer
  end.

Definition String_replace (s pattern : string) (replacer : string -> string) : string :=
  if String_matches s pattern
  then replace_alternative (pattern_prefix pattern) true (alternatives "" s) replacer
  else s.

(** A stand-in for [!Number.isNaN(Number(key))] on the keys of the site
    matrix: the keys of the languages are decimal numbers. *)
Definition is_number (key : string) : bool :=
  negb (String.eqb key "")
  && forallb (fun c => let n := nat_of_ascii c in (48 <=? n)%nat && (n <=? 57)%nat)
       (list_ascii_of_string key).

Definition sitematrix : list (string * MwApi.matrix_value) :=
  [("count", MwApi.Other);
   ("0", MwApi.Language
           [MwApi.mkSite "enwiki" "https://en.wikipedia.org" false false;
            MwApi.mkSite "enwiktionary" "https://en.wiktionary.org" false false]);
   ("specials", MwApi.Sites
           [MwApi.mkSite "officewiki" "https://office.wikimedia.org" true false;
            MwApi.mkSite "enwiki" "https://elsewhere.example" false false;
            MwApi.mkSite "commonswiki" "https://commons.wikimedia.org" false false])].

(** The maps after local settings that set [enwiki] by hand. *)
Definition local_maps : MwApi.maps :=
  MwApi.setMwApi url_host String_matches "enwiki" (inl "http://localhost/w/api.php")
    MwApi.empty.

End Sample2.

(** * Properties *)

(** ** Promise algebra *)

Lemma stamp_nil (t : time) : Promise.stamp t [] = [].
Proof. reflexivity. Qed.

Lemma shift_nil (t : time) : Promise.shift t [] = [].
Proof. reflexivity. Qed.

(** Handing a promise to the resolvers of a new one gives the same promise. *)
Lemma then2_resolvers {A : Type} (p : promise A) :
  Promise.then2 p (fun a => ret (Promise.resolve a)) (fun e => ret (Promise.reject e)) = p.
Proof.
  destruct p as [evs [[t [a|e]]|]]; unfold Promise.then2; simpl;
    rewrite ?app_nil_r, ?N.add_0_r; reflexivity.
Qed.

(** ** The heartbeat protocol of [cpuTimeout] *)

Lemma cpuTimeout_eq {A : Type} cfg proc (p : promise A) res :
  cpuTimeout cfg proc p res =
  (heartbeat_start cfg proc res,
   mkPromise (effects p ++ heartbeat_done proc res p) (outcome p)).
Proof.
  unfold cpuTimeout, heartbeat_start, heartbeat_done, worker_mode.
  rewrite !then2_resolvers.
  destruct (isMaster proc || negb (sufficientNodeVersion proc)); simpl.
  - rewrite app_nil_r. destruct p; reflexivity.
  - unfold Promise.subscribe. destruct (outcome p) as [[t r]|]; reflexivity.
Qed.


(** ** The soft deadline *)

Lemma timeoutResp_TimeoutError (err : error) :
  instanceof_TimeoutError err = true ->
  timeoutResp err = ([EvLog "fatal/request" [LErr generic_timeout_error]], tt).
Proof. intros H. unfold timeoutResp. rewrite H. reflexivity. Qed.

Lemma timeout_exceeded {A : Type} (ms : time) (op : promise A) :
  exceeds ms op ->
  Promise.timeout ms op = mkPromise (effects op) (Some (ms, Rejected new_TimeoutError)).
Proof.
  unfold exceeds, Promise.timeout. destruct (outcome op) as [[t r]|]; [|reflexivity].
  intros H. destruct (N.leb_spec t ms); [lia | reflexivity].
Qed.

Lemma timeout_in_time {A : Type} (ms t : time) (r : settlement A) (op : promise A) :
  outcome op = Some (t, r) -> (t <= ms)%N -> Promise.timeout ms op = op.
Proof.
  intros H Hle. unfold Promise.timeout. rewrite H.
  destruct (N.leb_spec t ms); [|lia]. destruct op; simpl in *; congruence.
Qed.

(** The shape shared by every handler that wraps a pipeline operation:
    [cpuTimeout(op.timeout(REQ_TIMEOUT).then(k), res).catch(timeoutResp)]. *)
Lemma wrapped_operation_timeout {A B : Type} cfg proc
  (op : promise A) (k : A -> sync (promise B)) (res : locals) :
  exceeds (REQ_TIMEOUT cfg) op ->
  (p <- cpuTimeout cfg proc
          (Promise.then_ (Promise.timeout (REQ_TIMEOUT cfg) op) k) res ;;
   ret (catch_timeoutResp p))
  = (heartbeat_start cfg proc res,
     mkPromise
       (effects op
        ++ (if worker_mode proc
            then [(REQ_TIMEOUT cfg, EvProcessSend (done_message res))] else [])
        ++ [(REQ_TIMEOUT cfg, EvLog "fatal/request" [LErr generic_timeout_error])])
       (Some (REQ_TIMEOUT cfg, Fulfilled tt))).
Proof.
  intros H. rewrite cpuTimeout_eq, (timeout_exceeded _ _ H).
  unfold heartbeat_done, heartbeat_start, catch_timeoutResp, Promise.then_, Promise.then2.
  simpl. rewrite !app_nil_r.
  destruct (worker_mode proc); simpl;
    rewrite <- ?app_assoc, ?N.add_0_r; reflexivity.
Qed.

(** ** Traces of sequenced code *)

Lemma bind_eq {A B : Type} (m : sync A) (k : A -> sync B) :
  bind m k = (fst m ++ fst (k (snd m)), snd (k (snd m))).
Proof. unfold bind. destruct m as [e1 a]. simpl. destruct (k a). reflexivity. Qed.

Lemma bind_ret_l {A B : Type} (a : A) (k : A -> sync B) : bind (ret a) k = k a.
Proof. unfold bind, ret. destruct (k a). reflexivity. Qed.

Lemma stamp_app (t : time) (l1 l2 : list event) :
  Promise.stamp t (l1 ++ l2) = Promise.stamp t l1 ++ Promise.stamp t l2.
Proof. apply map_app. Qed.

Lemma trace_bind {A B : Type} (m : sync A) (k : A -> sync (promise B)) :
  trace (bind m k) = Promise.stamp 0%N (fst m) ++ trace (k (snd m)).
Proof. rewrite bind_eq. unfold trace. simpl. rewrite stamp_app, app_assoc. reflexivity. Qed.

Lemma html2wt_trace W cfg proc req res html :
  trace (html2wt W cfg proc req res html)
  = Promise.stamp 0%N (html2wt_prelude W cfg res html)
    ++ trace (p <- cpuTimeout cfg proc
                     (Promise.then_
                        (Promise.timeout (REQ_TIMEOUT cfg) (html2wt_serialize W cfg res html))
                        (html2wt_respond cfg res)) res ;;
              ret (catch_timeoutResp p)).
Proof.
  unfold html2wt, html2wt_prelude, html2wt_serialize.
  rewrite !trace_bind, !stamp_app, <- !app_assoc.
  destruct (truthy (allowCORS cfg)), (performanceTimer cfg); reflexivity.
Qed.

Lemma silent_prelude W cfg res html :
  forallb silent (Promise.stamp 0%N (html2wt_prelude W cfg res html)) = true.
Proof.
  unfold html2wt_prelude.
  destruct (truthy (allowCORS cfg)), (performanceTimer cfg); reflexivity.
Qed.

(** C6. [timeoutResp] reports every [TimeoutError], whatever its message
    and stack, as the same fresh error. When the operation wrapped by
    [cpuTimeout(op.timeout(REQ_TIMEOUT).then(k), res).catch(timeoutResp)]
    is still unsettled after [REQ_TIMEOUT], the handler reports, at
    [REQ_TIMEOUT], a fresh [Error] with message "Request timed out." and a
    null stack, whatever the message and stack of the [TimeoutError] were;
    the continuation [k] that would deliver the result contributes nothing.
    For [html2wt] in particular: the trace ends with that report, and before
    it no response carrying the serializer's output is sent and no other
    failure is reported. *)
Theorem soft_timeout_reports_generic_error :
  forall (W : world) (cfg : parsoid_config) (proc : process),
    (forall err : error,
        instanceof_TimeoutError err = true ->
        timeoutResp err = ([EvLog "fatal/request" [LErr generic_timeout_error]], tt))
    /\ (forall (A B : Type) (op : promise A) (k : A -> sync (promise B)) (res : locals),
        exceeds (REQ_TIMEOUT cfg) op ->
        effects (snd (p <- cpuTimeout cfg proc
                             (Promise.then_ (Promise.timeout (REQ_TIMEOUT cfg) op) k) res ;;
                      ret (catch_timeoutResp p)))
        = effects op
          ++ heartbeat_done proc res (Promise.timeout (REQ_TIMEOUT cfg) op)
          ++ [(REQ_TIMEOUT cfg, EvLog "fatal/request" [LErr generic_timeout_error])])
    /\ (forall (req : request) (res : locals) (html : jsval),
          exceeds (REQ_TIMEOUT cfg) (html2wt_serialize W cfg res html) ->
          exists before,
            trace (html2wt W cfg proc req res html)
            = before ++ [(REQ_TIMEOUT cfg, EvLog "fatal/request" [LErr generic_timeout_error])]
            /\ forallb silent before = true).
Proof.
  intros W cfg proc. split; [exact timeoutResp_TimeoutError | split].
  - intros A B op k res H. rewrite (wrapped_operation_timeout _ _ _ _ _ H).
    rewrite (timeout_exceeded _ _ H). unfold heartbeat_done. reflexivity.
  - intros req res html H. rewrite html2wt_trace.
    rewrite (wrapped_operation_timeout _ _ _ _ _ H). unfold trace.
    cbn [fst snd effects html2wt_serialize Promise.external app].
    exists (Promise.stamp 0%N (html2wt_prelude W cfg res html)
            ++ Promise.stamp 0%N (heartbeat_start cfg proc res)
            ++ (if worker_mode proc
                then [(REQ_TIMEOUT cfg, EvProcessSend (done_message res))] else [])).
    split.
    + rewrite <- !app_assoc. reflexivity.
    + rewrite !forallb_app, silent_prelude. unfold heartbeat_start.
      destruct (worker_mode proc); reflexivity.
Qed.

(** ** Selective serialization *)

Lemma html2wt_env_page_id (W : world) (res : locals) :
  page_id (html2wt_env W res) = l_oldid res.
Proof.
  unfold html2wt_env.
  destruct (truthy (get_guarded (get_guarded (l_v2 res) "original") "html")),
           (truthy (get_guarded (get_guarded (l_v2 res) "original") "wikitext"));
    reflexivity.
Qed.

(** The revision id that the v1 middleware leaves in the request context is
    [null] or a truthy value: an id that is present is a truthy one. *)
Lemma interParams_oldid cfg req res :
  l_oldid (snd (interParams cfg req res)) = JNull
  \/ truthy (l_oldid (snd (interParams cfg req res))) = true.
Proof.
  unfold interParams, bind, emit, ret. cbn [snd l_oldid]. unfold or.
  destruct (truthy (body_field req "oldid")) eqn:E1;
    [|destruct (truthy (query req "oldid")) eqn:E2];
    rewrite ?E1, ?E2; auto.
Qed.

Lemma strict_neq_str_iff (v : jsval) (lit : string) :
  strict_neq_str v lit = true <-> v <> JStr lit.
Proof.
  destruct v; simpl; try (split; [discriminate | reflexivity]).
  destruct (String.eqb_spec s lit); simpl; split; congruence.
Qed.

Lemma useSelser_truthy (cfg : parsoid_config) (e : env) :
  truthy (html2wt_useSelser cfg e)
  = truthy (page_id e) && strict_neq_str (page_id e) "0" && truthy (useSelser cfg).
Proof.
  unfold html2wt_useSelser, and.
  destruct (truthy (page_id e)) eqn:E1; cbn iota; [|rewrite E1; exact E1].
  cbn [truthy]. destruct (strict_neq_str (page_id e) "0"); reflexivity.
Qed.

(** Once the serializer has been called, [html2wt] does not call it again. *)
Lemma html2wt_tail_no_serialize cfg proc res (o : option (time * settlement string)) :
  forallb not_serialize
    (trace (p <- cpuTimeout cfg proc
                   (Promise.then_ (Promise.timeout (REQ_TIMEOUT cfg) (Promise.external o))
                      (html2wt_respond cfg res)) res ;;
            ret (catch_timeoutResp p))) = true.
Proof.
  rewrite cpuTimeout_eq. unfold trace, Promise.external.
  unfold heartbeat_start, heartbeat_done, catch_timeoutResp, Promise.then_,
    Promise.then2, Promise.timeout, html2wt_respond, timeoutResp.
  cbn [effects outcome].
  destruct (performanceTimer cfg), (worker_mode proc), (truthy (l_v2 res)),
    o as [[t [out|err]]|];
    try destruct (t <=? REQ_TIMEOUT cfg)%N;
    try destruct (instanceof_TimeoutError err); reflexivity.
Qed.

(** C5. [html2wt] calls the serializer exactly as its synchronous prelude
    ends, with selective serialization switched on if and only if the
    revision id of the request is present (truthy), is not the string '0',
    and the configuration enables [useSelser]. With a missing or zero
    revision id the serializer is still called, for a full serialization,
    and nothing before the call reports a failure. The revision id that the
    v1 middleware records is [null] or truthy, so that a present id is a
    truthy one. *)
Theorem selser_iff_oldid_and_config :
  forall (W : world) (cfg : parsoid_config) (proc : process)
         (req : request) (res : locals) (html : jsval),
    let selser := truthy (html2wt_useSelser cfg (html2wt_env W res)) in
    (selser = true <->
       truthy (l_oldid res) = true /\ l_oldid res <> JStr "0"
       /\ truthy (useSelser cfg) = true)
    /\ (exists before after,
          trace (html2wt W cfg proc req res html)
          = before ++ (0%N, EvSerializeDOM (doc_body (html2wt_doc W res html)) selser) :: after
          /\ forallb silent before = true
          /\ forallb not_serialize (before ++ after) = true)
    /\ (truthy (l_oldid res) = false \/ l_oldid res = JStr "0" -> selser = false)
    /\ (l_oldid (snd (interParams cfg req res)) = JNull
        \/ truthy (l_oldid (snd (interParams cfg req res))) = true).
Proof.
  intros W cfg proc req res html selser.
  assert (Hsel : selser = true <->
            truthy (l_oldid res) = true /\ l_oldid res <> JStr "0"
            /\ truthy (useSelser cfg) = true).
  { subst selser. rewrite useSelser_truthy, html2wt_env_page_id.
    rewrite !andb_true_iff, strict_neq_str_iff. tauto. }
  split; [exact Hsel | split; [|split; [|apply interParams_oldid]]].
  - rewrite html2wt_trace. unfold html2wt_prelude.
    rewrite !app_assoc, stamp_app. cbn [Promise.stamp map]. rewrite <- !app_assoc.
    eexists _, _. split; [reflexivity|]. fold selser. split.
    + destruct (truthy (allowCORS cfg)), (performanceTimer cfg); reflexivity.
    + rewrite !forallb_app. unfold html2wt_serialize. rewrite html2wt_tail_no_serialize.
      destruct (truthy (allowCORS cfg)), (performanceTimer cfg); reflexivity.
  - intros H. apply not_true_is_false. intros E.
    apply Hsel in E. destruct E as (Ht & Hn & _). destruct H; congruence.
Qed.

(** ** Reuse of expansions *)

Lemma some_set_mode_expansions update kinds r :
  ret_expansions (some_set_mode update kinds r) = ret_expansions r.
Proof. induction kinds as [|m kinds IH]; simpl; [|destruct (truthy _)]; auto. Qed.

Lemma some_set_mode_mode update kinds exps exps' m :
  ret_mode (some_set_mode update kinds (mkReuse exps m))
  = ret_mode (some_set_mode update kinds (mkReuse exps' m)).
Proof. induction kinds as [|k kinds IH]; simpl; [|destruct (truthy _)]; auto. Qed.

(** What [parse] does when the request carries a readable prior payload:
    it logs, and calls the parser once with the expansions left by the
    [switch]. *)
Lemma parse_with_prior_payload W cfg e req res html dp :
  truthy (l_v2 res) = true ->
  truthy (prior_revision (l_v2 res)) = true ->
  get (prop (prior_revision (l_v2 res)) "html") "body" = Some html ->
  get (prop (prior_revision (l_v2 res)) "data-parsoid") "body" = Some dp ->
  events (parse W cfg e req res)
  = [EvLog "info" [LStr "started parsing"];
     EvPipelineParse (page_src e)
       (option_map ret_expansions
          (figure_out_reuse
             (Some (mkReuse (extracted W html dp) (signaled_mode (l_v2 res))))))].
Proof.
  intros Hv2 Hrev Hhtml Hdp. unfold events, trace, parse, prior_revision in *.
  rewrite Hv2, Hrev. cbn [andb].
  unfold reuse_from_revision, Promise.then_, Promise.then2, Promise.resolve.
  cbn [outcome]. rewrite Hhtml, Hdp. unfold signaled_mode, extracted.
  set (x := DU_extractExpansions W _).
  destruct (truthy (prop (l_v2 res) "update")).
  - set (r := some_set_mode _ _ (mkReuse x _)).
    assert (Hr : r = mkReuse x (ret_mode
                (some_set_mode (prop (l_v2 res) "update") ["templates"; "files"]
                   (mkReuse (mkExpansions None None None) JUndefined)))).
    { destruct r as [rx rm] eqn:Er. f_equal.
      - change rx with (ret_expansions (mkReuse rx rm)). rewrite <- Er. subst r.
        apply some_set_mode_expansions.
      - change rm with (ret_mode (mkReuse rx rm)). rewrite <- Er. subst r.
        apply some_set_mode_mode. }
    rewrite Hr. reflexivity.
  - reflexivity.
Qed.

(** ** Pre-substitution *)

Section Substitution.

Local Abbreviation chars := list_ascii_of_string.

Lemma chars_append (a b : string) : chars (a +:+ b) = chars a ++ chars b.
Proof. induction a as [|c a IH]; simpl; [|rewrite IH]; reflexivity. Qed.

Lemma chars_substring_to (s : string) (n : nat) :
  chars (substring s 0 (Some n)) = take n (chars s).
Proof.
  unfold substring. rewrite list_ascii_of_string_of_list_ascii.
  rewrite Nat.min_0_l, Nat.max_0_l, Nat.min_0_l, Nat.sub_0_r, drop_0.
  destruct (Nat.le_ge_cases n (length (chars s))).
  - rewrite Nat.min_l by assumption. reflexivity.
  - rewrite Nat.min_r by assumption. rewrite !take_ge by lia. reflexivity.
Qed.

Lemma chars_substring_from (s : string) (n : nat) :
  chars (substring s n None) = drop n (chars s).
Proof.
  unfold substring. rewrite list_ascii_of_string_of_list_ascii.
  set (len := length (chars s)).
  destruct (Nat.le_ge_cases n len).
  - rewrite (Nat.min_l n len), Nat.min_l, Nat.max_r by lia.
    apply take_ge. rewrite length_drop. lia.
  - rewrite (Nat.min_r n len), Nat.min_id, Nat.max_id, Nat.sub_diag by lia.
    rewrite (drop_ge (chars s) n) by (fold len; lia). reflexivity.
Qed.

Lemma subst_loop_chars tokens : forall wt tsrIncr,
  chars (subst_loop tokens wt tsrIncr)
  = subst_chars (template_starts tokens) (chars wt) tsrIncr.
Proof.
  unfold template_starts.
  induction tokens as [|tk tokens IH]; intros wt tsrIncr; [reflexivity|].
  cbn [subst_loop List.filter]. destruct (bool_decide (tk_name tk = Some "template")).
  - cbn [map subst_chars]. rewrite IH.
    rewrite !chars_append, chars_substring_to, chars_substring_from. reflexivity.
  - apply IH.
Qed.

Lemma open_delimiter_in_range (orig : list ascii) (p : nat) :
  take 2 (drop p orig) = chars "{{" -> p + 2 <= length orig.
Proof.
  intros H. apply (f_equal length) in H. rewrite length_take, length_drop in H.
  change (length (chars "{{")) with 2 in H. lia.
Qed.

(** The invariant of the loop: [pre] is the text already produced, which
    stands for the first [off] characters of the original text [orig] and
    is [tsrIncr] longer. *)
Lemma subst_chars_insert (orig : list ascii) : forall starts off tsrIncr pre,
  length pre = off + tsrIncr ->
  well_placed off starts orig ->
  subst_chars starts (pre ++ drop off orig) tsrIncr
  = pre ++ insert_markers_from off starts (drop off orig).
Proof.
  induction starts as [|p starts IH]; intros off tsrIncr pre Hlen Hwp; [reflexivity|].
  destruct Hwp as (Hoff & Hopen & Hwp). cbn [subst_chars insert_markers_from].
  assert (Hp : p + 2 <= length orig).
  { apply open_delimiter_in_range in Hopen. exact Hopen. }
  assert (Htake : take (p + 2 - off) (drop off orig)
                  = take (p - off) (drop off orig) ++ chars "{{").
  { rewrite <- Hopen. replace (p + 2 - off) with ((p - off) + 2) by lia.
    rewrite <- (take_drop (p - off) (drop off orig)) at 1.
    rewrite take_app_ge by (rewrite length_take, length_drop; lia).
    rewrite length_take, length_drop, drop_drop.
    replace (p - off + 2 - (p - off) `min` (length orig - off)) with 2 by lia.
    replace (off + (p - off)) with p by lia. reflexivity. }
  rewrite take_app_ge, drop_app_ge by lia. rewrite Hlen.
  replace (p + tsrIncr - (off + tsrIncr)) with (p - off) by lia.
  replace (p + tsrIncr + 2 - (off + tsrIncr)) with (p + 2 - off) by lia.
  rewrite drop_drop. replace (off + (p + 2 - off)) with (p + 2) by lia.
  specialize (IH (p + 2) (tsrIncr + 6)
                 (pre ++ take (p + 2 - off) (drop off orig) ++ subst_marker)).
  rewrite <- !app_assoc in IH. rewrite Htake. rewrite <- !app_assoc.
  rewrite Htake in IH. rewrite <- !app_assoc in IH.
  change (chars "{{subst:") with (chars "{{" ++ subst_marker).
  rewrite <- !app_assoc. apply IH; [|exact Hwp].
  rewrite !length_app, length_take, length_drop. simpl. lia.
Qed.

Lemma subst_loop_insert_markers (tokens : list token) (wt : string) :
  well_placed 0 (template_starts tokens) (chars wt) ->
  subst_loop tokens wt 0 = insert_markers (template_starts tokens) wt.
Proof.
  intros Hwp. unfold insert_markers.
  rewrite <- (string_of_list_ascii_of_string (subst_loop tokens wt 0)).
  f_equal. rewrite subst_loop_chars.
  apply (subst_chars_insert (chars wt) _ 0 0 []); [reflexivity | exact Hwp].
Qed.

(** The length grows by the length of the marker for every template. *)
Lemma insert_markers_from_length (orig : list ascii) : forall starts off,
  well_placed off starts orig ->
  length (insert_markers_from off starts (drop off orig))
  = length orig - off + 6 * length starts.
Proof.
  induction starts as [|p starts IH]; intros off Hwp; cbn [insert_markers_from].
  - rewrite length_drop. simpl. lia.
  - destruct Hwp as (Hoff & Hopen & Hwp).
    assert (Hp : p + 2 <= length orig).
    { apply open_delimiter_in_range in Hopen. exact Hopen. }
    rewrite drop_drop. replace (off + (p + 2 - off)) with (p + 2) by lia.
    rewrite !length_app, length_take, length_drop, (IH _ Hwp). simpl. lia.
Qed.

End Substitution.

(** ** Redirect to the latest revision *)

Lemma wt2html_redirect_trace W cfg proc req res wt t pi path :
  truthy (l_oldid res) = false ->
  is_string wt = false ->
  TemplateRequest_fetch W (target_of W res) (l_oldid res) = Some (t, Fulfilled pi) ->
  redirect_path W cfg req res (pi_revid pi) = Some path ->
  trace (wt2html W cfg proc req res wt)
  = Promise.stamp 0%N (cors_header cfg
                       ++ [EvFetchPageSrc (target_of W res) (l_oldid res)]
                       ++ heartbeat_start cfg proc res)
    ++ Promise.stamp t (redirect_events cfg (pi_revid pi) path)
    ++ (if worker_mode proc then [(t, EvProcessSend (done_message res))] else []).
Proof.
  intros Hold Hwt Hfetch Hpath. unfold wt2html, page_source, conversion.
  rewrite Hold, Hwt. cbn [negb orb]. rewrite !trace_bind, cpuTimeout_eq.
  unfold TemplateRequest_setPageSrcInfo. fold (target_of W res). rewrite Hfetch.
  unfold trace, heartbeat_done, heartbeat_start, catch_timeoutResp, Promise.then_,
    Promise.then2, Promise.external, redirectToOldid, cors_header, redirect_events, when.
  cbn [effects outcome fst snd bind emit ret Promise.run_at Promise.resolve
       Promise.stamp Promise.shift map app c_env with_env meta_revid env_setPageInfo].
  rewrite !N.add_0_r. rewrite Hpath.
  destruct (truthy (allowCORS cfg)), (performanceTimer cfg), (worker_mode proc);
    cbn; rewrite ?N.add_0_r; reflexivity.
Qed.

Lemma wt2html_redirect_no_parse W cfg proc req res wt :
  truthy (l_oldid res) = false ->
  is_string wt = false ->
  forallb (fun te => negb (is_parse te)) (trace (wt2html W cfg proc req res wt)) = true.
Proof.
  intros Hold Hwt. unfold wt2html, page_source, conversion.
  rewrite Hold, Hwt. cbn [negb orb]. rewrite !trace_bind, cpuTimeout_eq.
  unfold TemplateRequest_setPageSrcInfo.
  destruct (TemplateRequest_fetch W _ (l_oldid res)) as [[t [pi|err]]|].
  - unfold trace, heartbeat_done, heartbeat_start, catch_timeoutResp, Promise.then_,
      Promise.then2, Promise.external, redirectToOldid, when, throw_TypeError, timeoutResp.
    cbn [effects outcome fst snd bind emit ret Promise.run_at Promise.resolve
         Promise.stamp Promise.shift map app c_env with_env meta_revid env_setPageInfo].
    destruct (redirect_path W cfg req res (pi_revid pi));
      destruct (truthy (allowCORS cfg)), (performanceTimer cfg), (worker_mode proc);
      reflexivity.
  - unfold trace, heartbeat_done, heartbeat_start, catch_timeoutResp, Promise.then_,
      Promise.then2, Promise.external, when, timeoutResp.
    cbn [effects outcome fst snd bind emit ret Promise.run_at Promise.resolve
         Promise.reject Promise.stamp Promise.shift map app].
    destruct (truthy (allowCORS cfg)), (worker_mode proc),
      (instanceof_TimeoutError err); reflexivity.
  - unfold heartbeat_done, heartbeat_start.
    destruct (truthy (allowCORS cfg)), (worker_mode proc); reflexivity.
Qed.

Lemma append_assoc (a b c : string) : (a +:+ b) +:+ c = a +:+ (b +:+ c).
Proof.
  induction a as [|x a IH]; [reflexivity|].
  change (String x ((a +:+ b) +:+ c) = String x (a +:+ (b +:+ c))).
  f_equal. exact IH.
Qed.

Lemma append_empty_r (a : string) : a +:+ "" = a.
Proof.
  induction a as [|x a IH]; [reflexivity|].
  change (String x (a +:+ "") = String x a). f_equal. exact IH.
Qed.

(** The shape of the redirect path under the two API generations. *)
Lemma redirect_path_v1 W cfg req res revid :
  truthy (l_v2 res) = false ->
  redirect_path W cfg req res revid
  = Some ("/" +:+ join_item (l_iwp res) +:+ "/"
              +:+ encodeURIComponent W (target_of W res)
              +:+ "?" +:+ qs_stringify W (assign "oldid" revid (req_query req))).
Proof.
  intros Hv2. unfold redirect_path. rewrite Hv2.
  assert (H : (0 <? length (assign "oldid" revid (req_query req)))%nat = true).
  { apply Nat.ltb_lt. destruct (req_query req) as [|[k v] q]; cbn [assign];
      [|destruct (String.eqb "oldid" k)]; cbn [length]; lia. }
  rewrite H. cbn [join]. rewrite !append_assoc. reflexivity.
Qed.

Lemma redirect_path_v2 W cfg req res revid prefix uri :
  truthy (l_v2 res) = true ->
  l_iwp res = JStr prefix ->
  mwApiMap cfg !! prefix = Some uri ->
  redirect_path W cfg req res revid
  = Some ("/v2/" +:+ url_parse_host W uri +:+ "/"
                 +:+ join_item (prop (l_v2 res) "format") +:+ "/"
                 +:+ encodeURIComponent W (target_of W res) +:+ "/"
                 +:+ join_item revid
                 +:+ (if (0 <? length (req_query req))%nat
                      then "?" +:+ qs_stringify W (req_query req) else "")).
Proof.
  intros Hv2 Hiwp Huri. unfold redirect_path. rewrite Hv2, Hiwp, Huri.
  cbn [join]. fold (target_of W res).
  destruct (0 <? length (req_query req))%nat;
    rewrite ?append_assoc, ?append_empty_r; reflexivity.
Qed.

(** Assigning [oldid] in the query keeps every other parameter. *)
Lemma assoc_assign_eq {A : Type} k (v : A) q : assoc k (assign k v q) = Some v.
Proof.
  induction q as [|[k' v'] q IH]; simpl.
  - rewrite String.eqb_refl. reflexivity.
  - destruct (String.eqb_spec k k') as [->|Hne]; simpl.
    + rewrite String.eqb_refl. reflexivity.
    + destruct (String.eqb_spec k k'); [contradiction | exact IH].
Qed.

Lemma assoc_assign_ne {A : Type} k k' (v : A) q :
  k' <> k -> assoc k' (assign k v q) = assoc k' q.
Proof.
  intros Hne. induction q as [|[k0 v0] q IH]; simpl.
  - destruct (String.eqb_spec k' k); [contradiction | reflexivity].
  - destruct (String.eqb_spec k k0) as [->|Hk]; simpl.
    + destruct (String.eqb_spec k' k0); [contradiction | reflexivity].
    + destruct (String.eqb_spec k' k0); [reflexivity | exact IH].
Qed.


(** C2. A markup-to-rendered request with neither a revision id nor inline
    wikitext never reaches the parse operation. Once the content source has
    answered with the latest revision, the handler marks the response
    non-cacheable ([Cache-Control: private,no-cache,s-maxage=0]) and
    redirects, and does nothing else but the heartbeat. The path has the
    shape of the API generation: under v1, [/prefix/title] with the query
    parameters of the request, [oldid] set to the latest revision id and
    every other parameter kept; under v2,
    [/v2/domain/format/title/revision] followed by the query of the
    request. *)
Theorem redirect_to_latest_revision :
  forall (W : world) (cfg : parsoid_config) (proc : process)
         (req : request) (res : locals) (wt : jsval),
    truthy (l_oldid res) = false ->
    is_string wt = false ->
    forallb (fun te => negb (is_parse te)) (trace (wt2html W cfg proc req res wt)) = true
    /\ (forall t pi path,
          TemplateRequest_fetch W (target_of W res) (l_oldid res) = Some (t, Fulfilled pi) ->
          redirect_path W cfg req res (pi_revid pi) = Some path ->
          trace (wt2html W cfg proc req res wt)
          = Promise.stamp 0%N (cors_header cfg
                               ++ [EvFetchPageSrc (target_of W res) (l_oldid res)]
                               ++ heartbeat_start cfg proc res)
            ++ [(t, EvSetHeader "Cache-Control" "private,no-cache,s-maxage=0");
                (t, EvLog "info" [LStr "redirecting to revision"; LVal (pi_revid pi)])]
            ++ (if performanceTimer cfg
                then [(t, EvTimerCount "wt2html.redirectToOldid")] else [])
            ++ [(t, EvRelativeRedirect path None)]
            ++ heartbeat_done proc res (mkPromise [] (Some (t, Fulfilled tt))))
    /\ (truthy (l_v2 res) = false ->
        forall revid,
          redirect_path W cfg req res revid
          = Some ("/" +:+ join_item (l_iwp res) +:+ "/"
                      +:+ encodeURIComponent W (target_of W res)
                      +:+ "?" +:+ qs_stringify W (assign "oldid" revid (req_query req)))
          /\ assoc "oldid" (assign "oldid" revid (req_query req)) = Some revid
          /\ (forall k, k <> "oldid" ->
                assoc k (assign "oldid" revid (req_query req)) = assoc k (req_query req)))
    /\ (truthy (l_v2 res) = true ->
        forall revid prefix uri,
          l_iwp res = JStr prefix ->
          mwApiMap cfg !! prefix = Some uri ->
          redirect_path W cfg req res revid
          = Some ("/v2/" +:+ url_parse_host W uri +:+ "/"
                         +:+ join_item (prop (l_v2 res) "format") +:+ "/"
                         +:+ encodeURIComponent W (target_of W res) +:+ "/"
                         +:+ join_item revid
                         +:+ (if (0 <? length (req_query req))%nat
                              then "?" +:+ qs_stringify W (req_query req) else ""))).
Proof.
  intros W cfg proc req res wt Hold Hwt. split; [|split; [|split]].
  - apply wt2html_redirect_no_parse; assumption.
  - intros t pi path Hfetch Hpath.
    rewrite (wt2html_redirect_trace _ _ _ _ _ _ _ _ _ Hold Hwt Hfetch Hpath).
    unfold redirect_events, heartbeat_done. cbn [outcome].
    f_equal. rewrite !stamp_app, <- !app_assoc. cbn [Promise.stamp map app].
    destruct (performanceTimer cfg); reflexivity.
  - intros Hv2 revid. split; [|split].
    + apply redirect_path_v1; assumption.
    + apply assoc_assign_eq.
    + intros k Hk. apply assoc_assign_ne; assumption.
  - intros Hv2 revid prefix uri Hiwp Huri. eapply redirect_path_v2; eassumption.
Qed.

(** ** Where the markers end up *)

Section Markers.

Local Abbreviation chars := list_ascii_of_string.

(** The marker of the template with index [k], which starts at offset [p]
    of the original text, is found [6 * k] further in the rewritten text. *)
Lemma marker_position (orig : list ascii) : forall starts off k p,
  well_placed off starts orig ->
  starts !! k = Some p ->
  off <= p
  /\ take 8 (drop (p - off + 6 * k) (insert_markers_from off starts (drop off orig)))
     = chars "{{subst:".
Proof.
  induction starts as [|q starts IH]; intros off k p Hwp Hk; [discriminate|].
  destruct Hwp as (Hoff & Hopen & Hwp). cbn [insert_markers_from].
  pose proof (open_delimiter_in_range _ _ Hopen) as Hq.
  destruct k as [|k].
  - injection Hk as ->. split; [exact Hoff|].
    replace (p - off + 6 * 0) with (p - off) by lia.
    rewrite drop_app_le by (rewrite length_take, length_drop; lia).
    rewrite skipn_firstn_comm. replace (p + 2 - off - (p - off)) with 2 by lia.
    rewrite drop_drop. replace (off + (p - off)) with p by lia.
    rewrite Hopen. reflexivity.
  - cbn [lookup list_lookup] in Hk.
    destruct (IH (q + 2) k p Hwp Hk) as [Hle Hmark]. split; [lia|].
    rewrite drop_app_ge by (rewrite length_take, length_drop; lia).
    rewrite length_take, length_drop.
    rewrite drop_app_ge by (unfold subst_marker; simpl; lia).
    rewrite drop_drop. replace (off + (q + 2 - off)) with (q + 2) by lia.
    rewrite <- Hmark. f_equal. f_equal. unfold subst_marker. simpl. lia.
Qed.

Lemma substring_take_drop (s : string) (a n : nat) (m : list ascii) :
  length m = n -> 0 < n ->
  take n (drop a (chars s)) = m ->
  substring s a (Some (a + n)) = string_of_list_ascii m.
Proof.
  intros Hlen Hpos Hm. unfold substring. f_equal.
  assert (Hbound : a + n <= length (chars s)).
  { apply (f_equal length) in Hm. rewrite length_take, length_drop in Hm. lia. }
  rewrite (Nat.min_l a), (Nat.min_l (a + n)) by lia.
  rewrite Nat.min_l, Nat.max_r by lia.
  replace (a + n - a) with n by lia. exact Hm.
Qed.

Lemma length_chars (s : string) : length (chars s) = String.length s.
Proof. induction s as [|c s IH]; simpl; [|rewrite IH]; reflexivity. Qed.

End Markers.

(** ** Promise chains keep what has happened *)

Lemma then2_effects_prefix {A B : Type} (p : promise A)
  (f : A -> sync (promise B)) (g : error -> sync (promise B)) :
  exists tl, effects (Promise.then2 p f g) = effects p ++ tl.
Proof.
  unfold Promise.then2, Promise.run_at.
  destruct (outcome p) as [[t [a|e]]|].
  - destruct (f a) as [evs q]. eexists. reflexivity.
  - destruct (g e) as [evs q]. eexists. reflexivity.
  - exists []. symmetry. apply app_nil_r.
Qed.

Lemma then_effects_fulfilled {A B : Type} (p : promise A)
  (f : A -> sync (promise B)) (t : time) (a : A) :
  outcome p = Some (t, Fulfilled a) ->
  effects (Promise.then_ p f)
  = effects p ++ Promise.stamp t (fst (f a)) ++ Promise.shift t (effects (snd (f a))).
Proof.
  intros H. unfold Promise.then_, Promise.then2, Promise.run_at. rewrite H.
  destruct (f a) as [evs q]. reflexivity.
Qed.

Lemma page_source_effects W cfg res wt :
  effects (snd (page_source W cfg res wt)) = [].
Proof.
  unfold page_source, TemplateRequest_setPageSrcInfo.
  destruct (truthy (l_oldid res) || negb (is_string wt)); [|reflexivity].
  unfold bind, emit, ret, Promise.then_, Promise.then2, Promise.external.
  cbn [fst snd outcome effects].
  destruct (TemplateRequest_fetch W _ _) as [[t [pi|err]]|]; reflexivity.
Qed.

(** With the [subst] flag, the first thing that happens once the page
    source is there is the call of the preprocessor with the rewritten
    markup. *)
Lemma wt2html_subst_trace W cfg proc req res (s : string) t0 c :
  l_subst res = true ->
  outcome (snd (page_source W cfg res (JStr s))) = Some (t0, Fulfilled c) ->
  exists after,
    trace (wt2html W cfg proc req res (JStr s))
    = Promise.stamp 0%N (cors_header cfg
                         ++ fst (page_source W cfg res (JStr s))
                         ++ heartbeat_start cfg proc res)
      ++ (t0, EvPHPParse (target_of W res)
                (subst_loop (PegTokenizer_tokenize W s) s 0) true) :: after.
Proof.
  intros Hsubst Hsrc. unfold wt2html, conversion. cbn [is_string to_string].
  rewrite Hsubst. unfold substTopLevelTemplates. cbv zeta.
  rewrite !trace_bind, ?bind_ret_l, cpuTimeout_eq.
  unfold trace. cbn [fst snd effects ret Promise.timeout].
  set (p0 := snd (page_source W cfg res (JStr s))) in *.
  match goal with
  | |- context [effects (catch_timeoutResp ?q)] =>
      destruct (then2_effects_prefix q (fun _ => ret (Promise.resolve tt))
                  (fun e => timeoutResp e ;;; ret (Promise.resolve tt))) as [tl4 E4];
      fold (catch_timeoutResp q) in E4; rewrite E4
  end.
  cbn [effects].
  match goal with
  | |- context [effects (Promise.then_ ?q (sendRes W cfg res))] =>
      destruct (then2_effects_prefix q (sendRes W cfg res)
                  (fun e => ret (Promise.reject e))) as [tl3 E3];
      fold (Promise.then_ q (sendRes W cfg res)) in E3; rewrite E3
  end.
  cbn [effects Promise.timeout].
  match goal with
  | |- context [effects (Promise.then_ ?q (parseWt W cfg res))] =>
      destruct (then2_effects_prefix q (parseWt W cfg res)
                  (fun e => ret (Promise.reject e))) as [tl2 E2];
      fold (Promise.then_ q (parseWt W cfg res)) in E2; rewrite E2
  end.
  match goal with
  | |- context [effects (Promise.then_ (Promise.then_ p0 ?f) ?g)] =>
      destruct (then2_effects_prefix (Promise.then_ p0 f) g
                  (fun e => ret (Promise.reject e))) as [tl1 E1];
      fold (Promise.then_ (Promise.then_ p0 f) g) in E1; rewrite E1
  end.
  rewrite (then_effects_fulfilled p0 _ t0 c Hsrc).
  subst p0. rewrite page_source_effects.
  cbn [fst bind emit ret app Promise.stamp map]. fold (target_of W res).
  eexists. unfold cors_header, when, setHeader, emit, ret.
  rewrite !stamp_app, <- !app_assoc. cbn [app].
  destruct (truthy (allowCORS cfg)); cbn [fst app Promise.stamp map];
    rewrite <- ?app_assoc; cbn [app]; reflexivity.
Qed.

Lemma subst_loop_as_insertion (tokens : list token) (wt : string) :
  well_placed 0 (template_starts tokens) (list_ascii_of_string wt) ->
  list_ascii_of_string (subst_loop tokens wt 0)
  = insert_markers_from 0 (template_starts tokens) (drop 0 (list_ascii_of_string wt)).
Proof.
  intros Hwp. rewrite subst_loop_chars.
  apply (subst_chars_insert (list_ascii_of_string wt) _ 0 0 []); [reflexivity | exact Hwp].
Qed.

Lemma page_source_sync_no_parse W cfg res wt :
  forallb (fun te => negb (is_parse te))
    (Promise.stamp 0%N (fst (page_source W cfg res wt))) = true.
Proof.
  unfold page_source.
  destruct (truthy (l_oldid res) || negb (is_string wt)); reflexivity.
Qed.

(** C1. Provided the template tokens of the tokenizer start on opening
    delimiters of the text, one after the other, the loop of
    [substTopLevelTemplates] produces the text in which the marker
    [subst:] stands right after the opening delimiter of every top-level
    template and everything else is copied from the original: the text
    grows by 6 characters per template, and the template with index [k],
    which starts at offset [p] of the original, starts at offset
    [p + 6 * k] of the result with ['{{subst:']. With the [subst] flag set,
    the rewritten text is what [wt2html] sends to the preprocessor, as soon
    as the page source is there and before anything is parsed. *)
Theorem subst_marks_top_level_templates :
  forall (W : world) (cfg : parsoid_config) (proc : process)
         (req : request) (res : locals) (wt : string),
    let tokens := PegTokenizer_tokenize W wt in
    let starts := template_starts tokens in
    let rewritten := subst_loop tokens wt 0 in
    well_placed 0 starts (list_ascii_of_string wt) ->
    rewritten = insert_markers starts wt
    /\ String.length rewritten = String.length wt + 6 * length starts
    /\ (forall k p, starts !! k = Some p ->
          substring rewritten (p + 6 * k) (Some (p + 6 * k + 8)) = "{{subst:")
    /\ (l_subst res = true ->
        forall t0 c,
          outcome (snd (page_source W cfg res (JStr wt))) = Some (t0, Fulfilled c) ->
          exists before after,
            trace (wt2html W cfg proc req res (JStr wt))
            = before ++ (t0, EvPHPParse (target_of W res) rewritten true) :: after
            /\ forallb (fun te => negb (is_parse te)) before = true).
Proof.
  intros W cfg proc req res wt tokens starts rewritten Hwp.
  pose proof (subst_loop_as_insertion tokens wt Hwp) as Hchars.
  fold rewritten starts in Hchars. split; [|split; [|split]].
  - apply subst_loop_insert_markers. exact Hwp.
  - rewrite <- !length_chars, Hchars.
    rewrite (insert_markers_from_length _ _ _ Hwp). lia.
  - intros k p Hk.
    destruct (marker_position _ _ 0 k p Hwp Hk) as [_ Hmark].
    rewrite <- Hchars, Nat.sub_0_r in Hmark.
    apply (substring_take_drop rewritten (p + 6 * k) 8
             (list_ascii_of_string "{{subst:")); [reflexivity | lia | exact Hmark].
  - intros Hsubst t0 c Hsrc.
    destruct (wt2html_subst_trace W cfg proc req res wt t0 c Hsubst Hsrc) as [after Htr].
    eexists _, after. split; [exact Htr|].
    rewrite !stamp_app, !forallb_app, page_source_sync_no_parse.
    unfold cors_header, heartbeat_start.
    destruct (truthy (allowCORS cfg)), (worker_mode proc); reflexivity.
Qed.

(** ** Which kind is cleared *)

Lemma signaled_mode_templates v2 :
  signals v2 "templates" = true -> signaled_mode v2 = JStr "templates".
Proof.
  unfold signals, signaled_mode. intros H.
  assert (Hupd : truthy (prop v2 "update") = true).
  { destruct (prop v2 "update"); try reflexivity; discriminate H. }
  rewrite Hupd. cbn [some_set_mode]. rewrite H. reflexivity.
Qed.

Lemma signaled_mode_files v2 :
  signals v2 "templates" = false -> signals v2 "files" = true ->
  signaled_mode v2 = JStr "files".
Proof.
  unfold signals, signaled_mode. intros Ht Hf.
  assert (Hupd : truthy (prop v2 "update") = true).
  { destruct (prop v2 "update"); try reflexivity; discriminate Hf. }
  rewrite Hupd. cbn [some_set_mode]. rewrite Ht, Hf. reflexivity.
Qed.

Lemma signaled_mode_none v2 :
  signals v2 "templates" = false -> signals v2 "files" = false ->
  signaled_mode v2 = JUndefined.
Proof.
  unfold signals, signaled_mode. intros Ht Hf.
  destruct (truthy (prop v2 "update")); [|reflexivity].
  cbn [some_set_mode]. rewrite Ht, Hf. reflexivity.
Qed.

(** What [parse] does on a hit of the remote rendering cache. *)
Lemma parse_with_cache_hit W cfg e req res hdr parsoidHeader cacheIDh t src :
  (truthy (l_v2 res) && truthy (prior_revision (l_v2 res))) = false ->
  truthy (parsoidCacheURI cfg) = true ->
  truthy (header req "x-parsoid-request") = false ->
  header req "x-parsoid" = JStr hdr -> hdr <> "" ->
  JSON_parse W hdr = Some parsoidHeader ->
  get parsoidHeader "cacheID" = Some cacheIDh ->
  ParsoidCacheRequest_promise W (meta_title e) (or cacheIDh (meta_parentid e))
  = Some (t, Fulfilled src) ->
  events (parse W cfg e req res)
  = [EvLog "info" [LStr "started parsing"];
     EvCacheRequest (meta_title e) (or cacheIDh (meta_parentid e));
     EvPipelineParse (page_src e)
       (option_map ret_expansions
          (figure_out_reuse
             (Some (mkReuse (DU_extractExpansions W (DU_parseHTML W (JStr src)))
                            (if truthy cacheIDh then prop parsoidHeader "mode"
                             else JUndefined)))))].
Proof.
  intros Hv2 Huri Hreq Hhdr Hne Hjson Hid Hcache.
  unfold events, trace, parse, prior_revision in *.
  rewrite Hv2, Huri, Hreq. cbn [andb negb].
  unfold reuse_from_cache, Promise.then_, Promise.then2, Promise.resolve.
  cbn [outcome]. rewrite Hhdr. cbn [truthy to_string].
  destruct (String.eqb_spec hdr ""); [contradiction|]. cbn [negb].
  rewrite Hjson, Hid.
  assert (Hprop : prop parsoidHeader "cacheID" = cacheIDh)
    by (unfold prop; rewrite Hid; reflexivity).
  rewrite Hprop.
  unfold bind, emit, ret, Promise.external, Promise.run_at.
  cbn [outcome effects fst snd]. rewrite Hcache.
  destruct (truthy cacheIDh); reflexivity.
Qed.

Lemma figure_out_templates (x : expansions) :
  option_map ret_expansions (figure_out_reuse (Some (mkReuse x (JStr "templates"))))
  = Some (mkExpansions (Some ∅) (extensions x) (files x)).
Proof. reflexivity. Qed.

Lemma figure_out_files (x : expansions) :
  option_map ret_expansions (figure_out_reuse (Some (mkReuse x (JStr "files"))))
  = Some (mkExpansions (transclusions x) (extensions x) (Some ∅)).
Proof. reflexivity. Qed.

(** C4. When the kind [templates] is indicated as updated, the expansions
    handed to the parse operation have an empty [transclusions] mapping and
    the [files] mapping (present or not) exactly as it was extracted,
    whether the indication comes with an explicit prior payload
    ([update.templates]) or with a cache hit (the [mode] of the [X-Parsoid]
    header); [extensions] is kept as well. *)
Theorem templates_update_empties_transclusions_keeps_files :
  forall (W : world) (cfg : parsoid_config) (e : env) (req : request) (res : locals),
    (forall r, ret_mode r = JStr "templates" ->
       option_map ret_expansions (figure_out_reuse (Some r))
       = Some (mkExpansions (Some ∅) (extensions (ret_expansions r))
                            (files (ret_expansions r))))
    /\ (forall html dp,
          truthy (l_v2 res) = true ->
          truthy (prior_revision (l_v2 res)) = true ->
          get (prop (prior_revision (l_v2 res)) "html") "body" = Some html ->
          get (prop (prior_revision (l_v2 res)) "data-parsoid") "body" = Some dp ->
          signals (l_v2 res) "templates" = true ->
          events (parse W cfg e req res)
          = [EvLog "info" [LStr "started parsing"];
             EvPipelineParse (page_src e)
               (Some (mkExpansions (Some ∅)
                        (extensions (extracted W html dp))
                        (files (extracted W html dp))))])
    /\ (forall hdr parsoidHeader cacheIDh t src,
          (truthy (l_v2 res) && truthy (prior_revision (l_v2 res))) = false ->
          truthy (parsoidCacheURI cfg) = true ->
          truthy (header req "x-parsoid-request") = false ->
          header req "x-parsoid" = JStr hdr -> hdr <> "" ->
          JSON_parse W hdr = Some parsoidHeader ->
          get parsoidHeader "cacheID" = Some cacheIDh ->
          truthy cacheIDh = true ->
          prop parsoidHeader "mode" = JStr "templates" ->
          ParsoidCacheRequest_promise W (meta_title e) cacheIDh = Some (t, Fulfilled src) ->
          events (parse W cfg e req res)
          = [EvLog "info" [LStr "started parsing"];
             EvCacheRequest (meta_title e) cacheIDh;
             EvPipelineParse (page_src e)
               (Some (mkExpansions (Some ∅)
                        (extensions (DU_extractExpansions W (DU_parseHTML W (JStr src))))
                        (files (DU_extractExpansions W (DU_parseHTML W (JStr src))))))]).
Proof.
  intros W cfg e req res. split; [|split].
  - intros [x m] Hm. simpl in Hm. subst m. apply figure_out_templates.
  - intros html dp Hv2 Hrev Hhtml Hdp Hsig.
    rewrite (parse_with_prior_payload _ _ _ _ _ _ _ Hv2 Hrev Hhtml Hdp).
    rewrite (signaled_mode_templates _ Hsig), figure_out_templates. reflexivity.
  - intros hdr parsoidHeader cacheIDh t src Hv2 Huri Hreq Hhdr Hne Hjson Hid Htr Hmode Hc.
    assert (Hor : or cacheIDh (meta_parentid e) = cacheIDh)
      by (unfold or; rewrite Htr; reflexivity).
    rewrite <- Hor in Hc.
    rewrite (parse_with_cache_hit _ _ _ _ _ _ _ _ _ _ Hv2 Huri Hreq Hhdr Hne Hjson Hid Hc).
    rewrite Hor, Htr, Hmode, figure_out_templates. reflexivity.
Qed.

(** C3, as amended. With an explicit prior payload, the kind cleared is the
    first one signaled, in the order [templates], [files]: signaling
    [templates] empties [transclusions] and keeps [files] as extracted,
    also when [files] is signaled too; signaling [files] alone empties
    [files] and keeps [transclusions]; signaling neither keeps both. *)
Theorem first_signaled_kind_is_cleared :
  forall (W : world) (cfg : parsoid_config) (e : env) (req : request) (res : locals)
         (html dp : jsval),
    truthy (l_v2 res) = true ->
    truthy (prior_revision (l_v2 res)) = true ->
    get (prop (prior_revision (l_v2 res)) "html") "body" = Some html ->
    get (prop (prior_revision (l_v2 res)) "data-parsoid") "body" = Some dp ->
    let x := extracted W html dp in
    events (parse W cfg e req res)
    = [EvLog "info" [LStr "started parsing"];
       EvPipelineParse (page_src e)
         (Some (if signals (l_v2 res) "templates"
                then mkExpansions (Some ∅) (extensions x) (files x)
                else if signals (l_v2 res) "files"
                then mkExpansions (transclusions x) (extensions x) (Some ∅)
                else x))].
Proof.
  intros W cfg e req res html dp Hv2 Hrev Hhtml Hdp x.
  rewrite (parse_with_prior_payload _ _ _ _ _ _ _ Hv2 Hrev Hhtml Hdp). fold x.
  destruct (signals (l_v2 res) "templates") eqn:Ht.
  - rewrite (signaled_mode_templates _ Ht). reflexivity.
  - destruct (signals (l_v2 res) "files") eqn:Hf.
    + rewrite (signaled_mode_files _ Ht Hf). reflexivity.
    + rewrite (signaled_mode_none _ Ht Hf). reflexivity.
Qed.

(** C3 fails as stated: with both kinds signaled, the stale [files]
    expansions of the prior payload reach the parser. *)
Lemma both_kinds_signaled_files_survive :
  ~ signaled_kinds_cleared Sample.world0 Sample.config Sample.env0 Sample.get_request
      (locals_with_v2 (v2_with_original [("templates", JBool true); ("files", JBool true)])).
Proof.
  intros H.
  destruct (H "" (mkExpansions (Some ∅) (Some ∅)
                    (Some {[ "File:Stale.png" := "<img src='stale.png'>" ]})))
    as [_ Hfiles].
  - right. left. reflexivity.
  - specialize (Hfiles eq_refl).
    apply (f_equal (fun o => o ≫= (.!! "File:Stale.png"))) in Hfiles.
    vm_compute in Hfiles. discriminate Hfiles.
Qed.

(** ** The v2 middleware *)

Lemma v2Middle_subst cfg req res :
  truthy (v2_iwp cfg req) = true ->
  format_accepted req = true ->
  flag req "subst" = true ->
  v2Middle cfg req res
  = if strict_neq_str (v2_format req) "html"
    then ([EvSendResponse "Substitution is only supported for the HTML format." 501],
          mkLocals (v2_iwp cfg req) (or (param req "title") (JStr ""))
                   (or (param req "revision") JNull) (flag req "body") true
                   (l_v2 res) (l_timeoutId res) (l_env res))
    else ([EvNext], snd (v2Middle cfg req res)).
Proof.
  intros Hiwp Hfmt Hsubst. unfold v2Middle.
  fold (v2_iwp cfg req) (v2_of req) (v2_format req). rewrite Hiwp. cbn [negb].
  unfold format_accepted in Hfmt. apply andb_true_iff in Hfmt. destruct Hfmt as [H1 H2].
  rewrite H1. apply negb_true_iff in H2. rewrite H2. cbn [negb orb l_subst].
  rewrite Hsubst. cbn [andb].
  destruct (strict_neq_str (v2_format req) "html"); reflexivity.
Qed.

(** C8, as amended. A v2 request for a known domain, with the [subst] flag
    and a format that passes the format check, is answered by the
    middleware with status 501 and the message "Substitution is only
    supported for the HTML format." when the format is not [html], and the
    next handler is not called; when the format is [html] the middleware
    calls the next handler, with the flag and the request recorded in the
    request context. *)
Theorem subst_only_for_html_format :
  forall (cfg : parsoid_config) (req : request) (res : locals),
    truthy (v2_iwp cfg req) = true ->
    format_accepted req = true ->
    flag req "subst" = true ->
    (v2_format req <> JStr "html" ->
       fst (v2Middle cfg req res)
       = [EvSendResponse "Substitution is only supported for the HTML format." 501])
    /\ (v2_format req = JStr "html" ->
          fst (v2Middle cfg req res) = [EvNext]
          /\ l_subst (snd (v2Middle cfg req res)) = true
          /\ l_v2 (snd (v2Middle cfg req res)) = v2_of req).
Proof.
  intros cfg req res Hiwp Hfmt Hsubst.
  pose proof (v2Middle_subst cfg req res Hiwp Hfmt Hsubst) as H. split.
  - intros Hne. apply strict_neq_str_iff in Hne. rewrite Hne in H. rewrite H. reflexivity.
  - intros Heq.
    assert (Hs : strict_neq_str (v2_format req) "html" = false)
      by (rewrite Heq; reflexivity).
    rewrite Hs in H. split; [rewrite H; reflexivity|].
    clear H. unfold v2Middle.
    fold (v2_iwp cfg req) (v2_of req) (v2_format req). rewrite Hiwp. cbn [negb].
    unfold format_accepted in Hfmt. apply andb_true_iff in Hfmt. destruct Hfmt as [H1 H2].
    rewrite H1. apply negb_true_iff in H2. rewrite H2. cbn [negb orb l_subst].
    rewrite Hsubst, Hs. cbn [andb].
    destruct (String.eqb (req_method req) "POST"); split; reflexivity.
Qed.

(** C8 fails as stated: the status of the rejection is 501, which is not a
    4xx status. *)
Lemma subst_rejection_is_not_4xx :
  ~ subst_rejected_as_client_error Sample.config
      (v2_post "pagebundle" [("subst", JBool true); ("wikitext", JStr "{{Template}}")])
      Sample.locals0.
Proof.
  intros H. destruct (H eq_refl) as [code [Hresp Hcode]].
  - discriminate.
  - vm_compute in Hresp. injection Hresp as <-. discriminate Hcode.
Qed.

(** ** The configuration constructor *)

Section ConfigFreeze.

Import ParsoidConfig.

Lemma assign_keys_same {A : Type} (k : string) (v : A) (l : list (string * A)) :
  In k (map fst (assign k v l)).
Proof.
  induction l as [|[k' v'] l IH]; cbn [assign map fst In]; [left; reflexivity|].
  destruct (String.eqb_spec k k'); cbn [map fst In]; [left; reflexivity | right; exact IH].
Qed.

Lemma assign_keys_kept {A : Type} (k k' : string) (v : A) (l : list (string * A)) :
  In k (map fst l) -> In k (map fst (assign k' v l)).
Proof.
  induction l as [|[k0 v0] l IH]; cbn [assign map fst In]; [contradiction|].
  intros [Heq|Hin]; destruct (String.eqb_spec k' k0) as [Hk|Hne];
    cbn [map fst In] in *; auto; left; congruence.
Qed.

Lemma sanitizeIt_keys_kept clone (k : string) (this : props) :
  In k (map fst this) -> In k (map fst (fst (sanitizeIt clone this))).
Proof.
  unfold sanitizeIt. generalize CONFIG_DEFAULTS. intros ds.
  change this with (fst (this, true)) at 1. generalize (this, true).
  induction ds as [|[d dv] ds IH]; intros [this' ok] Hin; cbn [fold_left fst snd] in *;
    [exact Hin|].
  apply IH. destruct ok; [|exact Hin].
  destruct (assoc d this') as [[v|]|]; cbn [fst];
    [| exact Hin | apply assign_keys_kept, Hin].
  destruct (sanitize_value clone dv false (Some v)) as [[m|] ok']; cbn [fst];
    [apply assign_keys_kept|]; exact Hin.
Qed.

(** A loop that meets an ignored field does not run to its end. *)
Lemma freeze_loop_meets_ignored deepFreeze (k : string) : forall keys this,
  In k keys ->
  existsb (String.eqb k) ignoreFields = true ->
  snd (freeze_loop deepFreeze keys this) = false.
Proof.
  induction keys as [|h keys IH]; intros this Hin Hign; [contradiction|].
  cbn [freeze_loop]. destruct (assoc h this) as [[v|]|]; [|reflexivity..].
  destruct (existsb (String.eqb h) ignoreFields) eqn:Hh; [reflexivity|].
  apply IH; [|exact Hign]. destruct Hin as [->|Hin]; [congruence | exact Hin].
Qed.

Lemma new_frozen_iff_loop_completed clone deepFreeze cite statsd init setup options :
  frozen (new clone deepFreeze cite statsd init setup options) = false
  \/ exists this keys,
       In "nativeExtensions" keys
       /\ frozen (new clone deepFreeze cite statsd init setup options)
          = snd (freeze_loop deepFreeze keys this).
Proof.
  unfold new.
  match goal with
  | |- context [sanitizeIt clone ?t] =>
      pose proof (sanitizeIt_keys_kept clone "nativeExtensions" t) as Hkept;
      destruct (sanitizeIt clone t) as [this0 sanitized]
  end.
  cbn [fst] in Hkept.
  destruct sanitized; cbn [negb]; [|left; reflexivity].
  right.
  match goal with
  | |- context [freeze_loop deepFreeze (for_in_keys ?t) ?t] =>
      exists t, (for_in_keys t); set (this := t)
  end.
  split.
  - unfold for_in_keys. apply in_or_app. left. subst this.
    match goal with
    | |- In _ (map fst (if ?c then _ else _)) => destruct c
    end; [apply assign_keys_kept|]; apply Hkept;
      apply assign_keys_kept; apply assign_keys_same.
  - destruct (freeze_loop deepFreeze (for_in_keys this) this) as [this' [|]]; reflexivity.
Qed.

(** C10 does not hold of the code. Whatever the local settings and the
    options, the loop that freezes the properties leaves the constructor
    with [return] when it meets an ignored field, and [nativeExtensions],
    which the constructor always sets, is one: [Object.freeze(this)] is
    never reached, and the configuration is returned unfrozen (local
    settings on which [_sanitizeIt] throws leave the constructor before the
    loop, and nothing is frozen either). Built without settings, its
    [nativeExtensions] object is not frozen either, and the properties
    after it have not been visited; the constructor returns there, it does
    not throw. *)
Theorem constructor_returns_unfrozen_config :
  (forall clone deepFreeze cite statsd init setup options,
      frozen (new clone deepFreeze cite statsd init setup options) = false)
  /\ frozen default_instance = false
  /\ read (own default_instance) "nativeExtensions"
     = Obj false [("cite", Obj false [])]
  /\ deeply_frozen (read (own default_instance) "timeouts") = true
  /\ thrown default_instance = false.
Proof.
  split; [|repeat split].
  intros clone deepFreeze cite statsd init setup options.
  destruct (new_frozen_iff_loop_completed clone deepFreeze cite statsd init setup options)
    as [Hthrown | (this & keys & Hin & ->)]; [exact Hthrown|].
  apply (freeze_loop_meets_ignored deepFreeze "nativeExtensions"); [exact Hin | reflexivity].
Qed.

End ConfigFreeze.

(** ** Round-trip validation *)

Lemma line_diff_same (l : list string) : Diff.line_diff l l = map Diff.Keep l.
Proof.
  induction l as [|x l IH]; [reflexivity|].
  cbn [Diff.line_diff map]. rewrite String.eqb_refl, IH. reflexivity.
Qed.

Lemma runs_of_kept (l : list string) :
  Diff.runs_of (map Diff.Keep l) = match l with [] => [] | _ => [Diff.Unchanged l] end.
Proof.
  induction l as [|x l IH]; [reflexivity|].
  unfold Diff.runs_of in *. cbn [map fold_right]. rewrite IH.
  destruct l; reflexivity.
Qed.

(** The diff of a text with itself is at most one run of unchanged lines. *)
Lemma diffLines_same (m : string) :
  Diff.diffLines m m
  = match Diff.split_lines m with [] => [] | ls => [Diff.Unchanged ls] end.
Proof.
  unfold Diff.diffLines. rewrite line_diff_same, runs_of_kept.
  destruct (Diff.split_lines m); reflexivity.
Qed.

Lemma diffLines_same_no_edit_runs (m : string) :
  no_edit_runs (Diff.diffLines m m) = true.
Proof. rewrite diffLines_same. destruct (Diff.split_lines m); reflexivity. Qed.

(** A text that does not end in the marker is left as it is. *)
Lemma strip_selser_comment_id (m : string) :
  has_marker_tail m = false -> strip_selser_comment m = m.
Proof.
  induction m as [|c m IH]; intros H; cbn [has_marker_tail] in H;
    apply orb_false_iff in H; destruct H as [H1 H2].
  - cbn [strip_selser_comment]. rewrite H1. reflexivity.
  - cbn [strip_selser_comment]. rewrite H1, (IH H2). reflexivity.
Qed.

Lemma then_outcome_fulfilled {A B : Type} (p : promise A)
  (f : A -> sync (promise B)) (t : time) (a : A) :
  outcome p = Some (t, Fulfilled a) ->
  outcome (Promise.then_ p f)
  = match outcome (snd (f a)) with
    | Some (t', r) => Some ((t + t')%N, r)
    | None => None
    end.
Proof.
  intros H. unfold Promise.then_, Promise.then2, Promise.run_at. rewrite H.
  destruct (f a) as [evs q]. reflexivity.
Qed.

(** A run of inserted or deleted lines is there as soon as one edit does
    not keep its line. *)
Lemma no_edit_runs_push (e : Diff.edit) (runs : list Diff.change) :
  no_edit_runs (Diff.push e runs) = keeps e && no_edit_runs runs.
Proof. destruct e, runs as [|[ls|ls|ls] runs]; reflexivity. Qed.

Lemma no_edit_runs_cons (e : Diff.edit) (es : list Diff.edit) :
  no_edit_runs (Diff.runs_of (e :: es)) = keeps e && no_edit_runs (Diff.runs_of es).
Proof. unfold Diff.runs_of. cbn [fold_right]. apply no_edit_runs_push. Qed.

(** Only equal lists of lines have an edit script without edits. *)
Lemma line_diff_without_edits : forall a b,
  no_edit_runs (Diff.runs_of (Diff.line_diff a b)) = true -> a = b.
Proof.
  induction a as [|x a IHa]; intros b.
  - destruct b as [|y b]; [reflexivity|].
    cbn [Diff.line_diff map]. rewrite no_edit_runs_cons. discriminate.
  - induction b as [|y b IHb].
    + cbn [Diff.line_diff map]. rewrite no_edit_runs_cons. discriminate.
    + cbn [Diff.line_diff]. destruct (String.eqb_spec x y) as [->|Hne].
      * rewrite no_edit_runs_cons. cbn [keeps andb]. intros H.
        rewrite (IHa b H). reflexivity.
      * match goal with
        | |- context [if ?c then _ else _] => destruct c
        end; rewrite no_edit_runs_cons; discriminate.
Qed.

(** The diff has no insert or delete run exactly when the two texts have
    the same lines. *)
Lemma diffLines_no_edit_runs_iff (a b : string) :
  no_edit_runs (Diff.diffLines a b) = true <-> Diff.split_lines b = Diff.split_lines a.
Proof.
  unfold Diff.diffLines. split.
  - intros H. symmetry. apply line_diff_without_edits, H.
  - intros ->. rewrite line_diff_same, runs_of_kept.
    destruct (Diff.split_lines a); reflexivity.
Qed.

(** What [roundTripDiff] reports for the output of the serializer. *)
Lemma roundTripDiff_report W e req doc t out :
  DU_serializeDOM W e (doc_body (domino_createDocument W (outerHTML W doc))) false
  = Some (t, Fulfilled out) ->
  exists r,
    outcome (snd (roundTripDiff W e req false doc)) = Some (t, Fulfilled r)
    /\ rt_patch r = Diff.diffLines (page_src e) (strip_selser_comment out)
    /\ rt_htmlSpeChars r = htmlSpecialChars W (strip_selser_comment out)
    /\ rt_reqUrl r = req_url req.
Proof.
  intros Hser. unfold roundTripDiff, bind, emit, ret.
  cbn [snd]. unfold Promise.then_, Promise.then2, Promise.external, Promise.run_at.
  cbn [outcome]. rewrite Hser. cbn [outcome Promise.resolve].
  rewrite N.add_0_r.
  eexists. split; [reflexivity|]. repeat split.
Qed.

Lemma fetch_outcome W e target oldid t pi :
  TemplateRequest_fetch W target oldid = Some (t, Fulfilled pi) ->
  outcome (snd (TemplateRequest_setPageSrcInfo W e target oldid))
  = Some (t, Fulfilled (env_setPageInfo e pi)).
Proof.
  intros H. unfold TemplateRequest_setPageSrcInfo, bind, emit, ret. cbn [snd].
  rewrite (then_outcome_fulfilled _ _ t pi) by (cbn [Promise.external outcome]; exact H).
  cbn [snd outcome Promise.resolve]. rewrite N.add_0_r. reflexivity.
Qed.

Lemma in_effects_then2 {A B : Type} (p : promise A)
  (f : A -> sync (promise B)) (g : error -> sync (promise B)) (x : time * event) :
  In x (effects p) -> In x (effects (Promise.then2 p f g)).
Proof.
  intros H. destruct (then2_effects_prefix p f g) as [tl ->].
  apply in_or_app. left. exact H.
Qed.

(** The report that the round-trip route renders when every step is in
    time. *)
Lemma rt_route_renders W cfg proc req res derive pi t0 doc t1 t2 r :
  let e := env_setPageInfo (rt_env req res) pi in
  TemplateRequest_fetch W (env_resolveTitle W (page_name (rt_env req res))) (rt_oldid req)
  = Some (t0, Fulfilled pi) ->
  outcome (snd (parse W cfg e req res)) = Some (t1, Fulfilled doc) ->
  outcome (snd (derive e doc)) = Some (t2, Fulfilled r) ->
  (t0 + t1 + t2 <= REQ_TIMEOUT cfg)%N ->
  In ((t0 + t1 + t2)%N, EvRenderResponse "roundtrip" r)
     (trace (rt_route W cfg proc req res derive)).
Proof.
  intros e Hfetch Hparse Hderive Htime. unfold rt_route.
  rewrite !trace_bind, cpuTimeout_eq. unfold trace. cbn [fst snd ret].
  apply in_or_app. right. apply in_or_app. right. apply in_or_app. right.
  unfold catch_timeoutResp. apply in_effects_then2. cbn [effects].
  apply in_or_app. left.
  pose proof (fetch_outcome W (rt_env req res) _ _ t0 pi Hfetch) as H1. fold e in H1.
  match goal with
  | |- In _ (effects (Promise.then_ (Promise.timeout _ ?p3) _)) =>
      assert (H3 : outcome p3 = Some ((t0 + t1 + t2)%N, Fulfilled r))
  end.
  { rewrite (then_outcome_fulfilled _ _ (t0 + t1)%N (e, doc)).
    - cbn [fst snd]. rewrite Hderive. reflexivity.
    - rewrite (then_outcome_fulfilled _ _ t0 e H1). rewrite bind_eq. cbn [snd ret].
      rewrite (then_outcome_fulfilled _ _ t1 doc Hparse).
      cbn [snd ret outcome Promise.resolve]. rewrite N.add_0_r. reflexivity. }
  rewrite (then_effects_fulfilled _ _ (t0 + t1 + t2)%N r).
  - apply in_or_app. right. apply in_or_app. left. left. reflexivity.
  - unfold Promise.timeout. cbn [outcome]. rewrite H3.
    destruct (N.leb_spec (t0 + t1 + t2) (REQ_TIMEOUT cfg)); [reflexivity | lia].
Qed.

(** C9 fails as stated: the markup of a page may end in the comment that
    validation strips. The serializer gives the markup back, and the diff
    reports the comment as deleted. *)
Lemma marked_page_round_trip_has_edits :
  ~ faithful_round_trip_has_no_edits marked_world Sample.config Sample.get_request
      Sample.locals0.
Proof.
  intros H.
  destruct (H marked_page (mkDocument [] [Text (pi_src marked_page)])
              120%N 200%N 150%N eq_refl eq_refl eq_refl) as (r & Hr & Hnone).
  vm_compute in Hr. injection Hr as <-. vm_compute in Hnone. discriminate Hnone.
Qed.

(** C9, as amended. [roundTripDiff] reports the line diff between the
    markup of the page and the output of the serializer with the test
    marker stripped from its end; the diff has no insert or delete run
    exactly when the two have the same lines. So, for a page whose markup
    the collaborators reproduce (the serializer, applied to the
    re-materialized document that the parse operation made of the markup,
    gives the markup back) and that does not end in the marker comment,
    the diff has no insert or delete run; and [roundtripTesting] renders
    the report when the fetch, the parse and the serialization are done
    within [REQ_TIMEOUT]. *)
Theorem round_trip_of_faithful_markup_has_no_edits :
  forall (W : world) (cfg : parsoid_config) (proc : process)
         (req : request) (res : locals) (pi : page_info) (doc : document)
         (t0 t1 t2 : time) (out : string),
    let e := env_setPageInfo (rt_env req res) pi in
    TemplateRequest_fetch W (env_resolveTitle W (page_name (rt_env req res))) (rt_oldid req)
    = Some (t0, Fulfilled pi) ->
    outcome (snd (parse W cfg e req res)) = Some (t1, Fulfilled doc) ->
    DU_serializeDOM W e (doc_body (domino_createDocument W (outerHTML W doc))) false
    = Some (t2, Fulfilled out) ->
    exists r,
      outcome (snd (roundTripDiff W e req false doc)) = Some (t2, Fulfilled r)
      /\ rt_patch r = Diff.diffLines (pi_src pi) (strip_selser_comment out)
      /\ (no_edit_runs (rt_patch r) = true
          <-> Diff.split_lines (strip_selser_comment out) = Diff.split_lines (pi_src pi))
      /\ (out = pi_src pi -> has_marker_tail (pi_src pi) = false ->
          no_edit_runs (rt_patch r) = true)
      /\ ((t0 + t1 + t2 <= REQ_TIMEOUT cfg)%N ->
          In ((t0 + t1 + t2)%N, EvRenderResponse "roundtrip" r)
             (trace (roundtripTesting W cfg proc req res))).
Proof.
  intros W cfg proc req res pi doc t0 t1 t2 out e Hfetch Hparse Hser.
  destruct (roundTripDiff_report W e req doc t2 out Hser) as (r & Hr & Hpatch & _).
  change (page_src e) with (pi_src pi) in Hpatch.
  exists r. split; [exact Hr|]. split; [exact Hpatch|]. split; [|split].
  - rewrite Hpatch. apply diffLines_no_edit_runs_iff.
  - intros -> Hfree. rewrite Hpatch, (strip_selser_comment_id _ Hfree).
    apply diffLines_same_no_edit_runs.
  - intros Htime. unfold roundtripTesting.
    apply (rt_route_renders W cfg proc req res _ pi t0 doc t1 t2 r Hfetch Hparse Hr Htime).
Qed.

(** ** One heartbeat per request *)

Lemma sends_of_app (l1 l2 : list event) :
  sends_of (l1 ++ l2) = sends_of l1 ++ sends_of l2.
Proof.
  induction l1 as [|ev l1 IH]; [reflexivity|].
  destruct ev; cbn [app sends_of]; rewrite IH; reflexivity.
Qed.

Lemma sends_app (l1 l2 : list (time * event)) : sends (l1 ++ l2) = sends l1 ++ sends l2.
Proof. unfold sends. rewrite map_app. apply sends_of_app. Qed.

Lemma sends_stamp (t : time) (evs : list event) : sends (Promise.stamp t evs) = sends_of evs.
Proof.
  unfold sends, Promise.stamp. rewrite map_map. cbn [snd]. rewrite map_id. reflexivity.
Qed.

Lemma sends_shift (t : time) (l : list (time * event)) : sends (Promise.shift t l) = sends l.
Proof. unfold sends, Promise.shift. rewrite map_map. reflexivity. Qed.

Lemma sends_then2 {A B : Type} (p : promise A)
  (f : A -> sync (promise B)) (g : error -> sync (promise B)) :
  sends (effects (Promise.then2 p f g))
  = sends (effects p)
    ++ match outcome p with
       | Some (_, Fulfilled a) => sends_of (fst (f a)) ++ sends (effects (snd (f a)))
       | Some (_, Rejected e) => sends_of (fst (g e)) ++ sends (effects (snd (g e)))
       | None => []
       end.
Proof.
  unfold Promise.then2, Promise.run_at. destruct (outcome p) as [[t [a|e]]|].
  - destruct (f a) as [evs q]. cbn [effects fst snd].
    rewrite !sends_app, sends_stamp, sends_shift. reflexivity.
  - destruct (g e) as [evs q]. cbn [effects fst snd].
    rewrite !sends_app, sends_stamp, sends_shift. reflexivity.
  - cbn [effects]. rewrite app_nil_r. reflexivity.
Qed.

Lemma quiet_ret {A : Type} (p : promise A) : sends (effects p) = [] -> quiet (ret p).
Proof. intros H. split; [reflexivity | exact H]. Qed.

Lemma quiet_bind {A B : Type} (m : sync A) (k : A -> sync (promise B)) :
  sends_of (fst m) = [] -> quiet (k (snd m)) -> quiet (bind m k).
Proof.
  intros Hm [Hk1 Hk2]. rewrite bind_eq. split; cbn [fst snd]; [|exact Hk2].
  rewrite sends_of_app, Hm, Hk1. reflexivity.
Qed.

Lemma quiet_then2 {A B : Type} (p : promise A)
  (f : A -> sync (promise B)) (g : error -> sync (promise B)) :
  sends (effects p) = [] ->
  (forall a, quiet (f a)) -> (forall e, quiet (g e)) ->
  sends (effects (Promise.then2 p f g)) = [].
Proof.
  intros Hp Hf Hg. rewrite sends_then2, Hp.
  destruct (outcome p) as [[t [a|e]]|]; [| |reflexivity].
  - destruct (Hf a) as [-> ->]. reflexivity.
  - destruct (Hg e) as [-> ->]. reflexivity.
Qed.

Lemma quiet_then {A B : Type} (p : promise A) (f : A -> sync (promise B)) :
  sends (effects p) = [] -> (forall a, quiet (f a)) ->
  sends (effects (Promise.then_ p f)) = [].
Proof.
  intros Hp Hf. apply quiet_then2; [exact Hp | exact Hf |].
  intros e. split; reflexivity.
Qed.

Lemma quiet_reuse_from_revision W v2 : quiet (reuse_from_revision W v2).
Proof.
  unfold reuse_from_revision.
  destruct (get _ "body"); [|split; reflexivity].
  destruct (get _ "body"); split; reflexivity.
Qed.

Lemma quiet_reuse_from_cache W e req : quiet (reuse_from_cache W e req).
Proof.
  unfold reuse_from_cache.
  destruct (if truthy (header req "x-parsoid") then _ else _) as [parsoidHeader|];
    [|split; reflexivity].
  destruct (get parsoidHeader "cacheID"); [|split; reflexivity].
  apply quiet_bind; [reflexivity|]. apply quiet_ret.
  apply quiet_then2; [reflexivity | |]; intros; split; reflexivity.
Qed.

Lemma quiet_parse W cfg e req res : quiet (parse W cfg e req res).
Proof.
  unfold parse. apply quiet_bind; [reflexivity|]. apply quiet_ret.
  apply quiet_then.
  - destruct (truthy (l_v2 res) && _);
      [|destruct (truthy (parsoidCacheURI cfg) && _)];
      [apply quiet_then; [reflexivity | intros; apply quiet_reuse_from_revision]
      |apply quiet_then; [reflexivity | intros; apply quiet_reuse_from_cache]
      |reflexivity].
  - intros r. apply quiet_bind; [reflexivity|]. apply quiet_ret. reflexivity.
Qed.

Lemma quiet_sendRes W cfg res cd : quiet (sendRes W cfg res cd).
Proof.
  unfold sendRes. destruct cd as [c doc].
  destruct (DU_extractDpAndSerialize W doc (l_body res)) as [[str dp] type].
  destruct (truthy (l_v2 res) && strict_eq_str (prop (l_v2 res) "format") "pagebundle"),
    (performanceTimer cfg), (startTimers_has c "wt2html.wt.parse"),
    (startTimers_has c "wt2html.pageWithOldid.parse"); split; reflexivity.
Qed.

Lemma quiet_parseWt W cfg res c : quiet (parseWt W cfg res c).
Proof.
  unfold parseWt.
  apply quiet_bind; [reflexivity|]. apply quiet_bind; [reflexivity|].
  apply quiet_bind; [destruct (performanceTimer cfg); reflexivity|].
  apply quiet_bind; [reflexivity|]. apply quiet_ret.
  apply quiet_then; [reflexivity|]. intros doc. split; reflexivity.
Qed.

Lemma quiet_parsePageWithOldid W cfg req res c : quiet (parsePageWithOldid W cfg req res c).
Proof.
  unfold parsePageWithOldid.
  apply quiet_bind; [destruct (performanceTimer cfg); reflexivity|].
  destruct (quiet_parse W cfg
              (c_env (if performanceTimer cfg
                      then startTimers_set c "wt2html.pageWithOldid.parse" else c))
              req res) as [Hp1 Hp2].
  apply quiet_bind; [exact Hp1|]. apply quiet_ret.
  apply quiet_then; [exact Hp2|]. intros doc.
  destruct (truthy (or (header req "cookie") (l_v2 res))); split; reflexivity.
Qed.

Lemma quiet_redirectToOldid W cfg req res c : quiet (redirectToOldid W cfg req res c).
Proof.
  unfold redirectToOldid.
  destruct (redirect_path W cfg req res (meta_revid (c_env c))),
    (performanceTimer cfg); split; reflexivity.
Qed.

Lemma quiet_page_source W cfg res wt : quiet (page_source W cfg res wt).
Proof.
  split; [|rewrite page_source_effects; reflexivity].
  unfold page_source. destruct (truthy (l_oldid res) || negb (is_string wt)); reflexivity.
Qed.

Lemma quiet_substTopLevelTemplates W res s (p : promise closure) :
  sends (effects p) = [] -> quiet (substTopLevelTemplates W res s p).
Proof.
  intros Hp. unfold substTopLevelTemplates. apply quiet_ret.
  apply quiet_then.
  - apply quiet_then; [exact Hp|]. intros c.
    apply quiet_bind; [reflexivity|]. apply quiet_ret.
    apply quiet_then; [reflexivity|]. intros text. split; reflexivity.
  - intros [c text]. split; reflexivity.
Qed.

Lemma quiet_conversion W cfg req res wt (p : promise closure) :
  sends (effects p) = [] -> quiet (conversion W cfg req res wt p).
Proof.
  intros Hp. unfold conversion. destruct (is_string wt).
  - assert (Hs : quiet (if l_subst res
                        then substTopLevelTemplates W res (to_string wt) p else ret p)).
    { destruct (l_subst res);
        [apply quiet_substTopLevelTemplates | apply quiet_ret]; exact Hp. }
    destruct Hs as [Hs1 Hs2]. apply quiet_bind; [exact Hs1|]. apply quiet_ret.
    apply quiet_then; [|intros; apply quiet_sendRes].
    cbn [Promise.timeout effects].
    apply quiet_then; [exact Hs2 | intros; apply quiet_parseWt].
  - destruct (truthy (l_oldid res)); apply quiet_ret.
    + apply quiet_then; [|intros; apply quiet_sendRes].
      cbn [Promise.timeout effects].
      apply quiet_then; [exact Hp | intros; apply quiet_parsePageWithOldid].
    + apply quiet_then; [exact Hp | intros; apply quiet_redirectToOldid].
Qed.

Lemma bind_assoc {A B C : Type} (m : sync A) (k1 : A -> sync B) (k2 : B -> sync C) :
  bind (bind m k1) k2 = bind m (fun a => bind (k1 a) k2).
Proof.
  unfold bind. destruct m as [e1 a]. destruct (k1 a) as [e2 b].
  destruct (k2 b) as [e3 c]. rewrite app_assoc. reflexivity.
Qed.

(** A handler that runs quiet code under [cpuTimeout] and then catches with
    [timeoutResp] sends the heartbeat of the operation and nothing else. *)
Lemma supervised_sends {A : Type} cfg proc (h : sync (promise A)) res :
  quiet h ->
  sends (trace (p <- h ;;
                q <- cpuTimeout cfg proc p res ;;
                ret (catch_timeoutResp q)))
  = heartbeat cfg proc res (snd h).
Proof.
  intros [H1 H2]. rewrite !trace_bind, cpuTimeout_eq. unfold trace.
  cbn [fst snd ret Promise.stamp map app].
  rewrite !sends_app, !sends_stamp, H1. unfold catch_timeoutResp.
  rewrite sends_then2. cbn [effects outcome]. rewrite sends_app, H2.
  unfold heartbeat, heartbeat_start, heartbeat_done, timeoutResp.
  destruct (worker_mode proc), (outcome (snd h)) as [[t [a|e]]|];
    try destruct (instanceof_TimeoutError e); reflexivity.
Qed.

Lemma quiet_html2wt_respond cfg res output : quiet (html2wt_respond cfg res output).
Proof.
  unfold html2wt_respond.
  destruct (truthy (l_v2 res)), (performanceTimer cfg); split; reflexivity.
Qed.

Lemma html2wt_respond_settles cfg res output :
  outcome (snd (html2wt_respond cfg res output)) = Some (0%N, Fulfilled tt).
Proof.
  unfold html2wt_respond.
  destruct (truthy (l_v2 res)), (performanceTimer cfg); reflexivity.
Qed.

(** The operation that [html2wt] wraps always settles: the soft deadline
    sees to it. *)
Lemma html2wt_operation_settles W cfg res html :
  exists t r,
    outcome (Promise.then_
               (Promise.timeout (REQ_TIMEOUT cfg) (html2wt_serialize W cfg res html))
               (html2wt_respond cfg res)) = Some (t, r).
Proof.
  unfold html2wt_serialize, Promise.timeout, Promise.external. cbn [outcome effects].
  destruct (DU_serializeDOM W _ _ _) as [[t [out|err]]|];
    try destruct (t <=? REQ_TIMEOUT cfg)%N;
    first [ erewrite then_outcome_fulfilled by reflexivity;
            rewrite html2wt_respond_settles; eauto
          | unfold Promise.then_, Promise.then2; cbn; eauto ].
Qed.

Lemma html2wt_sends W cfg proc req res html :
  sends (trace (html2wt W cfg proc req res html))
  = if worker_mode proc then [start_message cfg res; done_message res] else [].
Proof.
  rewrite html2wt_trace, sends_app, sends_stamp.
  assert (Hpre : sends_of (html2wt_prelude W cfg res html) = []).
  { unfold html2wt_prelude.
    destruct (truthy (allowCORS cfg)), (performanceTimer cfg); reflexivity. }
  rewrite Hpre. cbn [app].
  set (P := Promise.then_ (Promise.timeout (REQ_TIMEOUT cfg) (html2wt_serialize W cfg res html))
              (html2wt_respond cfg res)).
  rewrite <- (bind_ret_l P (fun p => q <- cpuTimeout cfg proc p res ;;
                                     ret (catch_timeoutResp q))).
  rewrite supervised_sends.
  - unfold heartbeat. cbn [snd ret]. destruct (worker_mode proc); [|reflexivity].
    subst P. destruct (html2wt_operation_settles W cfg res html) as (t & r & ->).
    reflexivity.
  - apply quiet_ret. subst P. apply quiet_then; [reflexivity|].
    intros output. apply quiet_html2wt_respond.
Qed.

Lemma wt2html_sends W cfg proc req res wt :
  sends (trace (wt2html W cfg proc req res wt))
  = heartbeat cfg proc res
      (snd (p <- page_source W cfg res wt ;; conversion W cfg req res wt p)).
Proof.
  unfold wt2html. rewrite trace_bind, sends_app, sends_stamp.
  assert (Hcors : sends_of (fst (when (truthy (allowCORS cfg))
                                  (setHeader "Access-Control-Allow-Origin"
                                     (to_string (allowCORS cfg))))) = [])
    by (destruct (truthy (allowCORS cfg)); reflexivity).
  rewrite Hcors. cbn [app].
  rewrite <- (bind_assoc (page_source W cfg res wt) (conversion W cfg req res wt)
                (fun p => q <- cpuTimeout cfg proc p res ;; ret (catch_timeoutResp q))).
  apply supervised_sends.
  destruct (quiet_page_source W cfg res wt) as [H1 H2].
  apply quiet_bind; [exact H1|]. apply quiet_conversion. exact H2.
Qed.

(** C7. In worker-pool mode on a sufficient runtime [cpuTimeout] sends the
    start message, synchronously and so before any callback of the
    operation runs, and, when the operation settles, one done message with
    the same [timeoutId], stamped with the settle time, whether the
    operation is fulfilled or rejected; nothing else is added and the
    settlement is that of the operation. As the cluster master, or on a
    runtime older than v0.9, nothing is sent and the promise returned is the
    operation's own. The handlers call [cpuTimeout] once and send nothing
    themselves: the messages of a whole [html2wt] request, whose operation
    always settles, are the start and the done message, and those of a
    [wt2html] request are the start message and, if its operation settles,
    the done message. *)
Theorem cpuTimeout_heartbeat_protocol :
  forall (cfg : parsoid_config) (proc : process) (A : Type) (p : promise A) (res : locals),
    (isMaster proc = false -> sufficientNodeVersion proc = true ->
       fst (cpuTimeout cfg proc p res) = [EvProcessSend (start_message cfg res)]
       /\ outcome (snd (cpuTimeout cfg proc p res)) = outcome p
       /\ (forall t r, outcome p = Some (t, r) ->
             effects (snd (cpuTimeout cfg proc p res))
             = effects p ++ [(t, EvProcessSend (done_message res))])
       /\ (outcome p = None ->
             effects (snd (cpuTimeout cfg proc p res)) = effects p)
       /\ (forall W req html,
             sends (trace (html2wt W cfg proc req res html))
             = [start_message cfg res; done_message res])
       /\ (forall W req wt,
             sends (trace (wt2html W cfg proc req res wt))
             = start_message cfg res
               :: match outcome (snd (p <- page_source W cfg res wt ;;
                                      conversion W cfg req res wt p)) with
                  | Some _ => [done_message res]
                  | None => []
                  end))
    /\ (isMaster proc = true \/ sufficientNodeVersion proc = false ->
          cpuTimeout cfg proc p res = ([], p)
          /\ (forall W req html, sends (trace (html2wt W cfg proc req res html)) = [])
          /\ (forall W req wt, sends (trace (wt2html W cfg proc req res wt)) = [])).
Proof.
  intros cfg proc A p res. rewrite cpuTimeout_eq.
  unfold heartbeat_start, heartbeat_done. split.
  - intros Hm Hv.
    assert (Hw : worker_mode proc = true)
      by (unfold worker_mode; rewrite Hm, Hv; reflexivity).
    rewrite Hw. cbn [fst snd outcome effects]. repeat split.
    + intros t r ->. reflexivity.
    + intros ->. apply app_nil_r.
    + intros W req html. rewrite html2wt_sends, Hw. reflexivity.
    + intros W req wt. rewrite wt2html_sends. unfold heartbeat. rewrite Hw. reflexivity.
  - intros H.
    assert (Hw : worker_mode proc = false).
    { unfold worker_mode. destruct H as [-> | ->]; [reflexivity|].
      rewrite orb_true_r. reflexivity. }
    rewrite Hw. repeat split.
    + rewrite app_nil_r. destruct p; reflexivity.
    + intros W req html. rewrite html2wt_sends, Hw. reflexivity.
    + intros W req wt. rewrite wt2html_sends. unfold heartbeat. rewrite Hw. reflexivity.
Qed.

(** * The properties on the sample deployment *)

(** The scenario of the specification: "Hello {{Template}}" with [subst]. *)
Lemma subst_marks_top_level_templates_witness :
  well_placed 0 (template_starts (Sample.tokenize "Hello {{Template}}"))
    (list_ascii_of_string "Hello {{Template}}")
  /\ subst_loop (Sample.tokenize "Hello {{Template}}") "Hello {{Template}}" 0
     = "Hello {{subst:Template}}"
  /\ substring "Hello {{subst:Template}}" 6 (Some 14) = "{{subst:"
  /\ exists before after,
       trace (wt2html Sample.world0 Sample.config Sample.worker Sample.get_request
                Sample.subst_locals (JStr "Hello {{Template}}"))
       = before
         ++ (0%N, EvPHPParse "Main_Page" "Hello {{subst:Template}}" true) :: after
       /\ forallb (fun te => negb (is_parse te)) before = true.
Proof.
  assert (Hwp : well_placed 0 (template_starts (Sample.tokenize "Hello {{Template}}"))
                  (list_ascii_of_string "Hello {{Template}}")).
  { vm_compute. repeat split. lia. }
  destruct (subst_marks_top_level_templates Sample.world0 Sample.config Sample.worker
              Sample.get_request Sample.subst_locals "Hello {{Template}}" Hwp)
    as (H1 & H2 & H3 & H4).
  split; [exact Hwp|]. split; [etransitivity; [exact H1 | reflexivity]|].
  split; [exact (H3 0 6 eq_refl)|].
  exact (H4 eq_refl 0%N _ eq_refl).
Defined.

(** A request for a page, with neither revision id nor wikitext, under
    both API generations. *)
Lemma redirect_to_latest_revision_witness :
  (truthy (l_oldid Sample.locals0) = false /\ is_string JUndefined = false)
  /\ forallb (fun te => negb (is_parse te))
       (trace (wt2html Sample.world0 Sample.config Sample.worker Sample.get_request
                 Sample.locals0 JUndefined)) = true
  /\ In (120%N, EvSetHeader "Cache-Control" "private,no-cache,s-maxage=0")
        (trace (wt2html Sample.world0 Sample.config Sample.worker Sample.get_request
                  Sample.locals0 JUndefined))
  /\ In (120%N, EvRelativeRedirect "/enwiki/Main_Page?oldid=4711" None)
        (trace (wt2html Sample.world0 Sample.config Sample.worker Sample.get_request
                  Sample.locals0 JUndefined))
  /\ redirect_path Sample.world0 Sample.config Sample.get_request v2_locals (JNum 4711)
     = Some "/v2/en.wikipedia.org/html/Main_Page/4711".
Proof.
  destruct (redirect_to_latest_revision Sample.world0 Sample.config Sample.worker
              Sample.get_request Sample.locals0 JUndefined eq_refl eq_refl)
    as (H1 & H2 & H3 & _).
  destruct (redirect_to_latest_revision Sample.world0 Sample.config Sample.worker
              Sample.get_request v2_locals JUndefined eq_refl eq_refl)
    as (_ & _ & _ & H4).
  destruct (H3 eq_refl (JNum 4711)) as (Hpath & _ & _).
  assert (Huri : mwApiMap Sample.config !! "enwiki"
                 = Some "https://en.wikipedia.org/w/api.php")
    by (vm_compute; reflexivity).
  split; [split; reflexivity|]. split; [exact H1|].
  rewrite (H2 120%N Sample.latest _ eq_refl Hpath).
  split; [|split].
  - vm_compute. auto 10.
  - vm_compute. auto 10.
  - rewrite (H4 eq_refl (JNum 4711) "enwiki" _ eq_refl Huri). reflexivity.
Defined.

(** Both kinds signaled: [transclusions] is cleared, [files] is reused. *)
Lemma first_signaled_kind_is_cleared_witness :
  (truthy (v2_with_original [("templates", JBool true); ("files", JBool true)]) = true
   /\ signals (v2_with_original [("templates", JBool true); ("files", JBool true)])
        "files" = true)
  /\ events (parse Sample.world0 Sample.config Sample.env0 Sample.get_request
               (locals_with_v2
                  (v2_with_original [("templates", JBool true); ("files", JBool true)])))
     = [EvLog "info" [LStr "started parsing"];
        EvPipelineParse ""
          (Some (mkExpansions (Some ∅) (Some ∅) (files Sample.old_expansions)))].
Proof.
  split; [split; reflexivity|].
  exact (first_signaled_kind_is_cleared Sample.world0 Sample.config Sample.env0
           Sample.get_request
           (locals_with_v2
              (v2_with_original [("templates", JBool true); ("files", JBool true)]))
           (JStr "<p>old</p>") (JObj []) eq_refl eq_refl eq_refl eq_refl).
Defined.

(** A template update, with a prior payload and with a cache hit. *)
Lemma templates_update_witness :
  (signals (v2_with_original [("templates", JBool true)]) "templates" = true
   /\ events (parse Sample.world0 Sample.config Sample.env0 Sample.get_request
                (locals_with_v2 (v2_with_original [("templates", JBool true)])))
      = [EvLog "info" [LStr "started parsing"];
         EvPipelineParse ""
           (Some (mkExpansions (Some ∅) (Some ∅) (files Sample.old_expansions)))])
  /\ (header Sample.update_request "x-parsoid"
      = JStr "{'cacheID':4709,'mode':'templates'}"
      /\ events (parse Sample.cached_world Sample.cached_config Sample.env0
                   Sample.update_request (locals_with_oldid (JNum 4711)))
         = [EvLog "info" [LStr "started parsing"];
            EvCacheRequest "" (JNum 4709);
            EvPipelineParse ""
              (Some (mkExpansions (Some ∅) (Some ∅) (files Sample.old_expansions)))]).
Proof.
  split.
  - destruct (templates_update_empties_transclusions_keeps_files Sample.world0
                Sample.config Sample.env0 Sample.get_request
                (locals_with_v2 (v2_with_original [("templates", JBool true)])))
      as (_ & H & _).
    split; [reflexivity|].
    exact (H (JStr "<p>old</p>") (JObj []) eq_refl eq_refl eq_refl eq_refl eq_refl).
  - destruct (templates_update_empties_transclusions_keeps_files Sample.cached_world
                Sample.cached_config Sample.env0 Sample.update_request
                (locals_with_oldid (JNum 4711)))
      as (_ & _ & H).
    split; [reflexivity|].
    assert (Hne : "{'cacheID':4709,'mode':'templates'}" <> "") by discriminate.
    exact (H _ _ (JNum 4709) 30%N "<p>cached</p>" eq_refl eq_refl eq_refl eq_refl Hne
             eq_refl eq_refl eq_refl eq_refl eq_refl).
Defined.

(** No revision id, the revision id '0', and a revision id. *)
Lemma selser_iff_oldid_and_config_witness :
  (truthy (l_oldid Sample.locals0) = false
   /\ truthy (html2wt_useSelser Sample.config
                (html2wt_env Sample.world0 Sample.locals0)) = false)
  /\ (l_oldid (locals_with_oldid (JStr "0")) = JStr "0"
      /\ truthy (html2wt_useSelser Sample.config
                   (html2wt_env Sample.world0 (locals_with_oldid (JStr "0")))) = false)
  /\ truthy (html2wt_useSelser Sample.config
               (html2wt_env Sample.world0 (locals_with_oldid (JNum 4711)))) = true.
Proof.
  split; [|split].
  - destruct (selser_iff_oldid_and_config Sample.world0 Sample.config Sample.worker
                Sample.get_request Sample.locals0 (JStr "<p>Hello</p>"))
      as (_ & _ & H & _).
    split; [reflexivity | exact (H (or_introl eq_refl))].
  - destruct (selser_iff_oldid_and_config Sample.world0 Sample.config Sample.worker
                Sample.get_request (locals_with_oldid (JStr "0")) (JStr "<p>Hello</p>"))
      as (_ & _ & H & _).
    split; [reflexivity | exact (H (or_intror eq_refl))].
  - destruct (selser_iff_oldid_and_config Sample.world0 Sample.config Sample.worker
                Sample.get_request (locals_with_oldid (JNum 4711)) (JStr "<p>Hello</p>"))
      as (H & _ & _).
    apply H. repeat split; discriminate.
Defined.

(** A serializer that never answers. *)
Lemma soft_timeout_reports_generic_error_witness :
  exceeds (REQ_TIMEOUT Sample.config)
    (html2wt_serialize Sample.stuck_world Sample.config Sample.locals0 (JStr "<p>Hello</p>"))
  /\ (exists before,
        trace (html2wt Sample.stuck_world Sample.config Sample.worker Sample.get_request
                 Sample.locals0 (JStr "<p>Hello</p>"))
        = before ++ [(240000%N, EvLog "fatal/request" [LErr generic_timeout_error])]
        /\ forallb silent before = true)
  /\ effects (snd (p <- cpuTimeout Sample.config Sample.worker
                         (Promise.then_
                            (Promise.timeout (REQ_TIMEOUT Sample.config)
                               (@Promise.external string None))
                            (html2wt_respond Sample.config Sample.locals0))
                         Sample.locals0 ;;
                   ret (catch_timeoutResp p)))
     = [(240000%N, EvProcessSend (done_message Sample.locals0));
        (240000%N, EvLog "fatal/request" [LErr generic_timeout_error])].
Proof.
  destruct (soft_timeout_reports_generic_error Sample.stuck_world Sample.config
              Sample.worker) as (_ & Hgen & Hhtml).
  split; [exact I|]. split.
  - exact (Hhtml Sample.get_request Sample.locals0 (JStr "<p>Hello</p>") I).
  - rewrite (Hgen string unit (Promise.external None)
               (html2wt_respond Sample.config Sample.locals0) Sample.locals0 I).
    reflexivity.
Defined.

(** A worker, the cluster master, and a worker on node v0.8. *)
Lemma cpuTimeout_heartbeat_protocol_witness :
  (isMaster Sample.worker = false /\ sufficientNodeVersion Sample.worker = true)
  /\ fst (cpuTimeout Sample.config Sample.worker (Promise.resolve tt) Sample.locals0)
     = [EvProcessSend
          (JObj [("type", JStr "timeout"); ("timeout", JNum 300000);
                 ("timeoutId", JNum 1); ("location", JStr "[enwiki/Main_Page]")])]
  /\ effects (snd (cpuTimeout Sample.config Sample.worker (Promise.resolve tt)
                     Sample.locals0))
     = [(0%N, EvProcessSend
                (JObj [("type", JStr "timeout"); ("done", JBool true);
                       ("timeoutId", JNum 1)]))]
  /\ cpuTimeout Sample.config Sample.master (Promise.resolve tt) Sample.locals0
     = ([], Promise.resolve tt)
  /\ cpuTimeout Sample.config Sample.old_worker (Promise.resolve tt) Sample.locals0
     = ([], Promise.resolve tt).
Proof.
  destruct (cpuTimeout_heartbeat_protocol Sample.config Sample.worker unit
              (Promise.resolve tt) Sample.locals0) as (Hworker & _).
  destruct (cpuTimeout_heartbeat_protocol Sample.config Sample.master unit
              (Promise.resolve tt) Sample.locals0) as (_ & Hmaster).
  destruct (cpuTimeout_heartbeat_protocol Sample.config Sample.old_worker unit
              (Promise.resolve tt) Sample.locals0) as (_ & Hold).
  destruct (Hworker eq_refl eq_refl) as (Hstart & _ & Hdone & _).
  split; [split; reflexivity|]. split; [exact Hstart|].
  split; [exact (Hdone 0%N (Fulfilled tt) eq_refl)|].
  split; [exact (proj1 (Hmaster (or_introl eq_refl)))
         | exact (proj1 (Hold (or_intror eq_refl)))].
Defined.

(** The two requests of the specification's scenario, for the formats
    [pagebundle] and [html]. *)
Lemma subst_only_for_html_format_witness :
  (truthy (v2_iwp Sample.config (v2_post "pagebundle" [("subst", JBool true)])) = true
   /\ format_accepted (v2_post "pagebundle" [("subst", JBool true)]) = true
   /\ flag (v2_post "pagebundle" [("subst", JBool true)]) "subst" = true)
  /\ fst (v2Middle Sample.config (v2_post "pagebundle" [("subst", JBool true)])
            Sample.locals0)
     = [EvSendResponse "Substitution is only supported for the HTML format." 501]
  /\ fst (v2Middle Sample.config (v2_post "html" [("subst", JBool true)])
            Sample.locals0)
     = [EvNext].
Proof.
  assert (Hiwp : forall f,
             truthy (v2_iwp Sample.config (v2_post f [("subst", JBool true)])) = true)
    by (intros f; vm_compute; reflexivity).
  destruct (subst_only_for_html_format Sample.config
              (v2_post "pagebundle" [("subst", JBool true)]) Sample.locals0
              (Hiwp _) eq_refl eq_refl) as (Hreject & _).
  destruct (subst_only_for_html_format Sample.config
              (v2_post "html" [("subst", JBool true)]) Sample.locals0
              (Hiwp _) eq_refl eq_refl) as (_ & Haccept).
  split; [split; [exact (Hiwp _) | split; reflexivity]|].
  split.
  - apply Hreject. discriminate.
  - exact (proj1 (Haccept eq_refl)).
Defined.

(** A page that the serializer gives back as it is. *)
Lemma round_trip_of_faithful_markup_has_no_edits_witness :
  has_marker_tail "Hello {{Template}}" = false
  /\ exists r,
       In (470%N, EvRenderResponse "roundtrip" r)
          (trace (roundtripTesting Sample.faithful_world Sample.config Sample.worker
                    Sample.get_request Sample.locals0))
       /\ rt_patch r = [Diff.Unchanged ["Hello {{Template}}"]]
       /\ no_edit_runs (rt_patch r) = true.
Proof.
  assert (Hfree : has_marker_tail "Hello {{Template}}" = false)
    by (vm_compute; reflexivity).
  destruct (round_trip_of_faithful_markup_has_no_edits Sample.faithful_world
              Sample.config Sample.worker Sample.get_request Sample.locals0
              Sample.latest (mkDocument [] [Text "Hello {{Template}}"])
              120%N 200%N 150%N "Hello {{Template}}" eq_refl eq_refl eq_refl)
    as (r & _ & Hpatch & _ & Hnone & Hin).
  split; [exact Hfree|]. exists r. split; [|split].
  - apply Hin. vm_compute. discriminate.
  - rewrite Hpatch. vm_compute. reflexivity.
  - exact (Hnone eq_refl Hfree).
Defined.

(** * Further properties of the routes *)

(** ** Observations compose along promise chains *)

Lemma observe_app {X : Type} (f : event -> option X) (l1 l2 : list (time * event)) :
  observe f (l1 ++ l2) = observe f l1 ++ observe f l2.
Proof. apply omap_app. Qed.

Lemma observe_stamp {X : Type} (f : event -> option X) (t : time) (evs : list event) :
  observe f (Promise.stamp t evs) = omap f evs.
Proof.
  unfold observe, Promise.stamp.
  induction evs as [|ev evs IH]; [reflexivity|].
  cbn [map omap list_omap snd]. rewrite IH. reflexivity.
Qed.

Lemma observe_shift {X : Type} (f : event -> option X) (t : time) (l : list (time * event)) :
  observe f (Promise.shift t l) = observe f l.
Proof.
  unfold observe, Promise.shift.
  induction l as [|[t' ev] l IH]; [reflexivity|].
  cbn [map omap list_omap snd fst]. rewrite IH. reflexivity.
Qed.

Lemma observe_then2 {X A B : Type} (f : event -> option X) (p : promise A)
  (k : A -> sync (promise B)) (g : error -> sync (promise B)) :
  observe f (effects (Promise.then2 p k g))
  = observe f (effects p)
    ++ match outcome p with
       | Some (_, Fulfilled a) => omap f (fst (k a)) ++ observe f (effects (snd (k a)))
       | Some (_, Rejected e) => omap f (fst (g e)) ++ observe f (effects (snd (g e)))
       | None => []
       end.
Proof.
  unfold Promise.then2, Promise.run_at. destruct (outcome p) as [[t [a|e]]|].
  - destruct (k a) as [evs q]. cbn [effects fst snd].
    rewrite !observe_app, observe_stamp, observe_shift. reflexivity.
  - destruct (g e) as [evs q]. cbn [effects fst snd].
    rewrite !observe_app, observe_stamp, observe_shift. reflexivity.
  - cbn [effects]. rewrite app_nil_r. reflexivity.
Qed.

Lemma observe_then {X A B : Type} (f : event -> option X) (p : promise A)
  (k : A -> sync (promise B)) :
  observe f (effects (Promise.then_ p k))
  = observe f (effects p)
    ++ match outcome p with
       | Some (_, Fulfilled a) => omap f (fst (k a)) ++ observe f (effects (snd (k a)))
       | _ => []
       end.
Proof.
  unfold Promise.then_. rewrite observe_then2.
  destruct (outcome p) as [[t [a|e]]|]; reflexivity.
Qed.

Lemma observe_trace_bind {X A B : Type} (f : event -> option X)
  (m : sync A) (k : A -> sync (promise B)) :
  observe f (trace (bind m k)) = omap f (fst m) ++ observe f (trace (k (snd m))).
Proof. rewrite trace_bind, observe_app, observe_stamp. reflexivity. Qed.

Lemma observe_trace {X A : Type} (f : event -> option X) (h : sync (promise A)) :
  observe f (trace h) = omap f (fst h) ++ observe f (effects (snd h)).
Proof. unfold trace. rewrite observe_app, observe_stamp. reflexivity. Qed.

Lemma unobserved_ret {X A : Type} (f : event -> option X) (p : promise A) :
  observe f (effects p) = [] -> unobserved f (ret p).
Proof. intros H. split; [reflexivity | exact H]. Qed.

Lemma unobserved_bind {X A B : Type} (f : event -> option X)
  (m : sync A) (k : A -> sync (promise B)) :
  omap f (fst m) = [] -> unobserved f (k (snd m)) -> unobserved f (bind m k).
Proof.
  intros Hm [Hk1 Hk2]. rewrite bind_eq. split; cbn [fst snd]; [|exact Hk2].
  rewrite omap_app, Hm, Hk1. reflexivity.
Qed.

Lemma unobserved_then2 {X A B : Type} (f : event -> option X) (p : promise A)
  (k : A -> sync (promise B)) (g : error -> sync (promise B)) :
  observe f (effects p) = [] ->
  (forall a, unobserved f (k a)) -> (forall e, unobserved f (g e)) ->
  observe f (effects (Promise.then2 p k g)) = [].
Proof.
  intros Hp Hk Hg. rewrite observe_then2, Hp.
  destruct (outcome p) as [[t [a|e]]|]; [| |reflexivity].
  - destruct (Hk a) as [-> ->]. reflexivity.
  - destruct (Hg e) as [-> ->]. reflexivity.
Qed.

Lemma unobserved_then {X A B : Type} (f : event -> option X) (p : promise A)
  (k : A -> sync (promise B)) :
  observe f (effects p) = [] -> (forall a, unobserved f (k a)) ->
  observe f (effects (Promise.then_ p k)) = [].
Proof.
  intros Hp Hk. apply unobserved_then2; [exact Hp | exact Hk |].
  intros e. split; reflexivity.
Qed.

(** ** Answers of the supervised handlers *)

Lemma then_outcome_rejected {A B : Type} (p : promise A)
  (f : A -> sync (promise B)) (t : time) (e : error) :
  outcome p = Some (t, Rejected e) ->
  outcome (Promise.then_ p f) = Some (t, Rejected e).
Proof.
  intros H. unfold Promise.then_, Promise.then2, Promise.run_at. rewrite H.
  cbn [ret Promise.reject outcome]. rewrite N.add_0_r. reflexivity.
Qed.

Lemma then_outcome_pending {A B : Type} (p : promise A) (f : A -> sync (promise B)) :
  outcome p = None -> outcome (Promise.then_ p f) = None.
Proof.
  intros H. unfold Promise.then_, Promise.then2. rewrite H. reflexivity.
Qed.

Lemma answer_heartbeat_start cfg proc res : omap answer (heartbeat_start cfg proc res) = [].
Proof. unfold heartbeat_start. destruct (worker_mode proc); reflexivity. Qed.

Lemma answer_heartbeat_done {A : Type} proc res (p : promise A) :
  observe answer (heartbeat_done proc res p) = [].
Proof.
  unfold heartbeat_done.
  destruct (worker_mode proc), (outcome p) as [[t r]|]; reflexivity.
Qed.

(** What an observer sees of a handler that hands its operation to
    [cpuTimeout] and catches with [timeoutResp]. *)
Lemma observe_supervised {X A : Type} (f : event -> option X) cfg proc res (p : promise A) :
  observe f (trace (q <- cpuTimeout cfg proc p res ;; ret (catch_timeoutResp q)))
  = omap f (heartbeat_start cfg proc res)
    ++ observe f (effects p)
    ++ observe f (heartbeat_done proc res p)
    ++ match outcome p with
       | Some (_, Rejected e) => omap f (fst (timeoutResp e))
       | _ => []
       end.
Proof.
  rewrite cpuTimeout_eq. unfold trace, bind, ret. cbn [fst snd].
  rewrite app_nil_r, observe_app, observe_stamp. f_equal.
  unfold catch_timeoutResp. rewrite observe_then2. cbn [effects outcome].
  rewrite observe_app, <- app_assoc. f_equal. f_equal.
  destruct (outcome p) as [[t [a|e]]|]; [reflexivity| |reflexivity].
  unfold bind, ret. destruct (timeoutResp e) as [evs []]. cbn [fst snd Promise.resolve effects].
  rewrite !app_nil_r. reflexivity.
Qed.

Lemma answers_supervised {A : Type} cfg proc res (p : promise A) :
  observe answer (trace (q <- cpuTimeout cfg proc p res ;; ret (catch_timeoutResp q)))
  = observe answer (effects p)
    ++ match outcome p with
       | Some (_, Rejected e) => [failure_report e]
       | _ => []
       end.
Proof.
  rewrite observe_supervised, answer_heartbeat_start, answer_heartbeat_done.
  cbn [app]. f_equal.
Qed.

Lemma answer_html2wt_respond cfg res output :
  omap answer (fst (html2wt_respond cfg res output)) = [wikitext_response res output]
  /\ observe answer (effects (snd (html2wt_respond cfg res output))) = [].
Proof.
  unfold html2wt_respond, wikitext_response.
  destruct (truthy (l_v2 res)), (performanceTimer cfg); split; reflexivity.
Qed.

Lemma answer_html2wt_prelude W cfg res html :
  omap answer (html2wt_prelude W cfg res html) = [].
Proof.
  unfold html2wt_prelude.
  destruct (truthy (allowCORS cfg)), (performanceTimer cfg); reflexivity.
Qed.

(** X1. Every [html2wt] request is answered exactly once: with the
    serializer's output (one JSON response under v2, one plain response
    otherwise) when the serializer fulfils within [REQ_TIMEOUT]; with the
    report of the serializer's error when it rejects within [REQ_TIMEOUT];
    and with the report of the generic timeout error in every other case,
    also when the serializer never settles. No request gets both a
    response and a failure report. *)
Theorem html2wt_answers_exactly_once W cfg proc req res html :
  observe answer (trace (html2wt W cfg proc req res html))
  = [match outcome (html2wt_serialize W cfg res html) with
     | Some (t, Fulfilled output) =>
         if (t <=? REQ_TIMEOUT cfg)%N then wikitext_response res output
         else failure_report new_TimeoutError
     | Some (t, Rejected err) =>
         if (t <=? REQ_TIMEOUT cfg)%N then failure_report err
         else failure_report new_TimeoutError
     | None => failure_report new_TimeoutError
     end].
Proof.
  rewrite html2wt_trace, observe_app, observe_stamp, answer_html2wt_prelude.
  cbn [app]. rewrite answers_supervised, observe_then.
  set (op := html2wt_serialize W cfg res html).
  assert (Hop : effects op = []) by reflexivity.
  cbn [Promise.timeout effects]. rewrite Hop. cbn [observe omap list_omap app].
  destruct (outcome op) as [[t [output|err]]|] eqn:E.
  - destruct (N.leb_spec t (REQ_TIMEOUT cfg)) as [Hle|Hgt].
    + rewrite (timeout_in_time _ t (Fulfilled output) op E Hle), E.
      rewrite (then_outcome_fulfilled _ _ t output E), html2wt_respond_settles.
      destruct (answer_html2wt_respond cfg res output) as [-> ->]. reflexivity.
    + rewrite timeout_exceeded by (unfold exceeds; rewrite E; exact Hgt).
      cbn [outcome].
      rewrite (then_outcome_rejected _ _ (REQ_TIMEOUT cfg) new_TimeoutError) by reflexivity.
      reflexivity.
  - destruct (N.leb_spec t (REQ_TIMEOUT cfg)) as [Hle|Hgt].
    + rewrite (timeout_in_time _ t (Rejected err) op E Hle), E.
      rewrite (then_outcome_rejected _ _ t err E). reflexivity.
    + rewrite timeout_exceeded by (unfold exceeds; rewrite E; exact Hgt).
      cbn [outcome].
      rewrite (then_outcome_rejected _ _ (REQ_TIMEOUT cfg) new_TimeoutError) by reflexivity.
      reflexivity.
  - rewrite timeout_exceeded by (unfold exceeds; rewrite E; exact I).
    cbn [outcome].
    rewrite (then_outcome_rejected _ _ (REQ_TIMEOUT cfg) new_TimeoutError) by reflexivity.
    reflexivity.
Qed.

Lemma html2wt_supervised_within cfg proc res (op : promise string) :
  effects op = [] ->
  Forall (fun te => (fst te <= REQ_TIMEOUT cfg)%N)
    (trace (p <- cpuTimeout cfg proc
                   (Promise.then_ (Promise.timeout (REQ_TIMEOUT cfg) op)
                      (html2wt_respond cfg res)) res ;;
            ret (catch_timeoutResp p))).
Proof.
  intros Hop. rewrite cpuTimeout_eq. unfold trace, bind, ret. cbn [fst snd].
  rewrite app_nil_r. apply Forall_app. split.
  { unfold heartbeat_start. destruct (worker_mode proc); repeat constructor.
    cbn [fst]. lia. }
  assert (Hcases : exists t r, (t <= REQ_TIMEOUT cfg)%N
                     /\ outcome (Promise.timeout (REQ_TIMEOUT cfg) op) = Some (t, r)).
  { unfold Promise.timeout. cbn [outcome].
    destruct (outcome op) as [[t r]|].
    - destruct (N.leb_spec t (REQ_TIMEOUT cfg)); eauto 6 using N.le_refl.
    - eauto using N.le_refl. }
  destruct Hcases as (t & r & Hle & Hout).
  unfold catch_timeoutResp, Promise.then_, Promise.then2, Promise.run_at.
  cbn [effects outcome]. rewrite Hout. cbn [Promise.timeout effects]. rewrite Hop.
  unfold heartbeat_done, html2wt_respond, timeoutResp.
  destruct r as [output|err]; cbn [outcome effects];
    destruct (truthy (l_v2 res)), (performanceTimer cfg), (worker_mode proc);
    cbn; repeat constructor; cbn [fst]; lia.
Qed.

(** X2. [html2wt] does nothing after the deadline: every effect of the
    handler, the response or the failure report and the done message to
    the supervising process included, happens at [REQ_TIMEOUT] at the
    latest, however long the serializer takes. *)
Theorem html2wt_is_done_by_the_deadline W cfg proc req res html :
  Forall (fun te => (fst te <= REQ_TIMEOUT cfg)%N)
    (trace (html2wt W cfg proc req res html)).
Proof.
  rewrite html2wt_trace. apply Forall_app. split.
  - unfold Promise.stamp. apply Forall_map, Forall_forall. intros ev _. cbn [fst]. lia.
  - apply html2wt_supervised_within. reflexivity.
Qed.

(** ** Answers of [wt2html] *)

Lemma answer_reuse_from_revision W v2 : unobserved answer (reuse_from_revision W v2).
Proof.
  unfold reuse_from_revision.
  destruct (get _ "body"); [|split; reflexivity].
  destruct (get _ "body"); split; reflexivity.
Qed.

Lemma answer_reuse_from_cache W e req : unobserved answer (reuse_from_cache W e req).
Proof.
  unfold reuse_from_cache.
  destruct (if truthy (header req "x-parsoid") then _ else _) as [parsoidHeader|];
    [|split; reflexivity].
  destruct (get parsoidHeader "cacheID"); [|split; reflexivity].
  apply unobserved_bind; [reflexivity|]. apply unobserved_ret.
  apply unobserved_then2; [reflexivity | |]; intros; split; reflexivity.
Qed.

Lemma answer_parse W cfg e req res : unobserved answer (parse W cfg e req res).
Proof.
  unfold parse. apply unobserved_bind; [reflexivity|]. apply unobserved_ret.
  apply unobserved_then.
  - destruct (truthy (l_v2 res) && _);
      [|destruct (truthy (parsoidCacheURI cfg) && _)];
      [apply unobserved_then; [reflexivity | intros; apply answer_reuse_from_revision]
      |apply unobserved_then; [reflexivity | intros; apply answer_reuse_from_cache]
      |reflexivity].
  - intros r. apply unobserved_bind; [reflexivity|]. apply unobserved_ret. reflexivity.
Qed.

Lemma answer_parseWt W cfg res c : unobserved answer (parseWt W cfg res c).
Proof.
  unfold parseWt.
  apply unobserved_bind; [reflexivity|]. apply unobserved_bind; [reflexivity|].
  apply unobserved_bind; [destruct (performanceTimer cfg); reflexivity|].
  apply unobserved_bind; [reflexivity|]. apply unobserved_ret.
  apply unobserved_then; [reflexivity|]. intros doc. split; reflexivity.
Qed.

Lemma answer_parsePageWithOldid W cfg req res c :
  unobserved answer (parsePageWithOldid W cfg req res c).
Proof.
  unfold parsePageWithOldid.
  apply unobserved_bind; [destruct (performanceTimer cfg); reflexivity|].
  destruct (answer_parse W cfg
              (c_env (if performanceTimer cfg
                      then startTimers_set c "wt2html.pageWithOldid.parse" else c))
              req res) as [Hp1 Hp2].
  apply unobserved_bind; [exact Hp1|]. apply unobserved_ret.
  apply unobserved_then; [exact Hp2|]. intros doc.
  destruct (truthy (or (header req "cookie") (l_v2 res))); split; reflexivity.
Qed.

Lemma answer_substTopLevelTemplates W res s (p : promise closure) :
  observe answer (effects p) = [] ->
  unobserved answer (substTopLevelTemplates W res s p).
Proof.
  intros Hp. unfold substTopLevelTemplates. apply unobserved_ret.
  apply unobserved_then.
  - apply unobserved_then; [exact Hp|]. intros c.
    apply unobserved_bind; [reflexivity|]. apply unobserved_ret.
    apply unobserved_then; [reflexivity|]. intros text. split; reflexivity.
  - intros [c text]. split; reflexivity.
Qed.

Lemma answer_page_source W cfg res wt : unobserved answer (page_source W cfg res wt).
Proof.
  split; [|rewrite page_source_effects; reflexivity].
  unfold page_source. destruct (truthy (l_oldid res) || negb (is_string wt)); reflexivity.
Qed.

Lemma answer_cors cfg :
  omap answer
    (fst (when (truthy (allowCORS cfg))
            (setHeader "Access-Control-Allow-Origin" (to_string (allowCORS cfg))))) = [].
Proof. destruct (truthy (allowCORS cfg)); reflexivity. Qed.

(** [sendRes] sends one response and leaves a fulfilled promise. *)
Lemma answers_sendRes W cfg res cd :
  length (omap answer (fst (sendRes W cfg res cd))) = 1
  /\ observe answer (effects (snd (sendRes W cfg res cd))) = []
  /\ outcome (snd (sendRes W cfg res cd)) = Some (0%N, Fulfilled tt).
Proof.
  unfold sendRes. destruct cd as [c doc].
  destruct (DU_extractDpAndSerialize W doc (l_body res)) as [[str dp] type].
  destruct (truthy (l_v2 res) && strict_eq_str (prop (l_v2 res) "format") "pagebundle"),
    (performanceTimer cfg), (startTimers_has c "wt2html.wt.parse"),
    (startTimers_has c "wt2html.pageWithOldid.parse"); repeat split; reflexivity.
Qed.

(** A chain raced against the deadline whose continuation answers once:
    the request is answered once, by the continuation or by the report of
    the failure. *)
Lemma deadline_chain_answers {A : Type} cfg proc res (op : promise A)
  (k : A -> sync (promise unit)) :
  observe answer (effects op) = [] ->
  (forall a, length (omap answer (fst (k a))) = 1
             /\ observe answer (effects (snd (k a))) = []
             /\ exists t, outcome (snd (k a)) = Some (t, Fulfilled tt)) ->
  length (observe answer
            (trace (q <- cpuTimeout cfg proc
                           (Promise.then_ (Promise.timeout (REQ_TIMEOUT cfg) op) k) res ;;
                    ret (catch_timeoutResp q)))) = 1.
Proof.
  intros Hop Hk. rewrite answers_supervised, observe_then.
  cbn [Promise.timeout effects]. rewrite Hop. cbn [app].
  set (q := Promise.timeout (REQ_TIMEOUT cfg) op).
  assert (Hq : exists t r, outcome q = Some (t, r)).
  { subst q. unfold Promise.timeout. cbn [outcome].
    destruct (outcome op) as [[t r]|]; [|eauto].
    destruct (t <=? REQ_TIMEOUT cfg)%N; eauto. }
  destruct Hq as (t & [a|e] & Hq).
  - rewrite (then_outcome_fulfilled _ _ t a Hq), Hq.
    destruct (Hk a) as (H1 & H2 & t' & H3). rewrite H2, H3, !app_nil_r. exact H1.
  - rewrite (then_outcome_rejected _ _ t e Hq), Hq. reflexivity.
Qed.

Lemma page_source_outcome W cfg res wt :
  outcome (snd (page_source W cfg res wt))
  = if truthy (l_oldid res) || negb (is_string wt)
    then match TemplateRequest_fetch W (target_of W res) (l_oldid res) with
         | Some (t, Fulfilled pi) =>
             Some (t, Fulfilled
                        (mkClosure (env_setPageInfo (l_env res) pi) wt (l_oldid res)
                           (if performanceTimer cfg
                            then ["wt2html.total"; "wt2html.init"] else [])))
         | Some (t, Rejected e) => Some (t, Rejected e)
         | None => None
         end
    else Some (0%N, Fulfilled
                      (mkClosure (l_env res) wt (l_oldid res)
                         (if performanceTimer cfg
                          then ["wt2html.total"; "wt2html.init"] else []))).
Proof.
  unfold page_source, target_of.
  destruct (truthy (l_oldid res) || negb (is_string wt)); [|reflexivity].
  unfold TemplateRequest_setPageSrcInfo, bind, emit, ret. cbn [snd].
  unfold Promise.then_, Promise.then2, Promise.run_at, Promise.external.
  cbn [outcome effects].
  destruct (TemplateRequest_fetch W _ (l_oldid res)) as [[t [pi|e]]|];
    cbn [outcome effects Promise.resolve Promise.reject ret];
    rewrite ?N.add_0_r; reflexivity.
Qed.

Lemma answers_redirectToOldid W cfg req res c :
  length (omap answer (fst (redirectToOldid W cfg req res c))
          ++ observe answer (effects (snd (redirectToOldid W cfg req res c)))
          ++ match outcome (snd (redirectToOldid W cfg req res c)) with
             | Some (_, Rejected e) => [failure_report e]
             | _ => []
             end) = 1
  /\ exists r, outcome (snd (redirectToOldid W cfg req res c)) = Some (0%N, r).
Proof.
  unfold redirectToOldid.
  destruct (redirect_path W cfg req res (meta_revid (c_env c))),
    (performanceTimer cfg); split; try reflexivity; eexists; reflexivity.
Qed.

(** X3. [wt2html] never answers a request twice. A request with inline
    wikitext or a revision id is answered exactly once, with the rendered
    page or the report of a failure, the timeout included; a request that
    is to be redirected is answered once when the content source settles
    (with the redirect, or the report of the failure) and is left
    unanswered while it does not, this branch having no deadline. *)
Theorem wt2html_answers_once W cfg proc req res wt :
  length (observe answer (trace (wt2html W cfg proc req res wt)))
  = if is_string wt || truthy (l_oldid res) then 1
    else match TemplateRequest_fetch W (target_of W res) (l_oldid res) with
         | Some _ => 1
         | None => 0
         end.
Proof.
  unfold wt2html.
  rewrite observe_trace_bind, answer_cors. cbn [app].
  rewrite observe_trace_bind.
  destruct (answer_page_source W cfg res wt) as [Hps1 Hps2]. rewrite Hps1. cbn [app].
  set (p0 := snd (page_source W cfg res wt)) in *.
  unfold conversion. destruct (is_string wt) eqn:Hwt.
  - cbn [orb].
    set (m := if l_subst res then substTopLevelTemplates W res (to_string wt) p0 else ret p0).
    assert (Hm : unobserved answer m).
    { subst m. destruct (l_subst res);
        [apply answer_substTopLevelTemplates | apply unobserved_ret]; exact Hps2. }
    destruct Hm as [Hm1 Hm2].
    rewrite bind_assoc, observe_trace_bind, Hm1. cbn [app]. rewrite bind_ret_l.
    apply deadline_chain_answers.
    + apply unobserved_then; [exact Hm2 | intros; apply answer_parseWt].
    + intros cd. destruct (answers_sendRes W cfg res cd) as (H1 & H2 & H3). eauto.
  - cbn [orb]. destruct (truthy (l_oldid res)) eqn:Hold.
    + rewrite bind_ret_l. apply deadline_chain_answers.
      * apply unobserved_then; [exact Hps2 | intros; apply answer_parsePageWithOldid].
      * intros cd. destruct (answers_sendRes W cfg res cd) as (H1 & H2 & H3). eauto.
    + rewrite bind_ret_l, answers_supervised, observe_then, Hps2. cbn [app].
      pose proof (page_source_outcome W cfg res wt) as Hout. fold p0 in Hout.
      rewrite Hold, Hwt in Hout. cbn [orb negb] in Hout.
      destruct (TemplateRequest_fetch W (target_of W res) (l_oldid res))
        as [[t [pi|e]]|].
      * rewrite (then_outcome_fulfilled _ _ _ _ Hout), Hout.
        destruct (answers_redirectToOldid W cfg req res
                    (mkClosure (env_setPageInfo (l_env res) pi) wt (l_oldid res)
                       (if performanceTimer cfg
                        then ["wt2html.total"; "wt2html.init"] else [])))
          as (Hlen & r & Hr).
        rewrite Hr in Hlen |- *. rewrite <- app_assoc. exact Hlen.
      * rewrite (then_outcome_rejected _ _ _ _ Hout), Hout. reflexivity.
      * rewrite (then_outcome_pending _ _ Hout), Hout. reflexivity.
Qed.

(** ** The caching of the responses of [wt2html] *)

Lemma cc_reuse_from_revision W v2 : unobserved cache_control (reuse_from_revision W v2).
Proof.
  unfold reuse_from_revision.
  destruct (get _ "body"); [|split; reflexivity].
  destruct (get _ "body"); split; reflexivity.
Qed.

Lemma cc_reuse_from_cache W e req : unobserved cache_control (reuse_from_cache W e req).
Proof.
  unfold reuse_from_cache.
  destruct (if truthy (header req "x-parsoid") then _ else _) as [parsoidHeader|];
    [|split; reflexivity].
  destruct (get parsoidHeader "cacheID"); [|split; reflexivity].
  apply unobserved_bind; [reflexivity|]. apply unobserved_ret.
  apply unobserved_then2; [reflexivity | |]; intros; split; reflexivity.
Qed.

Lemma cc_parse W cfg e req res : unobserved cache_control (parse W cfg e req res).
Proof.
  unfold parse. apply unobserved_bind; [reflexivity|]. apply unobserved_ret.
  apply unobserved_then.
  - destruct (truthy (l_v2 res) && _);
      [|destruct (truthy (parsoidCacheURI cfg) && _)];
      [apply unobserved_then; [reflexivity | intros; apply cc_reuse_from_revision]
      |apply unobserved_then; [reflexivity | intros; apply cc_reuse_from_cache]
      |reflexivity].
  - intros r. apply unobserved_bind; [reflexivity|]. apply unobserved_ret. reflexivity.
Qed.

Lemma cc_substTopLevelTemplates W res s (p : promise closure) :
  observe cache_control (effects p) = [] ->
  unobserved cache_control (substTopLevelTemplates W res s p).
Proof.
  intros Hp. unfold substTopLevelTemplates. apply unobserved_ret.
  apply unobserved_then.
  - apply unobserved_then; [exact Hp|]. intros c.
    apply unobserved_bind; [reflexivity|]. apply unobserved_ret.
    apply unobserved_then; [reflexivity|]. intros text. split; reflexivity.
  - intros [c text]. split; reflexivity.
Qed.

Lemma cc_page_source W cfg res wt : unobserved cache_control (page_source W cfg res wt).
Proof.
  split; [|rewrite page_source_effects; reflexivity].
  unfold page_source. destruct (truthy (l_oldid res) || negb (is_string wt)); reflexivity.
Qed.

Lemma cc_cors cfg :
  omap cache_control
    (fst (when (truthy (allowCORS cfg))
            (setHeader "Access-Control-Allow-Origin" (to_string (allowCORS cfg))))) = [].
Proof. destruct (truthy (allowCORS cfg)); reflexivity. Qed.

Lemma cc_sendRes W cfg res cd : unobserved cache_control (sendRes W cfg res cd).
Proof.
  unfold sendRes. destruct cd as [c doc].
  destruct (DU_extractDpAndSerialize W doc (l_body res)) as [[str dp] type].
  destruct (truthy (l_v2 res) && strict_eq_str (prop (l_v2 res) "format") "pagebundle"),
    (performanceTimer cfg), (startTimers_has c "wt2html.wt.parse"),
    (startTimers_has c "wt2html.pageWithOldid.parse"); split; reflexivity.
Qed.

Lemma cc_parseWt W cfg res c :
  omap cache_control (fst (parseWt W cfg res c)) = ["private,no-cache,s-maxage=0"]
  /\ observe cache_control (effects (snd (parseWt W cfg res c))) = [].
Proof.
  unfold parseWt. rewrite !bind_eq. cbn [fst snd].
  split.
  - destruct (performanceTimer cfg); reflexivity.
  - apply unobserved_then; [reflexivity|]. intros doc. split; reflexivity.
Qed.

Lemma cc_parsePageWithOldid W cfg req res c :
  omap cache_control (fst (parsePageWithOldid W cfg req res c)) = []
  /\ (observe cache_control (effects (snd (parsePageWithOldid W cfg req res c))) = []
      \/ observe cache_control (effects (snd (parsePageWithOldid W cfg req res c)))
         = [if truthy (or (header req "cookie") (l_v2 res))
            then "private,no-cache,s-maxage=0" else "s-maxage=2592000"]).
Proof.
  unfold parsePageWithOldid. rewrite !bind_eq. cbn [fst snd ret].
  set (e := c_env (if performanceTimer cfg
                   then startTimers_set c "wt2html.pageWithOldid.parse" else c)).
  destruct (cc_parse W cfg e req res) as [Hp1 Hp2].
  split.
  - rewrite !omap_app, Hp1. destruct (performanceTimer cfg); reflexivity.
  - rewrite observe_then, Hp2. cbn [app].
    destruct (outcome (snd (parse W cfg e req res))) as [[t [doc|err]]|]; auto.
    right. destruct (truthy (or (header req "cookie") (l_v2 res))); reflexivity.
Qed.

Lemma cc_redirectToOldid W cfg req res c :
  omap cache_control (fst (redirectToOldid W cfg req res c))
  = ["private,no-cache,s-maxage=0"]
  /\ observe cache_control (effects (snd (redirectToOldid W cfg req res c))) = [].
Proof.
  unfold redirectToOldid.
  destruct (redirect_path W cfg req res (meta_revid (c_env c))),
    (performanceTimer cfg); split; reflexivity.
Qed.

Lemma cc_supervised {A : Type} cfg proc res (p : promise A) :
  observe cache_control
    (trace (q <- cpuTimeout cfg proc p res ;; ret (catch_timeoutResp q)))
  = observe cache_control (effects p).
Proof.
  rewrite observe_supervised.
  assert (H1 : omap cache_control (heartbeat_start cfg proc res) = []).
  { unfold heartbeat_start. destruct (worker_mode proc); reflexivity. }
  assert (H2 : observe cache_control (heartbeat_done proc res p) = []).
  { unfold heartbeat_done.
    destruct (worker_mode proc), (outcome p) as [[t r]|]; reflexivity. }
  rewrite H1, H2. cbn [app].
  destruct (outcome p) as [[t [a|e]]|]; rewrite ?app_nil_r; reflexivity.
Qed.

(** X4. [wt2html] sets [Cache-Control] at most once, and always to the value
    of its policy: [s-maxage=2592000] for the rendering of a given revision
    requested through v1 without a cookie, and
    [private,no-cache,s-maxage=0] for everything else (inline wikitext,
    v2, a request with a cookie, a redirect). Inline wikitext that needs no
    fetch and no substitution is marked non-cacheable at once, whatever
    becomes of the parse. *)
Theorem wt2html_cache_control_policy W cfg proc req res wt :
  let h := observe cache_control (trace (wt2html W cfg proc req res wt)) in
  (h = [] \/ h = [cache_policy req res wt])
  /\ (is_string wt = true -> truthy (l_oldid res) = false -> l_subst res = false ->
      h = ["private,no-cache,s-maxage=0"]).
Proof.
  intros h. subst h. unfold wt2html.
  rewrite observe_trace_bind, cc_cors. cbn [app].
  rewrite observe_trace_bind.
  destruct (cc_page_source W cfg res wt) as [Hps1 Hps2]. rewrite Hps1. cbn [app].
  pose proof (page_source_outcome W cfg res wt) as Hout.
  set (p0 := snd (page_source W cfg res wt)) in *.
  unfold conversion, cache_policy. destruct (is_string wt) eqn:Hwt.
  - cbn [negb andb].
    set (m := if l_subst res then substTopLevelTemplates W res (to_string wt) p0 else ret p0).
    assert (Hm : unobserved cache_control m).
    { subst m. destruct (l_subst res);
        [apply cc_substTopLevelTemplates | apply unobserved_ret]; exact Hps2. }
    destruct Hm as [Hm1 Hm2].
    rewrite bind_assoc, observe_trace_bind, Hm1. cbn [app].
    rewrite bind_ret_l, cc_supervised, observe_then.
    cbn [Promise.timeout effects]. rewrite observe_then, Hm2. cbn [app].
    set (q := Promise.timeout (REQ_TIMEOUT cfg) (Promise.then_ (snd m) (parseWt W cfg res))).
    assert (Hsend : match outcome q with
                    | Some (_, Fulfilled a) =>
                        omap cache_control (fst (sendRes W cfg res a))
                        ++ observe cache_control (effects (snd (sendRes W cfg res a)))
                    | _ => []
                    end = []).
    { destruct (outcome q) as [[t [a|e]]|]; try reflexivity.
      destruct (cc_sendRes W cfg res a) as [-> ->]. reflexivity. }
    fold q. rewrite Hsend, app_nil_r.
    split.
    + destruct (outcome (snd m)) as [[t [c|e]]|]; auto.
      right. destruct (cc_parseWt W cfg res c) as [-> ->]. reflexivity.
    + intros _ Hold Hsubst. subst m. rewrite Hsubst. cbn [ret snd].
      subst p0. rewrite Hout, Hold. cbn [orb negb].
      match goal with
      | |- context [parseWt W cfg res ?c] =>
          destruct (cc_parseWt W cfg res c) as [-> ->]
      end.
      reflexivity.
  - cbn [negb andb]. destruct (truthy (l_oldid res)) eqn:Hold.
    + cbn [andb].
      rewrite bind_ret_l, cc_supervised, observe_then.
      cbn [Promise.timeout effects]. rewrite observe_then, Hps2. cbn [app].
      set (q := Promise.timeout (REQ_TIMEOUT cfg)
                  (Promise.then_ p0 (parsePageWithOldid W cfg req res))).
      assert (Hsend : match outcome q with
                      | Some (_, Fulfilled a) =>
                          omap cache_control (fst (sendRes W cfg res a))
                          ++ observe cache_control (effects (snd (sendRes W cfg res a)))
                      | _ => []
                      end = []).
      { destruct (outcome q) as [[t [a|e]]|]; try reflexivity.
        destruct (cc_sendRes W cfg res a) as [-> ->]. reflexivity. }
      fold q. rewrite Hsend, app_nil_r.
      split; [|discriminate].
      destruct (outcome p0) as [[t [c|e]]|]; auto.
      destruct (cc_parsePageWithOldid W cfg req res c) as [-> [-> | ->]]; auto.
      right. destruct (truthy (or (header req "cookie") (l_v2 res))); reflexivity.
    + cbn [andb]. rewrite bind_ret_l, cc_supervised, observe_then, Hps2. cbn [app].
      split; [|discriminate].
      destruct (outcome p0) as [[t [c|e]]|]; auto.
      right. destruct (cc_redirectToOldid W cfg req res c) as [-> ->]. reflexivity.
Qed.

(** ** What [wt2html] hands to the parser *)

Lemma observe_supervised_internal {X A : Type} (f : event -> option X)
  cfg proc res (p : promise A) :
  (forall msg, f (EvProcessSend msg) = None) ->
  (forall args, f (EvLog "fatal/request" args) = None) ->
  observe f (trace (q <- cpuTimeout cfg proc p res ;; ret (catch_timeoutResp q)))
  = observe f (effects p).
Proof.
  intros Hsend Hlog. rewrite observe_supervised.
  assert (H1 : omap f (heartbeat_start cfg proc res) = []).
  { unfold heartbeat_start. destruct (worker_mode proc); [|reflexivity].
    cbn. rewrite Hsend. reflexivity. }
  assert (H2 : observe f (heartbeat_done proc res p) = []).
  { unfold heartbeat_done.
    destruct (worker_mode proc), (outcome p) as [[t r]|]; try reflexivity.
    cbn. rewrite Hsend. reflexivity. }
  rewrite H1, H2. cbn [app].
  destruct (outcome p) as [[t [a|e]]|]; rewrite ?app_nil_r; try reflexivity.
  unfold timeoutResp, emit. cbn. rewrite Hlog. apply app_nil_r.
Qed.

Lemma pc_cors cfg :
  omap parse_call
    (fst (when (truthy (allowCORS cfg))
            (setHeader "Access-Control-Allow-Origin" (to_string (allowCORS cfg))))) = [].
Proof. destruct (truthy (allowCORS cfg)); reflexivity. Qed.

Lemma pc_page_source W cfg res wt : unobserved parse_call (page_source W cfg res wt).
Proof.
  split; [|rewrite page_source_effects; reflexivity].
  unfold page_source. destruct (truthy (l_oldid res) || negb (is_string wt)); reflexivity.
Qed.

Lemma pc_substTopLevelTemplates W res s (p : promise closure) :
  observe parse_call (effects p) = [] ->
  unobserved parse_call (substTopLevelTemplates W res s p).
Proof.
  intros Hp. unfold substTopLevelTemplates. apply unobserved_ret.
  apply unobserved_then.
  - apply unobserved_then; [exact Hp|]. intros c.
    apply unobserved_bind; [reflexivity|]. apply unobserved_ret.
    apply unobserved_then; [reflexivity|]. intros text. split; reflexivity.
  - intros [c text]. split; reflexivity.
Qed.

Lemma pc_sendRes W cfg res cd : unobserved parse_call (sendRes W cfg res cd).
Proof.
  unfold sendRes. destruct cd as [c doc].
  destruct (DU_extractDpAndSerialize W doc (l_body res)) as [[str dp] type].
  destruct (truthy (l_v2 res) && strict_eq_str (prop (l_v2 res) "format") "pagebundle"),
    (performanceTimer cfg), (startTimers_has c "wt2html.wt.parse"),
    (startTimers_has c "wt2html.pageWithOldid.parse"); split; reflexivity.
Qed.

Lemma pc_parseWt W cfg res c :
  omap parse_call (fst (parseWt W cfg res c)) = [(to_string (c_wt c), None)]
  /\ observe parse_call (effects (snd (parseWt W cfg res c))) = [].
Proof.
  unfold parseWt. rewrite !bind_eq. cbn [fst snd].
  split.
  - destruct (performanceTimer cfg); reflexivity.
  - apply unobserved_then; [reflexivity|]. intros doc. split; reflexivity.
Qed.

Lemma pc_then_sendRes W cfg res (q : promise (closure * document)) :
  observe parse_call (effects (Promise.then_ q (sendRes W cfg res)))
  = observe parse_call (effects q).
Proof.
  rewrite observe_then.
  destruct (outcome q) as [[t [a|e]]|]; rewrite ?app_nil_r; try reflexivity.
  destruct (pc_sendRes W cfg res a) as [-> ->]. apply app_nil_r.
Qed.

(** The promise that [substTopLevelTemplates] leaves when the page source
    is there. *)
Lemma substTopLevelTemplates_outcome W res s (p : promise closure) t0 c :
  outcome p = Some (t0, Fulfilled c) ->
  outcome (snd (substTopLevelTemplates W res s p))
  = match PHPParseRequest_promise W (target_of W res)
            (subst_loop (PegTokenizer_tokenize W s) s 0) true with
    | Some (t1, Fulfilled text) =>
        Some ((t0 + t1)%N,
              Fulfilled (with_env (with_wt c (JStr text))
                           (set_discardDataParsoid (c_env (with_wt c (JStr text))) true)))
    | Some (t1, Rejected e) => Some ((t0 + t1)%N, Rejected e)
    | None => None
    end.
Proof.
  intros Hp. unfold substTopLevelTemplates, target_of. cbn [ret snd].
  unfold Promise.then_, Promise.then2, Promise.run_at, Promise.external, bind, emit, ret.
  cbn [outcome effects]. rewrite Hp.
  destruct (PHPParseRequest_promise W _ _ true) as [[t1 [text|e]]|];
    cbn [outcome effects Promise.resolve Promise.reject];
    rewrite ?N.add_0_r; reflexivity.
Qed.

Lemma substTopLevelTemplates_not_fulfilled W res s (p : promise closure) :
  (forall t c, outcome p <> Some (t, Fulfilled c)) ->
  forall t c, outcome (snd (substTopLevelTemplates W res s p)) <> Some (t, Fulfilled c).
Proof.
  intros Hp t c. unfold substTopLevelTemplates. cbn [ret snd].
  unfold Promise.then_, Promise.then2, Promise.run_at, bind, emit, ret.
  destruct (outcome p) as [[t0 [c0|e0]]|] eqn:E.
  - exfalso. exact (Hp t0 c0 eq_refl).
  - cbn [outcome effects Promise.reject]. discriminate.
  - cbn [outcome]. discriminate.
Qed.

(** X5. For inline wikitext the parser is called at most once, on the text of
    the request as it is or, with the [subst] flag, on what the
    preprocessor returned for the text with its top-level templates
    marked, and never with expansions to reuse. It is not called when the
    fetch that a revision id asks for, or the preprocessor, does not
    fulfil. *)
Theorem inline_wikitext_is_parsed_without_reuse W cfg proc req res (s : string) :
  observe parse_call (trace (wt2html W cfg proc req res (JStr s)))
  = if page_available W res (JStr s)
    then match text_to_parse W res s with
         | Some text => [(text, None)]
         | None => []
         end
    else [].
Proof.
  unfold wt2html.
  rewrite observe_trace_bind, pc_cors. cbn [app].
  rewrite observe_trace_bind.
  destruct (pc_page_source W cfg res (JStr s)) as [Hps1 Hps2]. rewrite Hps1. cbn [app].
  pose proof (page_source_outcome W cfg res (JStr s)) as Hout.
  set (p0 := snd (page_source W cfg res (JStr s))) in *.
  unfold conversion. cbn [is_string to_string].
  set (m := if l_subst res then substTopLevelTemplates W res s p0 else ret p0).
  assert (Hm : unobserved parse_call m).
  { subst m. destruct (l_subst res);
      [apply pc_substTopLevelTemplates | apply unobserved_ret]; exact Hps2. }
  destruct Hm as [Hm1 Hm2].
  rewrite bind_assoc, observe_trace_bind, Hm1. cbn [app].
  rewrite bind_ret_l, observe_supervised_internal by reflexivity.
  rewrite pc_then_sendRes. cbn [Promise.timeout effects].
  rewrite observe_then, Hm2. cbn [app].
  unfold page_available, text_to_parse. cbn [is_string negb].
  rewrite orb_false_r in Hout |- *.
  assert (Hparse : forall t c, outcome (snd m) = Some (t, Fulfilled c) ->
            omap parse_call (fst (parseWt W cfg res c))
            ++ observe parse_call (effects (snd (parseWt W cfg res c)))
            = [(to_string (c_wt c), None)]).
  { intros t c _. destruct (pc_parseWt W cfg res c) as [-> ->]. reflexivity. }
  assert (Hnone : (forall t c, outcome p0 <> Some (t, Fulfilled c)) ->
            match outcome (snd m) with
            | Some (_, Fulfilled a) =>
                omap parse_call (fst (parseWt W cfg res a))
                ++ observe parse_call (effects (snd (parseWt W cfg res a)))
            | _ => []
            end = []).
  { intros Hp0.
    assert (Hm' : forall t c, outcome (snd m) <> Some (t, Fulfilled c)).
    { subst m. destruct (l_subst res);
        [apply substTopLevelTemplates_not_fulfilled; exact Hp0 | exact Hp0]. }
    destruct (outcome (snd m)) as [[t [c|e]]|]; try reflexivity.
    exfalso. exact (Hm' t c eq_refl). }
  assert (Hsome : forall t0 c0, outcome p0 = Some (t0, Fulfilled c0) ->
            c_wt c0 = JStr s ->
            match outcome (snd m) with
            | Some (_, Fulfilled a) =>
                omap parse_call (fst (parseWt W cfg res a))
                ++ observe parse_call (effects (snd (parseWt W cfg res a)))
            | _ => []
            end
            = match (if l_subst res
                     then match PHPParseRequest_promise W (target_of W res)
                                  (subst_loop (PegTokenizer_tokenize W s) s 0) true with
                          | Some (_, Fulfilled text) => Some text
                          | _ => None
                          end
                     else Some s) with
              | Some text => [(text, None)]
              | None => []
              end).
  { intros t0 c0 Hp0 Hwt. subst m. destruct (l_subst res).
    - rewrite (substTopLevelTemplates_outcome W res s p0 t0 c0 Hp0).
      destruct (PHPParseRequest_promise W _ _ true) as [[t1 [text|e]]|]; try reflexivity.
      match goal with
      | |- context [parseWt W cfg res ?c] => destruct (pc_parseWt W cfg res c) as [-> ->]
      end.
      reflexivity.
    - cbn [ret snd]. rewrite Hp0.
      destruct (pc_parseWt W cfg res c0) as [-> ->]. rewrite Hwt. reflexivity. }
  destruct (truthy (l_oldid res)).
  - destruct (TemplateRequest_fetch W (target_of W res) (l_oldid res))
      as [[t [pi|e]]|].
    + apply (Hsome _ _ Hout). reflexivity.
    + apply Hnone. intros t' c'. rewrite Hout. discriminate.
    + apply Hnone. intros t' c'. rewrite Hout. discriminate.
  - apply (Hsome _ _ Hout). reflexivity.
Qed.

Lemma substTopLevelTemplates_rejected W res s (p : promise closure) t e :
  outcome p = Some (t, Rejected e) ->
  outcome (snd (substTopLevelTemplates W res s p)) = Some (t, Rejected e).
Proof.
  intros Hp. unfold substTopLevelTemplates. cbn [ret snd].
  apply then_outcome_rejected, then_outcome_rejected, Hp.
Qed.

Lemma timeout_rejected {A : Type} (ms t : time) (e : error) (p : promise A) :
  outcome p = Some (t, Rejected e) ->
  exists t', outcome (Promise.timeout ms p)
             = Some (t', Rejected (if (t <=? ms)%N then e else new_TimeoutError)).
Proof.
  intros Hp. unfold Promise.timeout. cbn [outcome]. rewrite Hp.
  destruct (t <=? ms)%N; eauto.
Qed.

Lemma conversion_eq W cfg req res wt :
  conversion W cfg req res wt (snd (page_source W cfg res wt))
  = ([], wt2html_operation W cfg req res wt).
Proof.
  unfold conversion, wt2html_operation, wt2html_source.
  destruct (is_string wt); [|destruct (truthy (l_oldid res)); reflexivity].
  destruct (l_subst res); reflexivity.
Qed.

Lemma wt2html_observed {X : Type} (f : event -> option X) W cfg proc req res wt :
  observe f (trace (wt2html W cfg proc req res wt))
  = omap f (cors_header cfg)
    ++ omap f (fst (page_source W cfg res wt))
    ++ observe f (trace (q <- cpuTimeout cfg proc (wt2html_operation W cfg req res wt) res ;;
                         ret (catch_timeoutResp q))).
Proof.
  unfold wt2html. rewrite !observe_trace_bind, conversion_eq. cbn [fst snd app].
  f_equal. unfold cors_header. destruct (truthy (allowCORS cfg)); reflexivity.
Qed.

Lemma wt2html_source_rejected W cfg res wt t e :
  outcome (snd (page_source W cfg res wt)) = Some (t, Rejected e) ->
  outcome (wt2html_source W cfg res wt) = Some (t, Rejected e).
Proof.
  intros H. unfold wt2html_source. destruct (l_subst res); [|exact H].
  apply substTopLevelTemplates_rejected, H.
Qed.

Lemma wt2html_source_unobserved {X : Type} (f : event -> option X) W cfg res wt :
  (forall target s b, f (EvPHPParse target s b) = None) ->
  observe f (effects (wt2html_source W cfg res wt)) = [].
Proof.
  intros Hf. unfold wt2html_source.
  destruct (l_subst res); [|rewrite page_source_effects; reflexivity].
  unfold substTopLevelTemplates. cbn [ret snd].
  apply unobserved_then.
  - apply unobserved_then; [rewrite page_source_effects; reflexivity|]. intros c.
    apply unobserved_bind; [cbn; rewrite Hf; reflexivity|]. apply unobserved_ret.
    apply unobserved_then; [reflexivity|]. intros text. split; reflexivity.
  - intros [c text]. split; reflexivity.
Qed.

Lemma fetch_sync_unobserved {X : Type} (f : event -> option X) W cfg res wt :
  (forall target oldid, f (EvFetchPageSrc target oldid) = None) ->
  omap f (fst (page_source W cfg res wt)) = [].
Proof.
  intros Hf. unfold page_source.
  destruct (truthy (l_oldid res) || negb (is_string wt)); [|reflexivity].
  cbn. rewrite Hf. reflexivity.
Qed.

Lemma cors_unobserved {X : Type} (f : event -> option X) cfg :
  (forall name value, f (EvSetHeader name value) = None) ->
  omap f (cors_header cfg) = [].
Proof.
  intros Hf. unfold cors_header. destruct (truthy (allowCORS cfg)); [|reflexivity].
  cbn. rewrite Hf. reflexivity.
Qed.

(** X8. When the content source fails, [wt2html] parses nothing and answers
    with the report of a failure and nothing else: the error of the content
    source, or the timeout error if the branch has a deadline and the
    failure came after it. *)
Theorem fetch_failure_is_reported W cfg proc req res wt t err :
  truthy (l_oldid res) || negb (is_string wt) = true ->
  TemplateRequest_fetch W (target_of W res) (l_oldid res) = Some (t, Rejected err) ->
  observe parse_call (trace (wt2html W cfg proc req res wt)) = []
  /\ observe answer (trace (wt2html W cfg proc req res wt))
     = [failure_report
          (if (is_string wt || truthy (l_oldid res)) && negb (t <=? REQ_TIMEOUT cfg)%N
           then new_TimeoutError else err)].
Proof.
  intros Hfetch Hrej.
  pose proof (page_source_outcome W cfg res wt) as Hout.
  rewrite Hfetch, Hrej in Hout.
  pose proof (wt2html_source_rejected W cfg res wt t err Hout) as Hsrc.
  rewrite !wt2html_observed.
  rewrite (cors_unobserved parse_call), (cors_unobserved answer) by reflexivity.
  rewrite (fetch_sync_unobserved parse_call), (fetch_sync_unobserved answer)
    by reflexivity.
  cbn [app].
  rewrite observe_supervised_internal by reflexivity.
  rewrite answers_supervised.
  unfold wt2html_operation.
  destruct (is_string wt) eqn:Hwt; [|destruct (truthy (l_oldid res)) eqn:Hold].
  - cbn [orb andb].
    pose proof (then_outcome_rejected _ (parseWt W cfg res) _ _ Hsrc) as Hq.
    destruct (timeout_rejected (REQ_TIMEOUT cfg) _ _ _ Hq) as [t' Hq'].
    rewrite pc_then_sendRes, (then_outcome_rejected _ _ _ _ Hq'), observe_then, Hq'.
    cbn [Promise.timeout effects].
    rewrite !observe_then, Hsrc.
    rewrite (wt2html_source_unobserved parse_call),
      (wt2html_source_unobserved answer) by reflexivity.
    split; [reflexivity|].
    destruct (t <=? REQ_TIMEOUT cfg)%N; reflexivity.
  - cbn [orb andb].
    pose proof (then_outcome_rejected _ (parsePageWithOldid W cfg req res) _ _ Hout)
      as Hq.
    destruct (timeout_rejected (REQ_TIMEOUT cfg) _ _ _ Hq) as [t' Hq'].
    rewrite pc_then_sendRes, (then_outcome_rejected _ _ _ _ Hq'), observe_then, Hq'.
    cbn [Promise.timeout effects].
    rewrite !observe_then, Hout, !page_source_effects.
    split; [reflexivity|].
    destruct (t <=? REQ_TIMEOUT cfg)%N; reflexivity.
  - cbn [orb andb].
    rewrite (then_outcome_rejected _ _ _ _ Hout), !observe_then, Hout,
      !page_source_effects.
    split; reflexivity.
Qed.

(** ** The parse operation and the rendering cache *)

Lemma parse_unfold W cfg e req res :
  parse W cfg e req res
  = ([EvLog "info" [LStr "started parsing"]],
     Promise.then_
       (if has_prior_payload res
        then Promise.then_ (Promise.resolve (@None reuse))
               (fun _ => reuse_from_revision W (l_v2 res))
        else if consults_cache cfg req res
        then Promise.then_ (Promise.resolve (@None reuse))
               (fun _ => reuse_from_cache W e req)
        else Promise.resolve None)
       (fun r =>
          emit (EvPipelineParse (page_src e)
                  (option_map ret_expansions (figure_out_reuse r))) ;;;
          ret (Promise.external
                 (pipelineFactory_parse W e (page_src e)
                    (option_map ret_expansions (figure_out_reuse r)))))).
Proof.
  unfold parse, consults_cache, has_prior_payload, prior_revision.
  destruct (truthy (l_v2 res) && truthy (or (prop (l_v2 res) "previous")
                                            (prop (l_v2 res) "original"))); reflexivity.
Qed.

Lemma then_resolve_eq {A B : Type} (a : A) (h : sync (promise B)) :
  Promise.then_ (Promise.resolve a) (fun _ => h)
  = mkPromise (Promise.stamp 0%N (fst h) ++ Promise.shift 0%N (effects (snd h)))
              (later 0%N (outcome (snd h))).
Proof.
  unfold Promise.then_, Promise.then2, Promise.resolve, Promise.run_at. cbn [outcome effects].
  destruct h as [evs q]. reflexivity.
Qed.

Lemma observe_then_resolve {X A B : Type} (f : event -> option X) (a : A)
  (h : sync (promise B)) :
  observe f (effects (Promise.then_ (Promise.resolve a) (fun _ => h)))
  = omap f (fst h) ++ observe f (effects (snd h)).
Proof. rewrite observe_then. reflexivity. Qed.

(** X9. [parse] consults the rendering cache at most once, and only when there
    is no prior payload in the request, a cache is configured and the
    request is not marked as coming from Parsoid itself
    ([x-parsoid-request]); the key is the title with the [cacheID] of the
    [X-Parsoid] header or, without one, the parent revision id. *)
Theorem parse_consults_cache_at_most_once W cfg e req res :
  observe cache_call (trace (parse W cfg e req res))
  = if consults_cache cfg req res
    then match parsoid_header W req with
         | Some parsoidHeader =>
             match get parsoidHeader "cacheID" with
             | Some cacheID => [(meta_title e, or cacheID (meta_parentid e))]
             | None => []
             end
         | None => []
         end
    else [].
Proof.
  rewrite parse_unfold, observe_trace. cbn [fst snd omap list_omap cache_call app].
  rewrite observe_then.
  assert (Htail : forall (p : promise (option reuse)),
            match outcome p with
            | Some (_, Fulfilled r) =>
                omap cache_call
                  (fst (emit (EvPipelineParse (page_src e)
                                (option_map ret_expansions (figure_out_reuse r))) ;;;
                        ret (Promise.external
                               (pipelineFactory_parse W e (page_src e)
                                  (option_map ret_expansions (figure_out_reuse r))))))
                ++ observe cache_call
                     (effects
                        (snd (emit (EvPipelineParse (page_src e)
                                      (option_map ret_expansions (figure_out_reuse r))) ;;;
                              ret (Promise.external
                                     (pipelineFactory_parse W e (page_src e)
                                        (option_map ret_expansions
                                           (figure_out_reuse r)))))))
            | _ => []
            end = []).
  { intros p. destruct (outcome p) as [[t [r|err]]|]; reflexivity. }
  rewrite Htail, app_nil_r.
  unfold consults_cache. destruct (has_prior_payload res); cbn [negb andb].
  - rewrite observe_then_resolve. unfold reuse_from_revision.
    destruct (get _ "body"); [|reflexivity].
    destruct (get _ "body"); reflexivity.
  - destruct (truthy (parsoidCacheURI cfg) && negb (truthy (header req "x-parsoid-request")));
      [|reflexivity].
    rewrite observe_then_resolve. unfold reuse_from_cache, parsoid_header.
    destruct (if truthy (header req "x-parsoid") then _ else _) as [parsoidHeader|];
      [|reflexivity].
    destruct (get parsoidHeader "cacheID") as [cacheID|]; [|reflexivity].
    rewrite bind_eq. cbn [fst snd emit ret omap list_omap cache_call app].
    rewrite unobserved_then2; [reflexivity | reflexivity | |];
      intros; split; reflexivity.
Qed.

Lemma parse_with_cache W cfg e req res parsoidHeader cacheID :
  consults_cache cfg req res = true ->
  parsoid_header W req = Some parsoidHeader ->
  get parsoidHeader "cacheID" = Some cacheID ->
  exists k,
    snd (parse W cfg e req res)
    = Promise.then_
        (mkPromise [(0%N, EvCacheRequest (meta_title e) (or cacheID (meta_parentid e)))]
           (match ParsoidCacheRequest_promise W (meta_title e)
                    (or cacheID (meta_parentid e)) with
            | Some (t, Fulfilled src) =>
                Some (t, Fulfilled
                           (Some (mkReuse (DU_extractExpansions W (DU_parseHTML W (JStr src)))
                                     (if truthy cacheID then prop parsoidHeader "mode"
                                      else JUndefined))))
            | Some (t, Rejected _) => Some (t, Fulfilled None)
            | None => None
            end)) k
    /\ k = (fun r =>
              emit (EvPipelineParse (page_src e)
                      (option_map ret_expansions (figure_out_reuse r))) ;;;
              ret (Promise.external
                     (pipelineFactory_parse W e (page_src e)
                        (option_map ret_expansions (figure_out_reuse r))))).
Proof.
  intros Hc Hh Hid. eexists. split; [|reflexivity].
  rewrite parse_unfold. cbn [snd].
  assert (Hprior : has_prior_payload res = false).
  { unfold consults_cache in Hc. destruct (has_prior_payload res); [discriminate|reflexivity]. }
  rewrite Hprior, Hc. f_equal.
  rewrite then_resolve_eq. unfold reuse_from_cache.
  unfold parsoid_header in Hh. rewrite Hh, Hid.
  assert (Hprop : prop parsoidHeader "cacheID" = cacheID) by (unfold prop; rewrite Hid; reflexivity).
  rewrite Hprop.
  unfold bind, emit, ret, Promise.then2, Promise.external, Promise.run_at, later.
  cbn [fst snd outcome effects].
  destruct (ParsoidCacheRequest_promise W _ _) as [[t [src|err]]|];
    cbn [outcome effects Promise.resolve Promise.stamp Promise.shift map app fst snd];
    rewrite ?N.add_0_r; try reflexivity.
  destruct (truthy cacheID); reflexivity.
Qed.

(** X10. A failure of the rendering cache never fails the request: the page is
    parsed in full, without expansions to reuse, and [parse] settles as
    the parser does. A cache hit for a request without [cacheID] reuses all
    the expansions of the cached rendering, whatever [mode] the header
    names. *)
Theorem cache_answer_decides_reuse W cfg e req res parsoidHeader cacheID :
  consults_cache cfg req res = true ->
  parsoid_header W req = Some parsoidHeader ->
  get parsoidHeader "cacheID" = Some cacheID ->
  let key := or cacheID (meta_parentid e) in
  (forall t err,
      ParsoidCacheRequest_promise W (meta_title e) key = Some (t, Rejected err) ->
      events (parse W cfg e req res)
      = [EvLog "info" [LStr "started parsing"];
         EvCacheRequest (meta_title e) key;
         EvPipelineParse (page_src e) None]
      /\ outcome (snd (parse W cfg e req res))
         = later t (pipelineFactory_parse W e (page_src e) None))
  /\ (forall t src,
        ParsoidCacheRequest_promise W (meta_title e) key = Some (t, Fulfilled src) ->
        truthy cacheID = false ->
        events (parse W cfg e req res)
        = [EvLog "info" [LStr "started parsing"];
           EvCacheRequest (meta_title e) key;
           EvPipelineParse (page_src e)
             (Some (DU_extractExpansions W (DU_parseHTML W (JStr src))))]).
Proof.
  intros Hc Hh Hid key.
  destruct (parse_with_cache W cfg e req res parsoidHeader cacheID Hc Hh Hid)
    as (k & Hsnd & Hk).
  assert (Hfst : fst (parse W cfg e req res) = [EvLog "info" [LStr "started parsing"]])
    by (rewrite parse_unfold; reflexivity).
  split.
  - intros t err Hcache. unfold events, trace. rewrite Hfst, Hsnd.
    fold key. rewrite Hcache, Hk.
    unfold Promise.then_, Promise.then2, Promise.run_at, Promise.external, later,
      bind, emit, ret.
    cbn. split; reflexivity.
  - intros t src Hcache Hno. unfold events, trace. rewrite Hfst, Hsnd.
    fold key. rewrite Hcache, Hk, Hno.
    unfold Promise.then_, Promise.then2, Promise.run_at, Promise.external,
      bind, emit, ret.
    cbn. reflexivity.
Qed.

(** X11. A prior payload without [html] or without [data-parsoid] makes [parse]
    fail with a [TypeError] at once: the parser is not called, and neither
    is the rendering cache. *)
Theorem malformed_prior_payload_fails_parse W cfg e req res :
  has_prior_payload res = true ->
  get (prop (prior_revision (l_v2 res)) "html") "body" = None
  \/ get (prop (prior_revision (l_v2 res)) "data-parsoid") "body" = None ->
  events (parse W cfg e req res) = [EvLog "info" [LStr "started parsing"]]
  /\ outcome (snd (parse W cfg e req res))
     = Some (0%N, Rejected (new_TypeError "Cannot read property 'body' of undefined")).
Proof.
  intros Hprior Hmal. rewrite parse_unfold. unfold events, trace. cbn [fst snd].
  rewrite Hprior, then_resolve_eq.
  assert (Hrev : reuse_from_revision W (l_v2 res)
                 = throw_TypeError "body").
  { unfold reuse_from_revision. fold (prior_revision (l_v2 res)).
    destruct Hmal as [-> | Hdp]; [reflexivity|].
    destruct (get (prop (prior_revision (l_v2 res)) "html") "body"); [|reflexivity].
    rewrite Hdp. reflexivity. }
  rewrite Hrev. split; reflexivity.
Qed.

(** ** The round-trip routes *)

Lemma answer_roundTripDiff W e req useSelser doc :
  unobserved answer (roundTripDiff W e req useSelser doc).
Proof.
  unfold roundTripDiff. apply unobserved_bind; [reflexivity|]. apply unobserved_ret.
  apply unobserved_then; [reflexivity|]. intros out. split; reflexivity.
Qed.

Lemma answers_rtResponse (data : report) :
  length (omap answer (fst (rtResponse data))) = 1
  /\ observe answer (effects (snd (rtResponse data))) = []
  /\ exists t, outcome (snd (rtResponse data)) = Some (t, Fulfilled tt).
Proof. repeat split. eexists. reflexivity. Qed.

Lemma rt_route_answers_once W cfg proc req res
  (derive : env -> document -> sync (promise report)) :
  (forall e doc, unobserved answer (derive e doc)) ->
  length (observe answer (trace (rt_route W cfg proc req res derive))) = 1.
Proof.
  intros Hderive. unfold rt_route.
  rewrite observe_trace_bind.
  unfold TemplateRequest_setPageSrcInfo at 1. cbn [fst bind emit ret omap list_omap answer app].
  apply deadline_chain_answers; [|intros; apply answers_rtResponse].
  apply unobserved_then.
  - apply unobserved_then.
    + unfold TemplateRequest_setPageSrcInfo, bind, emit, ret. cbn [snd].
      apply unobserved_then; [reflexivity|]. intros pi. split; reflexivity.
    + intros e. destruct (answer_parse W cfg e req res) as [H1 H2].
      apply unobserved_bind; [exact H1|]. apply unobserved_ret.
      apply unobserved_then; [exact H2|]. intros doc. split; reflexivity.
  - intros [e doc]. apply Hderive.
Qed.

(** X12. Each of the three round-trip routes answers every request exactly
    once: it renders the report, or it logs the failure of the fetch, of
    the parse or of the serialization, or the timeout. *)
Theorem round_trip_routes_answer_once W cfg proc req res :
  length (observe answer (trace (roundtripTesting W cfg proc req res))) = 1
  /\ length (observe answer (trace (roundtripTestingNL W cfg proc req res))) = 1
  /\ length (observe answer (trace (roundtripSelser W cfg proc req res))) = 1.
Proof.
  split; [|split]; apply rt_route_answers_once; intros; apply answer_roundTripDiff.
Qed.

Lemma quiet_roundTripDiff W e req useSelser doc :
  quiet (roundTripDiff W e req useSelser doc).
Proof.
  unfold roundTripDiff. apply quiet_bind; [reflexivity|]. apply quiet_ret.
  apply quiet_then; [reflexivity|]. intros out. split; reflexivity.
Qed.

Lemma quiet_postRtForm W cfg req res : quiet (postRtForm W cfg req res).
Proof.
  unfold postRtForm.
  set (e := env_setPageSrcInfo (rt_env req res) (body_field req "content")).
  destruct (quiet_parse W cfg e req res) as [H1 H2].
  apply quiet_bind; [exact H1|]. apply quiet_ret.
  unfold Promise.catch. apply quiet_then2.
  - apply quiet_then; [|intros; split; reflexivity].
    apply quiet_then; [exact H2 | intros; apply quiet_roundTripDiff].
  - intros []. split; reflexivity.
  - intros err. split; reflexivity.
Qed.

(** X13. [postRtForm] runs outside the supervision of the other handlers. It
    sends nothing to the supervising process. For a request without prior
    payload and without rendering cache, it parses the [content] of the
    form, with nothing to reuse; when the parser rejects, the error is
    logged as it is, a timeout error of a collaborator included; and when
    the parser never answers the request is never answered, there being no
    deadline. *)
Theorem postRtForm_is_unsupervised W cfg req res (content : string) :
  let e := env_setPageSrcInfo (rt_env req res) (JStr content) in
  has_prior_payload res = false ->
  consults_cache cfg req res = false ->
  body_field req "content" = JStr content ->
  sends (trace (postRtForm W cfg req res)) = []
  /\ observe parse_call (trace (postRtForm W cfg req res)) = [(content, None)]
  /\ (forall t err,
        pipelineFactory_parse W e content None = Some (t, Rejected err) ->
        observe answer (trace (postRtForm W cfg req res))
        = [EvLog "fatal/request" [LErr err]])
  /\ (pipelineFactory_parse W e content None = None ->
      observe answer (trace (postRtForm W cfg req res)) = []).
Proof.
  intros e Hprior Hcache Hcontent.
  split.
  { destruct (quiet_postRtForm W cfg req res) as [H1 H2].
    unfold trace. rewrite sends_app, sends_stamp, H1, H2. reflexivity. }
  unfold postRtForm. rewrite Hcontent. fold e.
  rewrite parse_unfold, Hprior, Hcache.
  assert (Hsrc : page_src e = content) by reflexivity.
  rewrite Hsrc. cbn [figure_out_reuse option_map].
  unfold trace, bind, emit, ret, Promise.catch, Promise.then_, Promise.then2,
    Promise.run_at, Promise.external, Promise.resolve.
  cbn [fst snd outcome effects figure_out_reuse option_map].
  destruct (pipelineFactory_parse W e content None) as [[t [doc|err]]|].
  - split; [|split; [discriminate|discriminate]].
    unfold roundTripDiff, bind, emit, ret, Promise.then_, Promise.then2,
      Promise.run_at, Promise.external. cbn [fst snd outcome effects].
    destruct (DU_serializeDOM W e
                (doc_body (domino_createDocument W (outerHTML W doc))) false)
      as [[t' [out|err]]|]; reflexivity.
  - split; [reflexivity|]. split; [|discriminate].
    intros t' err' [= <- <-]. reflexivity.
  - split; [reflexivity|]. split; [discriminate|]. reflexivity.
Qed.

(** ** The answers of [wt2html], case by case *)

Lemma page_source_inline W cfg res (s : string) :
  truthy (l_oldid res) = false ->
  page_source W cfg res (JStr s)
  = ([], Promise.resolve
           (mkClosure (l_env res) (JStr s) (l_oldid res)
              (if performanceTimer cfg then ["wt2html.total"; "wt2html.init"] else []))).
Proof. intros Hold. unfold page_source. rewrite Hold. reflexivity. Qed.

Lemma answer_sendRes_exact W cfg res c doc :
  omap answer (fst (sendRes W cfg res (c, doc))) = [html_response W res doc].
Proof.
  unfold sendRes, html_response.
  destruct (DU_extractDpAndSerialize W doc (l_body res)) as [[str dp] type].
  destruct (truthy (l_v2 res) && strict_eq_str (prop (l_v2 res) "format") "pagebundle"),
    (performanceTimer cfg), (startTimers_has c "wt2html.wt.parse"),
    (startTimers_has c "wt2html.pageWithOldid.parse"); reflexivity.
Qed.

(** The answers of a chain raced against the deadline whose continuation
    is [sendRes]. *)
Lemma answers_by_deadline W cfg proc res (op : promise (closure * document)) :
  observe answer (effects op) = [] ->
  observe answer
    (trace (q <- cpuTimeout cfg proc
                   (Promise.then_ (Promise.timeout (REQ_TIMEOUT cfg) op)
                      (sendRes W cfg res)) res ;;
            ret (catch_timeoutResp q)))
  = [answer_by_deadline (REQ_TIMEOUT cfg) (outcome op)
       (fun cd => html_response W res (snd cd))].
Proof.
  intros Hop. rewrite answers_supervised, observe_then.
  cbn [Promise.timeout effects]. rewrite Hop. cbn [app].
  unfold answer_by_deadline.
  assert (Hsend : forall t cd,
            outcome (Promise.timeout (REQ_TIMEOUT cfg) op) = Some (t, Fulfilled cd) ->
            match outcome (Promise.timeout (REQ_TIMEOUT cfg) op) with
            | Some (_, Fulfilled a) =>
                omap answer (fst (sendRes W cfg res a))
                ++ observe answer (effects (snd (sendRes W cfg res a)))
            | _ => []
            end
            ++ match outcome (Promise.then_ (Promise.timeout (REQ_TIMEOUT cfg) op)
                                (sendRes W cfg res)) with
               | Some (_, Rejected e) => [failure_report e]
               | _ => []
               end
            = [html_response W res (snd cd)]).
  { intros t [c doc] Hq. rewrite (then_outcome_fulfilled _ _ t (c, doc) Hq), Hq.
    destruct (answers_sendRes W cfg res (c, doc)) as (_ & -> & ->).
    rewrite answer_sendRes_exact. reflexivity. }
  assert (Hfail : forall t e,
            outcome (Promise.timeout (REQ_TIMEOUT cfg) op) = Some (t, Rejected e) ->
            match outcome (Promise.timeout (REQ_TIMEOUT cfg) op) with
            | Some (_, Fulfilled a) =>
                omap answer (fst (sendRes W cfg res a))
                ++ observe answer (effects (snd (sendRes W cfg res a)))
            | _ => []
            end
            ++ match outcome (Promise.then_ (Promise.timeout (REQ_TIMEOUT cfg) op)
                                (sendRes W cfg res)) with
               | Some (_, Rejected e) => [failure_report e]
               | _ => []
               end
            = [failure_report e]).
  { intros t e Hq. rewrite (then_outcome_rejected _ _ t e Hq), Hq. reflexivity. }
  destruct (outcome op) as [[t [cd|err]]|] eqn:E.
  - destruct (N.leb_spec t (REQ_TIMEOUT cfg)) as [Hle|Hgt].
    + apply (Hsend t). rewrite (timeout_in_time _ t (Fulfilled cd) op E Hle). exact E.
    + apply (Hfail (REQ_TIMEOUT cfg)).
      rewrite timeout_exceeded by (unfold exceeds; rewrite E; exact Hgt). reflexivity.
  - destruct (N.leb_spec t (REQ_TIMEOUT cfg)) as [Hle|Hgt].
    + apply (Hfail t). rewrite (timeout_in_time _ t (Rejected err) op E Hle). exact E.
    + apply (Hfail (REQ_TIMEOUT cfg)).
      rewrite timeout_exceeded by (unfold exceeds; rewrite E; exact Hgt). reflexivity.
  - apply (Hfail (REQ_TIMEOUT cfg)).
    rewrite timeout_exceeded by (unfold exceeds; rewrite E; exact I). reflexivity.
Qed.

Lemma parseWt_outcome W cfg res c :
  outcome (snd (parseWt W cfg res c))
  = match pipelineFactory_parse W
            (if truthy (l_pageName res)
             then env_setPageSrcInfo (c_env c) (c_wt c)
             else set_page_name (env_setPageSrcInfo (c_env c) (c_wt c)) "")
            (to_string (c_wt c)) None with
    | Some (t, Fulfilled doc) =>
        Some (t, Fulfilled
                   (with_env (if performanceTimer cfg
                              then startTimers_set c "wt2html.wt.parse" else c)
                      (if truthy (l_pageName res)
                       then env_setPageSrcInfo (c_env c) (c_wt c)
                       else set_page_name (env_setPageSrcInfo (c_env c) (c_wt c)) ""),
                    doc))
    | Some (t, Rejected e) => Some (t, Rejected e)
    | None => None
    end.
Proof.
  unfold parseWt. rewrite !bind_eq. cbn [snd ret].
  unfold Promise.then_, Promise.then2, Promise.run_at, Promise.external.
  cbn [outcome effects].
  destruct (pipelineFactory_parse W _ (to_string (c_wt c)) None) as [[t [doc|e]]|];
    cbn [ret Promise.resolve Promise.reject outcome]; rewrite ?N.add_0_r; reflexivity.
Qed.

(** X6. A request with inline wikitext, no revision id and no substitution is
    answered exactly once. The parser gets the text as the page source,
    with the default page name cleared when the request names no page.
    The answer is the rendered document when the parser fulfils within
    [REQ_TIMEOUT], the report of the parser's error when it rejects
    within [REQ_TIMEOUT], and the report of the generic timeout error
    otherwise. *)
Theorem inline_wikitext_answer W cfg proc req res (s : string) :
  truthy (l_oldid res) = false ->
  l_subst res = false ->
  observe answer (trace (wt2html W cfg proc req res (JStr s)))
  = [answer_by_deadline (REQ_TIMEOUT cfg)
       (pipelineFactory_parse W (inline_env res s) s None)
       (html_response W res)].
Proof.
  intros Hold Hsubst.
  rewrite wt2html_observed, (cors_unobserved answer) by reflexivity.
  rewrite (fetch_sync_unobserved answer) by reflexivity. cbn [app].
  unfold wt2html_operation, wt2html_source. cbn [is_string]. rewrite Hsubst.
  rewrite page_source_inline by exact Hold. cbn [snd].
  set (c0 := mkClosure (l_env res) (JStr s) (l_oldid res) _).
  rewrite answers_by_deadline.
  2:{ apply unobserved_then; [reflexivity | intros; apply answer_parseWt]. }
  f_equal.
  rewrite (then_outcome_fulfilled _ _ 0%N c0) by reflexivity.
  rewrite parseWt_outcome. cbn [c_env c_wt c0 to_string]. fold (inline_env res s).
  unfold answer_by_deadline.
  destruct (pipelineFactory_parse W (inline_env res s) s None) as [[t [doc|e]]|];
    reflexivity.
Qed.

Lemma parsePageWithOldid_without_reuse W cfg req res c :
  has_prior_payload res = false ->
  consults_cache cfg req res = false ->
  let c' := if performanceTimer cfg
            then startTimers_set c "wt2html.pageWithOldid.parse" else c in
  let src := page_src (c_env c') in
  parsePageWithOldid W cfg req res c
  = ((if performanceTimer cfg
      then [EvTimerTiming "wt2html.pageWithOldid.init";
            EvTimerTiming "wt2html.pageWithOldid.size.input"]
      else [])
     ++ [EvLog "info" [LStr "started parsing"]],
     mkPromise
       ((0%N, EvPipelineParse src None)
        :: match pipelineFactory_parse W (c_env c') src None with
           | Some (t, Fulfilled _) =>
               [(t, EvSetHeader "Cache-Control"
                      (if truthy (or (header req "cookie") (l_v2 res))
                       then no_cache else "s-maxage=2592000"));
                (t, EvSetHeader "content-revision-id" (to_string (c_oldid c')))]
           | _ => []
           end)
       (match pipelineFactory_parse W (c_env c') src None with
        | Some (t, Fulfilled doc) => Some (t, Fulfilled (c', doc))
        | Some (t, Rejected e) => Some (t, Rejected e)
        | None => None
        end)).
Proof.
  intros Hprior Hcache c' src. unfold parsePageWithOldid. fold c'.
  rewrite parse_unfold, Hprior, Hcache. fold src.
  unfold bind, emit, ret, when, Promise.then_, Promise.then2, Promise.run_at,
    Promise.external, Promise.resolve, setHeader.
  cbn [fst snd outcome effects figure_out_reuse option_map].
  destruct (pipelineFactory_parse W (c_env c') src None) as [[t [doc|e]]|];
    destruct (performanceTimer cfg);
    destruct (truthy (or (header req "cookie") (l_v2 res)));
    cbn [fst snd outcome effects Promise.reject Promise.stamp Promise.shift map app
         emit ret];
    rewrite ?N.add_0_r; reflexivity.
Qed.

Lemma header_sendRes W cfg res c doc :
  omap header_set (fst (sendRes W cfg res (c, doc)))
  = (if truthy (l_v2 res) && strict_eq_str (prop (l_v2 res) "format") "pagebundle"
     then [] else [("content-type", html_contentType)])
  /\ observe header_set (effects (snd (sendRes W cfg res (c, doc)))) = [].
Proof.
  unfold sendRes.
  destruct (DU_extractDpAndSerialize W doc (l_body res)) as [[str dp] type].
  destruct (truthy (l_v2 res) && strict_eq_str (prop (l_v2 res) "format") "pagebundle"),
    (performanceTimer cfg), (startTimers_has c "wt2html.wt.parse"),
    (startTimers_has c "wt2html.pageWithOldid.parse"); split; reflexivity.
Qed.

(** X7. A request for a revision, with nothing to reuse, parses the source
    that the content source returned for that revision, once and in full.
    It is answered once: with the rendered document when fetch and parse
    are done within [REQ_TIMEOUT], with the report of a failure otherwise.
    The response that carries the document names the revision in
    [content-revision-id] and has the [Cache-Control] of the policy. *)
Theorem revision_request_parses_the_fetched_source W cfg proc req res wt t0 pi :
  is_string wt = false ->
  truthy (l_oldid res) = true ->
  TemplateRequest_fetch W (target_of W res) (l_oldid res) = Some (t0, Fulfilled pi) ->
  has_prior_payload res = false ->
  consults_cache cfg req res = false ->
  let e := env_setPageInfo (l_env res) pi in
  let h := wt2html W cfg proc req res wt in
  observe parse_call (trace h) = [(pi_src pi, None)]
  /\ observe answer (trace h)
     = [answer_by_deadline (REQ_TIMEOUT cfg)
          (later t0 (pipelineFactory_parse W e (pi_src pi) None))
          (html_response W res)]
  /\ (forall t1 doc,
        pipelineFactory_parse W e (pi_src pi) None = Some (t1, Fulfilled doc) ->
        (t0 + t1 <= REQ_TIMEOUT cfg)%N ->
        observe header_set (trace h)
        = omap header_set (cors_header cfg)
          ++ [("Cache-Control", cache_policy req res wt);
              ("content-revision-id", to_string (l_oldid res))]
          ++ (if truthy (l_v2 res)
                 && strict_eq_str (prop (l_v2 res) "format") "pagebundle"
              then [] else [("content-type", html_contentType)])).
Proof.
  intros Hwt Hold Hfetch Hprior Hcache e h. subst h.
  pose proof (page_source_outcome W cfg res wt) as Hout.
  rewrite Hold, Hfetch in Hout. cbn [orb] in Hout. fold e in Hout.
  set (c0 := mkClosure e wt (l_oldid res) _) in Hout.
  pose proof (parsePageWithOldid_without_reuse W cfg req res c0 Hprior Hcache) as Hpp.
  cbn zeta in Hpp.
  set (c' := if performanceTimer cfg
             then startTimers_set c0 "wt2html.pageWithOldid.parse" else c0) in Hpp.
  assert (He : c_env c' = e) by (subst c' c0; destruct (performanceTimer cfg); reflexivity).
  assert (Hid : c_oldid c' = l_oldid res)
    by (subst c' c0; destruct (performanceTimer cfg); reflexivity).
  rewrite He, Hid in Hpp. change (page_src e) with (pi_src pi) in Hpp.
  set (op := Promise.then_ (snd (page_source W cfg res wt))
               (parsePageWithOldid W cfg req res)).
  assert (Hop : wt2html_operation W cfg req res wt
                = Promise.then_ (Promise.timeout (REQ_TIMEOUT cfg) op)
                    (sendRes W cfg res)).
  { unfold wt2html_operation. rewrite Hwt, Hold. reflexivity. }
  assert (Hop_out : outcome op
                    = match pipelineFactory_parse W e (pi_src pi) None with
                      | Some (t, Fulfilled doc) => Some ((t0 + t)%N, Fulfilled (c', doc))
                      | Some (t, Rejected err) => Some ((t0 + t)%N, Rejected err)
                      | None => None
                      end).
  { subst op. rewrite (then_outcome_fulfilled _ _ _ _ Hout), Hpp. cbn [snd outcome].
    destruct (pipelineFactory_parse W e (pi_src pi) None) as [[t [doc|err]]|];
      reflexivity. }
  assert (Hop_eff : forall (X : Type) (f : event -> option X),
            observe f (effects op)
            = omap f (fst (parsePageWithOldid W cfg req res c0))
              ++ observe f (effects (snd (parsePageWithOldid W cfg req res c0)))).
  { intros X f. subst op. rewrite observe_then, Hout, page_source_effects. reflexivity. }
  rewrite !wt2html_observed, Hop.
  split; [|split].
  - rewrite (cors_unobserved parse_call), (fetch_sync_unobserved parse_call)
      by reflexivity.
    cbn [app]. rewrite observe_supervised_internal by reflexivity.
    rewrite pc_then_sendRes. cbn [Promise.timeout effects].
    rewrite Hop_eff, Hpp. cbn [fst snd effects].
    destruct (performanceTimer cfg),
      (pipelineFactory_parse W e (pi_src pi) None) as [[t [doc|err]]|]; reflexivity.
  - rewrite (cors_unobserved answer), (fetch_sync_unobserved answer) by reflexivity.
    cbn [app]. rewrite answers_by_deadline.
    2:{ rewrite Hop_eff. destruct (answer_parsePageWithOldid W cfg req res c0) as [-> ->].
        reflexivity. }
    rewrite Hop_out. unfold answer_by_deadline, later.
    destruct (pipelineFactory_parse W e (pi_src pi) None) as [[t [doc|err]]|];
      reflexivity.
  - intros t1 doc Hparse Htime.
    rewrite (fetch_sync_unobserved header_set) by reflexivity. cbn [app].
    rewrite observe_supervised_internal by reflexivity.
    f_equal. rewrite observe_then.
    assert (Hq : outcome (Promise.timeout (REQ_TIMEOUT cfg) op)
                 = Some ((t0 + t1)%N, Fulfilled (c', doc))).
    { rewrite Hparse in Hop_out.
      rewrite (timeout_in_time _ _ _ op Hop_out Htime). exact Hop_out. }
    rewrite Hq. destruct (header_sendRes W cfg res c' doc) as [-> ->].
    rewrite app_nil_r. cbn [Promise.timeout effects].
    rewrite Hop_eff, Hpp, Hparse. cbn [fst snd effects].
    unfold cache_policy. rewrite Hwt, Hold. cbn [negb andb].
    destruct (performanceTimer cfg), (truthy (or (header req "cookie") (l_v2 res)));
      reflexivity.
Qed.

(** X27. Under v2 the redirect needs the API entry of the wiki: when
    [mwApiMap] has none for the prefix of the request, the lookup throws,
    no redirect is sent, and the request is answered with the report of the
    [TypeError], after the response has been marked non-cacheable. *)
Theorem v2_redirect_needs_the_api_entry W cfg proc req res wt t pi :
  is_string wt = false ->
  truthy (l_oldid res) = false ->
  truthy (l_v2 res) = true ->
  map_get (mwApiMap cfg) (l_iwp res) = None ->
  TemplateRequest_fetch W (target_of W res) (l_oldid res) = Some (t, Fulfilled pi) ->
  observe answer (trace (wt2html W cfg proc req res wt))
  = [failure_report (new_TypeError "Cannot read property 'uri' of undefined")]
  /\ observe cache_control (trace (wt2html W cfg proc req res wt))
     = ["private,no-cache,s-maxage=0"].
Proof.
  intros Hwt Hold Hv2 Hmap Hfetch.
  pose proof (page_source_outcome W cfg res wt) as Hout.
  rewrite Hold, Hwt, Hfetch in Hout. cbn [orb negb] in Hout.
  set (c0 := mkClosure _ wt (l_oldid res) _) in Hout.
  assert (Hpath : forall oldid, redirect_path W cfg req res oldid = None).
  { intros oldid. unfold redirect_path. rewrite Hv2.
    unfold map_get in Hmap. destruct (l_iwp res) as [| |b|n|s|o]; try reflexivity.
    rewrite Hmap. reflexivity. }
  assert (Hredirect : redirectToOldid W cfg req res c0
                      = ([EvSetHeader "Cache-Control" no_cache;
                          EvLog "info" [LStr "redirecting to revision";
                                        LVal (meta_revid (c_env c0))]]
                         ++ (if performanceTimer cfg
                             then [EvTimerCount "wt2html.redirectToOldid"] else []),
                         Promise.reject
                           (new_TypeError "Cannot read property 'uri' of undefined"))).
  { unfold redirectToOldid. rewrite Hpath.
    destruct (performanceTimer cfg); reflexivity. }
  rewrite !wt2html_observed.
  rewrite (cors_unobserved answer), (fetch_sync_unobserved answer) by reflexivity.
  assert (Hcors : omap cache_control (cors_header cfg) = []).
  { unfold cors_header. destruct (truthy (allowCORS cfg)); reflexivity. }
  rewrite Hcors, (fetch_sync_unobserved cache_control) by reflexivity.
  cbn [app]. rewrite answers_supervised, cc_supervised.
  unfold wt2html_operation. rewrite Hwt, Hold.
  rewrite (then_outcome_fulfilled _ _ _ _ Hout), !observe_then, Hout,
    !page_source_effects, Hredirect.
  cbn [fst snd outcome effects Promise.reject].
  destruct (performanceTimer cfg); split; reflexivity.
Qed.

(** ** The v2 middleware and the v2 POST route *)

Lemma assoc_not_in {A : Type} (k : string) (l : list (string * A)) :
  ~ In k (map fst l) -> assoc k l = None.
Proof.
  induction l as [|[k' v] l IH]; [reflexivity|].
  cbn [map fst In assoc]. intros H.
  destruct (String.eqb_spec k k') as [->|Hne]; [exfalso; auto|].
  apply IH. intros Hin. apply H. right. exact Hin.
Qed.

Lemma assoc_fold_assign {A : Type} (k : string) (props : list (string * A)) :
  forall init,
    List.NoDup (map fst props) ->
    assoc k (fold_left (fun acc kv => assign (fst kv) (snd kv) acc) props init)
    = match assoc k props with
      | Some v => Some v
      | None => assoc k init
      end.
Proof.
  induction props as [|[k1 v1] props IH]; intros init Hnd; [reflexivity|].
  cbn [fold_left fst snd assoc]. cbn [map fst] in Hnd.
  apply List.NoDup_cons_iff in Hnd as [Hnotin Hnd].
  rewrite (IH _ Hnd).
  destruct (String.eqb_spec k k1) as [->|Hne].
  - rewrite (assoc_not_in _ _ Hnotin). apply assoc_assign_eq.
  - destruct (assoc k props); [reflexivity|]. apply assoc_assign_ne. exact Hne.
Qed.

(** X14. The format that the v2 middleware checks, and that the v2 routes go
    by, is the [format] member of the request body when the body has one,
    and the format of the path only otherwise. *)
Theorem body_format_overrides_path_format (req : request) (props : list (string * jsval)) :
  req_body req = JObj props ->
  List.NoDup (map fst props) ->
  v2_format req
  = match assoc "format" props with
    | Some format => format
    | None => param req "format"
    end.
Proof.
  intros Hbody Hnd. unfold v2_format, v2_of, prop, get, object_assign.
  rewrite Hbody, (assoc_fold_assign "format" props _ Hnd).
  destruct (assoc "format" props); reflexivity.
Qed.

(** X15. The v2 middleware either answers the request itself, with status 404
    or 501, or passes it on, never both. When it passes the request on,
    the wiki of the domain is known, the format is one of [pagebundle],
    [html] and [wt], a GET request does not ask for [wt], substitution is
    asked for with [html] only, and the request context holds the prefix
    of the wiki and the request as the routes read it. *)
Theorem v2Middle_answers_or_passes_on (cfg : parsoid_config) (req : request) (res : locals) :
  let res' := snd (v2Middle cfg req res) in
  (fst (v2Middle cfg req res) = [EvNext]
   /\ truthy (v2_iwp cfg req) = true
   /\ l_iwp res' = v2_iwp cfg req
   /\ l_v2 res' = v2_of req
   /\ set_has supportedFormats (v2_format req) = true
   /\ (req_method req = "GET" -> set_has wt2htmlFormats (v2_format req) = true)
   /\ (l_subst res' = true -> v2_format req = JStr "html"))
  \/ (exists msg code,
        fst (v2Middle cfg req res) = [EvSendResponse msg code]
        /\ (code = 404 \/ code = 501)).
Proof.
  intros res'. subst res'. unfold v2Middle.
  fold (v2_iwp cfg req). fold (v2_of req). fold (v2_format req).
  destruct (truthy (v2_iwp cfg req)) eqn:Hiwp; cbn [negb].
  2:{ right. exists "Invalid domain.", 404. split; [reflexivity | left; reflexivity]. }
  destruct (set_has supportedFormats (v2_format req)) eqn:Hfmt; cbn [negb orb].
  2:{ right. exists "Invalid format.", 404. split; [reflexivity | left; reflexivity]. }
  destruct (String.eqb (req_method req) "GET"
            && negb (set_has wt2htmlFormats (v2_format req))) eqn:Hget.
  { right. exists "Invalid format.", 404. split; [reflexivity | left; reflexivity]. }
  cbn [l_subst].
  destruct (flag req "subst" && strict_neq_str (v2_format req) "html") eqn:Hsubst.
  { right. exists "Substitution is only supported for the HTML format.", 501.
    split; [reflexivity | right; reflexivity]. }
  left. split; [reflexivity|]. split; [reflexivity|].
  split; [destruct (String.eqb (req_method req) "POST"); reflexivity|].
  split; [destruct (String.eqb (req_method req) "POST"); reflexivity|].
  split; [reflexivity|]. split.
  - intros Hm. rewrite Hm in Hget. cbn [String.eqb andb] in Hget.
    change ("GET" =? "GET")%string with true in Hget. cbn [andb] in Hget.
    apply negb_false_iff in Hget. exact Hget.
  - intros Hs.
    assert (Hflag : flag req "subst" = true).
    { destruct (String.eqb (req_method req) "POST"); exact Hs. }
    rewrite Hflag in Hsubst. cbn [andb] in Hsubst.
    destruct (strict_neq_str_iff (v2_format req) "html") as [_ Hiff].
    destruct (v2_format req) as [| |b|n|s|o]; try discriminate.
    cbn [strict_neq_str] in Hsubst. apply negb_false_iff in Hsubst.
    apply String.eqb_eq in Hsubst. rewrite Hsubst. reflexivity.
Qed.

Lemma v2Middle_passes_on (cfg : parsoid_config) (req : request) (res : locals) :
  fst (v2Middle cfg req res) = [EvNext] ->
  l_v2 (snd (v2Middle cfg req res)) = v2_of req
  /\ set_has supportedFormats (v2_format req) = true.
Proof.
  unfold v2Middle.
  fold (v2_iwp cfg req). fold (v2_of req). fold (v2_format req).
  destruct (truthy (v2_iwp cfg req)); cbn [negb]; [|discriminate].
  destruct (set_has supportedFormats (v2_format req)); cbn [negb orb]; [|discriminate].
  destruct (String.eqb (req_method req) "GET"
            && negb (set_has wt2htmlFormats (v2_format req))); [discriminate|].
  cbn [l_subst].
  destruct (flag req "subst" && strict_neq_str (v2_format req) "html"); [discriminate|].
  intros _. split; [|reflexivity].
  destruct (String.eqb (req_method req) "POST"); reflexivity.
Qed.

(** X16. A v2 POST that the middleware has passed on is refused with status
    400, and nothing else is done, when it lacks what its format needs:
    the [html] to serialize for [wt], and a title or wikitext for the two
    other formats. *)
Theorem v2Post_requires_its_input W (cfg : parsoid_config) (proc : process)
  (req : request) (res : locals) :
  let res' := snd (v2Middle cfg req res) in
  fst (v2Middle cfg req res) = [EvNext] ->
  (v2_format req = JStr "wt" ->
   prop (v2_of req) "html" = JUndefined ->
   events (v2Post W cfg proc req res') = [EvSendResponse "No html was supplied." 400])
  /\ (v2_format req <> JStr "wt" ->
      prop (v2_of req) "wikitext" = JUndefined ->
      truthy (l_pageName res') = false ->
      events (v2Post W cfg proc req res')
      = [EvSendResponse "No title or wikitext was provided." 400]).
Proof.
  intros res' Hnext.
  destruct (v2Middle_passes_on cfg req res Hnext) as [Hv2 Hfmt].
  fold res' in Hv2. unfold v2Post. rewrite Hv2. fold (v2_format req).
  split.
  - intros Hwt Hhtml. rewrite Hwt, Hhtml. reflexivity.
  - intros Hnotwt Hwikitext Hname.
    assert (Hin : set_has wt2htmlFormats (v2_format req) = true).
    { revert Hfmt Hnotwt.
      destruct (v2_format req) as [| |b|n|s|o]; try discriminate.
      cbn [set_has supportedFormats wt2htmlFormats existsb].
      destruct (String.eqb_spec s "pagebundle"); [intros; reflexivity|].
      destruct (String.eqb_spec s "html"); [intros; reflexivity|].
      destruct (String.eqb_spec s "wt") as [Heq|]; [|discriminate].
      intros _ Hnotwt. exfalso. apply Hnotwt. rewrite Heq. reflexivity. }
    rewrite Hin, Hwikitext, Hname. reflexivity.
Qed.

(** ** The flags of the environment *)

(** [scrubWikitext] is switched off by a falsy value and by the string
    [false], and on by everything else. *)
Lemma scrub_flag_false (v : jsval) :
  scrub_flag v = false <-> truthy v = false \/ v = JStr "false".
Proof.
  unfold scrub_flag, strict_eq_str. rewrite negb_false_iff, orb_true_iff, !negb_true_iff.
  split; intros [H|H]; auto.
  - right. destruct v as [| |b|n|s|o]; try discriminate.
    cbn [strict_neq_str] in H. apply negb_false_iff, String.eqb_eq in H.
    rewrite H. reflexivity.
  - right. rewrite H. reflexivity.
Qed.

(** X17. On the round-trip routes the wikitext is scrubbed unless the request
    says otherwise: after the environment middleware and the default of
    the route, [scrubWikitext] is what the body says if the body has the
    parameter, else what the query says if it has it, else [true]; and a
    parameter says no only by a falsy value or the string [false]. The
    body wins over the query. *)
Theorem round_trip_scrubs_by_default (req : request) (res : locals) (e : env) :
  let res' := snd (parserEnvMw_ready req res e) in
  scrubWikitext (rt_env req res')
  = (if hasOwnProperty (req_body req) "scrubWikitext"
     then scrub_flag (body_field req "scrubWikitext")
     else if bool_decide (is_Some (assoc "scrubWikitext" (req_query req)))
     then scrub_flag (query req "scrubWikitext")
     else true)
  /\ (forall v, scrub_flag v = false <-> truthy v = false \/ v = JStr "false").
Proof.
  intros res'. subst res'. split; [|apply scrub_flag_false].
  unfold rt_env, parserEnvMw_ready. cbn [snd bind emit ret l_env].
  destruct (hasOwnProperty (req_body req) "scrubWikitext");
    destruct (bool_decide (is_Some (assoc "scrubWikitext" (req_query req))));
    cbn [negb andb];
    destruct (truthy (l_v2 res) && strict_eq_str (prop (l_v2 res) "format") "pagebundle");
    reflexivity.
Qed.

(** ** The test marker of selective serialization *)

Lemma all_newlines_chars (s : string) :
  all_newlines s = forallb (fun c => Ascii.eqb c "010"%char) (list_ascii_of_string s).
Proof.
  induction s as [|c s IH]; [reflexivity|].
  cbn [all_newlines list_ascii_of_string forallb]. rewrite IH. reflexivity.
Qed.

Lemma prefix_append (a b : string) : String.prefix a (a +:+ b) = true.
Proof.
  induction a as [|c a IH]; [destruct b; reflexivity|].
  change (String c a +:+ b) with (String c (a +:+ b)).
  cbn [String.prefix]. destruct (ascii_dec c c); [exact IH | contradiction].
Qed.

Lemma marker_tail_of_marker (nl : string) :
  all_newlines nl = true -> is_marker_tail (selser_marker +:+ nl) = true.
Proof.
  intros Hnl. unfold is_marker_tail. rewrite prefix_append. cbn [andb].
  rewrite all_newlines_chars, chars_substring_from, chars_append.
  rewrite drop_app_length'; [rewrite <- all_newlines_chars; exact Hnl | reflexivity].
Qed.

Lemma no_marker_tail_before_marker (c : ascii) (s nl : string) :
  is_marker_tail (String c s +:+ selser_marker +:+ nl) = false.
Proof.
  unfold is_marker_tail. apply andb_false_iff. right.
  rewrite all_newlines_chars, chars_substring_from, !chars_append.
  set (M := list_ascii_of_string selser_marker).
  assert (HM : M = take 29 M ++ [">"%char]) by reflexivity.
  rewrite HM, <- !app_assoc, (app_assoc (list_ascii_of_string (String c s))).
  rewrite drop_app_le.
  2:{ rewrite length_app. cbn [list_ascii_of_string length]. cbn. lia. }
  rewrite !forallb_app. cbn [forallb]. cbn [Ascii.eqb Bool.eqb andb].
  rewrite andb_false_r. reflexivity.
Qed.

(** X18. Whatever the text, the marker comment that [roundtripSelser] appends,
    with the line breaks after it, is what [roundTripDiff] strips from
    the serialization: the text before the marker is left, whole, also
    when it contains the marker itself. *)
Theorem trailing_selser_marker_is_stripped (s nl : string) :
  all_newlines nl = true ->
  strip_selser_comment (s +:+ selser_marker +:+ nl) = s.
Proof.
  intros Hnl. induction s as [|c s IH].
  - change ("" +:+ selser_marker +:+ nl) with (selser_marker +:+ nl).
    pose proof (marker_tail_of_marker nl Hnl) as H.
    destruct (selser_marker +:+ nl) eqn:E; cbn [strip_selser_comment]; rewrite H;
      reflexivity.
  - pose proof (no_marker_tail_before_marker c s nl) as H.
    change (String c s +:+ selser_marker +:+ nl)
      with (String c (s +:+ selser_marker +:+ nl)) in H |- *.
    cbn [strip_selser_comment]. rewrite H, IH. reflexivity.
Qed.

(** * The API maps of the configuration *)

Section MwApiFacts.

Variable url_host : string -> option string.
Variable String_matches : string -> string -> bool.
Variable String_replace : string -> string -> (string -> string) -> string.
Variable is_number : string -> bool.

Lemma sound_setMwApi prefix apiConf m :
  reverse_sound url_host m ->
  reverse_sound url_host (MwApi.setMwApi url_host String_matches prefix apiConf m).
Proof.
  intros H h p. unfold MwApi.setMwApi.
  cbn [MwApi.mwApiMap MwApi.reverseMwApiMap].
  set (c := match apiConf with inl s => MwApi.mkApiConf s None | inr c => c end).
  destruct (decide (url_host (MwApi.uri c) = h)) as [<-|Hne].
  - rewrite lookup_insert_eq. intros [= <-]. exists c. rewrite lookup_insert_eq. done.
  - rewrite lookup_insert_ne by done. intros Hl.
    assert (Hrev : MwApi.reverseMwApiMap m !! h = Some p
                   /\ forall old, MwApi.mwApiMap m !! prefix = Some old ->
                                  url_host (MwApi.uri old) <> h).
    { destruct (MwApi.mwApiMap m !! prefix) as [old|] eqn:E.
      - apply lookup_delete_Some in Hl as [Hd Hl]. split; [done|].
        intros old' [= <-]. done.
      - split; [done|]. intros old' [=]. }
    destruct Hrev as [Hl' Hold].
    destruct (H h p Hl') as (c1 & Hc1 & Hh).
    exists c1. split; [|done].
    rewrite lookup_insert_ne; [done|]. intros <-. exact (Hold c1 Hc1 Hh).
Qed.

Lemma sound_removeMwApi prefix m :
  reverse_sound url_host m ->
  reverse_sound url_host (MwApi.removeMwApi url_host String_replace prefix m).
Proof.
  intros H h p. unfold MwApi.removeMwApi.
  destruct (MwApi.mwApiMap m !! prefix) as [old|] eqn:E; [|apply H].
  cbn [MwApi.mwApiMap MwApi.reverseMwApiMap].
  intros Hl. apply lookup_delete_Some in Hl as [Hd Hl].
  destruct (H h p Hl) as (c1 & Hc1 & Hh).
  exists c1. split; [|done].
  rewrite lookup_delete_ne; [done|]. intros <-.
  rewrite E in Hc1. injection Hc1 as <-. done.
Qed.

Lemma sound_insertInMaps proxyURI m s :
  reverse_sound url_host m ->
  reverse_sound url_host (MwApi.insertInMaps url_host String_matches proxyURI m s).
Proof.
  intros H. unfold MwApi.insertInMaps.
  destruct (MwApi.mwApiMap m !! MwApi.dbname s); [exact H|].
  apply sound_setMwApi, H.
Qed.

Lemma sound_fold_insert (f : MwApi.site -> jsval) sites : forall m,
  reverse_sound url_host m ->
  reverse_sound url_host
    (fold_left (fun this s => MwApi.insertInMaps url_host String_matches (f s) this s)
       sites m).
Proof.
  induction sites as [|s sites IH]; intros m H; [exact H|].
  cbn [fold_left]. apply IH, sound_insertInMaps, H.
Qed.

Lemma sound_initMwApiMap sitematrix : forall m,
  reverse_sound url_host m ->
  reverse_sound url_host
    (fst (MwApi.initMwApiMap url_host String_matches is_number sitematrix m)).
Proof.
  induction sitematrix as [|[key val] rest IH]; intros m H; [exact H|].
  cbn [MwApi.initMwApiMap].
  destruct (is_number key).
  - destruct val; try exact H.
    apply IH. apply (sound_fold_insert (fun _ => JUndefined)), H.
  - destruct (String.eqb key "specials"); [|apply IH, H].
    destruct val; try exact H.
    apply IH.
    apply (sound_fold_insert
             (fun s => if MwApi.has_private s || MwApi.has_fishbowl s
                       then JNull else JUndefined)), H.
Qed.

Lemma sound_calls calls : forall m,
  reverse_sound url_host m ->
  reverse_sound url_host
    (fold_left (MwApi.apply_call url_host String_matches String_replace is_number) calls m).
Proof.
  induction calls as [|c calls IH]; intros m H; [exact H|].
  cbn [fold_left]. apply IH. destruct c; cbn [MwApi.apply_call].
  - apply sound_setMwApi, H.
  - apply sound_removeMwApi, H.
  - apply sound_initMwApiMap, H.
Qed.

(** X19. Whatever calls of [setMwApi], [removeMwApi] and [initMwApiMap] are made
    on a configuration after its construction, every host of
    [reverseMwApiMap] leads to a prefix that [mwApiMap] has, with an API
    whose URI is on that host: the prefix found for the domain of a
    request is never one that was removed or moved to another host. *)
Theorem reverse_map_leads_to_known_prefixes (calls : list MwApi.call) :
  reverse_sound url_host
    (MwApi.after url_host String_matches String_replace is_number calls).
Proof.
  apply sound_calls. intros h p Hl. cbn in Hl. rewrite lookup_empty in Hl. done.
Qed.

(** X20. [setMwApi] registers the API under the prefix and the prefix under the
    host of the API; a URI given as a string stands for an entry with that
    URI and no proxy settings. The other prefixes keep their entries. When
    the prefix had an entry on another host before, that host no longer
    leads to any prefix. *)
Theorem setMwApi_registers_both_ways (prefix : string) (apiConf : string + MwApi.api_conf)
  (m : MwApi.maps) :
  let c := match apiConf with inl s => MwApi.mkApiConf s None | inr c => c end in
  let m' := MwApi.setMwApi url_host String_matches prefix apiConf m in
  MwApi.mwApiMap m' !! prefix = Some c
  /\ MwApi.reverseMwApiMap m' !! url_host (MwApi.uri c) = Some prefix
  /\ (forall p, p <> prefix -> MwApi.mwApiMap m' !! p = MwApi.mwApiMap m !! p)
  /\ (forall old, MwApi.mwApiMap m !! prefix = Some old ->
        url_host (MwApi.uri old) <> url_host (MwApi.uri c) ->
        MwApi.reverseMwApiMap m' !! url_host (MwApi.uri old) = None).
Proof.
  intros c m'. subst m'. unfold MwApi.setMwApi.
  cbn [MwApi.mwApiMap MwApi.reverseMwApiMap]. fold c.
  split; [apply lookup_insert_eq|]. split; [apply lookup_insert_eq|]. split.
  - intros p Hp. apply lookup_insert_ne. congruence.
  - intros old Hold Hne. rewrite Hold.
    rewrite lookup_insert_ne by congruence. apply lookup_delete_eq.
Qed.

(** X21. [removeMwApi] of a prefix without entry changes nothing. Otherwise the
    prefix has no entry afterwards, the host of its API leads to no prefix,
    and the other prefixes and hosts are as before. *)
Theorem removeMwApi_forgets_prefix_and_host (prefix : string) (m : MwApi.maps) :
  let m' := MwApi.removeMwApi url_host String_replace prefix m in
  (MwApi.mwApiMap m !! prefix = None -> m' = m)
  /\ (forall old, MwApi.mwApiMap m !! prefix = Some old ->
        MwApi.mwApiMap m' !! prefix = None
        /\ MwApi.reverseMwApiMap m' !! url_host (MwApi.uri old) = None
        /\ (forall p, p <> prefix -> MwApi.mwApiMap m' !! p = MwApi.mwApiMap m !! p)
        /\ (forall h, h <> url_host (MwApi.uri old) ->
              MwApi.reverseMwApiMap m' !! h = MwApi.reverseMwApiMap m !! h)).
Proof.
  intros m'. subst m'. unfold MwApi.removeMwApi. split.
  - intros ->. reflexivity.
  - intros old ->. cbn [MwApi.mwApiMap MwApi.reverseMwApiMap].
    split; [apply lookup_delete_eq|]. split; [apply lookup_delete_eq|]. split.
    + intros p Hp. apply lookup_delete_ne. congruence.
    + intros h Hh. apply lookup_delete_ne. congruence.
Qed.

(** X22. Registering a new prefix on a host that is not in use and removing it
    again gives back the two maps as they were. *)
Theorem removeMwApi_undoes_setMwApi (prefix : string) (apiConf : string + MwApi.api_conf)
  (m : MwApi.maps) :
  let c := match apiConf with inl s => MwApi.mkApiConf s None | inr c => c end in
  let m' := MwApi.removeMwApi url_host String_replace prefix
              (MwApi.setMwApi url_host String_matches prefix apiConf m) in
  MwApi.mwApiMap m !! prefix = None ->
  MwApi.reverseMwApiMap m !! url_host (MwApi.uri c) = None ->
  MwApi.mwApiMap m' = MwApi.mwApiMap m
  /\ MwApi.reverseMwApiMap m' = MwApi.reverseMwApiMap m.
Proof.
  intros c m' Hp Hh. subst m'. unfold MwApi.removeMwApi, MwApi.setMwApi.
  cbn [MwApi.mwApiMap MwApi.reverseMwApiMap]. fold c.
  rewrite lookup_insert_eq. cbn [MwApi.mwApiMap MwApi.reverseMwApiMap].
  rewrite Hp. split.
  - apply delete_insert_id. exact Hp.
  - apply delete_insert_id. exact Hh.
Qed.

Lemma insertInMaps_lookup proxyURI m s p :
  MwApi.mwApiMap (MwApi.insertInMaps url_host String_matches proxyURI m s) !! p
  = match MwApi.mwApiMap m !! p with
    | Some c => Some c
    | None => if String.eqb p (MwApi.dbname s) then Some (site_conf proxyURI s) else None
    end.
Proof.
  unfold MwApi.insertInMaps, MwApi.setMwApi.
  destruct (String.eqb_spec p (MwApi.dbname s)) as [->|Hne].
  - destruct (MwApi.mwApiMap m !! MwApi.dbname s) as [c|] eqn:E.
    + rewrite E. reflexivity.
    + cbn [MwApi.mwApiMap]. rewrite lookup_insert_eq. reflexivity.
  - destruct (MwApi.mwApiMap m !! MwApi.dbname s) as [c|] eqn:E.
    + destruct (MwApi.mwApiMap m !! p); reflexivity.
    + cbn [MwApi.mwApiMap]. rewrite lookup_insert_ne by congruence.
      destruct (MwApi.mwApiMap m !! p); reflexivity.
Qed.

Lemma fold_insert_lookup (f : MwApi.site -> jsval) sites p : forall m,
  MwApi.mwApiMap
    (fold_left (fun this s => MwApi.insertInMaps url_host String_matches (f s) this s)
       sites m) !! p
  = match MwApi.mwApiMap m !! p with
    | Some c => Some c
    | None =>
        match List.find (fun s => String.eqb p (MwApi.dbname s)) sites with
        | Some s => Some (site_conf (f s) s)
        | None => None
        end
    end.
Proof.
  induction sites as [|s sites IH]; intros m.
  - cbn. destruct (MwApi.mwApiMap m !! p); reflexivity.
  - cbn [fold_left List.find]. rewrite IH, insertInMaps_lookup.
    destruct (MwApi.mwApiMap m !! p); [reflexivity|].
    destruct (String.eqb p (MwApi.dbname s)); reflexivity.
Qed.

Lemma find_map_snd {A : Type} (g : MwApi.site -> A) (q : MwApi.site -> bool) sites rest :
  List.find (fun x => q (snd x)) (map (fun s => (g s, s)) sites ++ rest)
  = match List.find q sites with
    | Some s => Some (g s, s)
    | None => List.find (fun x => q (snd x)) rest
    end.
Proof.
  induction sites as [|s sites IH]; [reflexivity|].
  cbn [map app List.find snd]. destruct (q s); [reflexivity | exact IH].
Qed.

Lemma initMwApiMap_lookup sitematrix p : forall m,
  MwApi.mwApiMap (fst (MwApi.initMwApiMap url_host String_matches is_number sitematrix m))
    !! p
  = match MwApi.mwApiMap m !! p with
    | Some c => Some c
    | None =>
        match List.find (fun x => String.eqb p (MwApi.dbname (snd x)))
                (matrix_sites is_number sitematrix) with
        | Some (proxyURI, s) => Some (site_conf proxyURI s)
        | None => None
        end
    end.
Proof.
  induction sitematrix as [|[key val] rest IH]; intros m.
  - cbn. destruct (MwApi.mwApiMap m !! p); reflexivity.
  - cbn [MwApi.initMwApiMap matrix_sites].
    destruct (is_number key).
    + destruct val as [sites|sites|]; cbn [fst List.find];
        try (destruct (MwApi.mwApiMap m !! p); reflexivity).
      rewrite IH, (fold_insert_lookup (fun _ => JUndefined)).
      rewrite (find_map_snd (fun _ => JUndefined)
                 (fun s => String.eqb p (MwApi.dbname s))).
      destruct (MwApi.mwApiMap m !! p); [reflexivity|].
      destruct (List.find _ sites); reflexivity.
    + destruct (String.eqb key "specials"); [|apply IH].
      destruct val as [sites|sites|]; cbn [fst List.find];
        try (destruct (MwApi.mwApiMap m !! p); reflexivity).
      rewrite IH.
      rewrite (fold_insert_lookup
                 (fun s => if MwApi.has_private s || MwApi.has_fishbowl s
                           then JNull else JUndefined)).
      rewrite (find_map_snd
                 (fun s => if MwApi.has_private s || MwApi.has_fishbowl s
                           then JNull else JUndefined)
                 (fun s => String.eqb p (MwApi.dbname s))).
      destruct (MwApi.mwApiMap m !! p); [reflexivity|].
      destruct (List.find _ sites); reflexivity.
Qed.

(** X23. [initMwApiMap] only adds entries. A prefix that has an entry keeps it,
    whatever the site matrix says of a site of that name; a prefix without
    entry gets the one of the first site of that name in the matrix, with
    the API at [/w/api.php] of the site, [strip_https] set, and the proxy
    explicitly disabled ([null]) if the site is a special site marked
    [private] or [fishbowl] and left to the default otherwise. *)
Theorem initMwApiMap_adds_first_site_of_each_name
  (sitematrix : list (string * MwApi.matrix_value)) (m : MwApi.maps) (p : string) :
  let m' := fst (MwApi.initMwApiMap url_host String_matches is_number sitematrix m) in
  (forall c, MwApi.mwApiMap m !! p = Some c -> MwApi.mwApiMap m' !! p = Some c)
  /\ (MwApi.mwApiMap m !! p = None ->
      MwApi.mwApiMap m' !! p
      = option_map (fun x => site_conf (fst x) (snd x))
          (List.find (fun x => String.eqb p (MwApi.dbname (snd x)))
             (matrix_sites is_number sitematrix))).
Proof.
  intros m'. subst m'. rewrite initMwApiMap_lookup. split.
  - intros c ->. reflexivity.
  - intros ->. destruct (List.find _ _) as [[proxyURI s]|]; reflexivity.
Qed.

End MwApiFacts.

(** * The sanitized configuration *)

Section Sanitize.

Import ParsoidConfig.

Variable clone : value -> value.

Lemma value_nested_ind (P : value -> Prop) :
  (forall p, P (Prim p)) ->
  (forall fr fs, Forall (fun kv => P (snd kv)) fs -> P (Obj fr fs)) ->
  forall v, P v.
Proof.
  intros HP HO. fix IH 1. intros [p|fr fs]; [apply HP|].
  apply HO. induction fs as [|[k v] fs IHfs]; constructor; [apply IH | exact IHfs].
Qed.

Lemma sanitize_value_obj fr0 ds pf fr fs :
  sanitize_value clone (Obj fr0 ds) pf (Some (Obj fr fs))
  = (Some (Obj fr (fst (sanitize_fields clone fr ds fs))),
     snd (sanitize_fields clone fr ds fs)).
Proof.
  cbn [sanitize_value typeof String.eqb negb].
  match goal with
  | |- context [?loop ds fs] =>
      is_fix loop;
      assert (Hloop : forall ds fs, loop ds fs = sanitize_fields clone fr ds fs)
  end.
  { clear. induction ds as [|[k d] ds IH]; intros fs; [reflexivity|].
    cbn [sanitize_fields]. destruct (sanitize_value clone d fr (assoc k fs)) as [m [|]];
      [apply IH | reflexivity]. }
  rewrite Hloop. destruct (sanitize_fields clone fr ds fs). reflexivity.
Qed.

(** [sanitizeConfig], one level unfolded. *)
Lemma sanitize_value_eq dflt pf v :
  sanitize_value clone dflt pf v
  = let reset := if pf then (v, false) else (Some (clone dflt), true) in
    match v with
    | None | Some (Prim JNull) | Some (Prim JUndefined) => reset
    | Some x =>
        if negb (String.eqb (typeof x) (typeof dflt)) then reset
        else
          match dflt, x with
          | Obj _ ds, Obj fr fs =>
              (Some (Obj fr (fst (sanitize_fields clone fr ds fs))),
               snd (sanitize_fields clone fr ds fs))
          | _, _ => (v, true)
          end
    end.
Proof.
  destruct dflt as [d|fr0 ds], v as [[p|fr fs]|]; try reflexivity.
  apply sanitize_value_obj.
Qed.

Lemma assign_same {A : Type} (k : string) (v : A) (l : list (string * A)) :
  assoc k l = Some v -> assign k v l = l.
Proof.
  induction l as [|[k' v'] l IH]; [discriminate|].
  cbn [assoc assign]. destruct (String.eqb_spec k k') as [->|Hne].
  - intros [= ->]. reflexivity.
  - intros H. rewrite (IH H). reflexivity.
Qed.

(** X24. [sanitizeConfig] leaves a valid setting alone: a value that has the
    type of its default, with every member that the defaults name present
    and of the type of its default, at every depth, is returned as it is,
    the members that the defaults do not name included. Nothing is reset,
    nothing is cloned and nothing is assigned, so that the call goes
    through also where objects are frozen. *)
Theorem sanitizeConfig_keeps_valid_settings : forall dflt v obj_frozen,
  conforms dflt v = true ->
  sanitize_value clone dflt obj_frozen (Some v) = (Some v, true).
Proof.
  induction dflt as [d|fr0 ds IH] using value_nested_ind; intros v pf Hc.
  - destruct v as [p|fr fs].
    + destruct p; cbn [conforms] in Hc; try discriminate;
        apply andb_true_iff in Hc as [Hty _];
        cbn [sanitize_value]; rewrite Hty; reflexivity.
    + cbn [conforms] in Hc. apply andb_true_iff in Hc as [Hty _].
      cbn [sanitize_value]. rewrite Hty. reflexivity.
  - destruct v as [p|fr fs].
    + destruct p; cbn [conforms] in Hc; try discriminate;
        rewrite andb_false_r in Hc; discriminate.
    + rewrite sanitize_value_obj.
      cbn [conforms] in Hc. apply andb_true_iff in Hc as [_ Hall].
      assert (Hfields : sanitize_fields clone fr ds fs = (fs, true)).
      { revert Hall. induction IH as [|[k d] ds Hd _ IHds]; intros Hall; [reflexivity|].
        cbn [forallb fst snd] in Hall. apply andb_true_iff in Hall as [Hk Hall].
        cbn [sanitize_fields]. destruct (assoc k fs) as [fv|] eqn:E; [|discriminate].
        cbn [snd] in Hd. rewrite (Hd fv fr Hk), (assign_same _ _ _ E). apply IHds, Hall. }
      rewrite Hfields. reflexivity.
Qed.

Lemma sanitize_fields_untouched fr ds : forall fs k,
  ~ In k (map fst ds) -> assoc k (fst (sanitize_fields clone fr ds fs)) = assoc k fs.
Proof.
  induction ds as [|[k1 d1] ds IH]; intros fs k Hk; [reflexivity|].
  cbn [sanitize_fields]. cbn [map fst In] in Hk.
  destruct (sanitize_value clone d1 fr (assoc k1 fs)) as [[m|] [|]]; cbn [fst];
    rewrite ?IH by tauto; try reflexivity; apply assoc_assign_ne; intros ->; tauto.
Qed.

(** A call that goes through leaves a member. *)
Lemma sanitize_value_some dflt pf v :
  snd (sanitize_value clone dflt pf v) = true ->
  exists m, fst (sanitize_value clone dflt pf v) = Some m.
Proof.
  rewrite sanitize_value_eq. cbv zeta.
  assert (Hreset : snd (if pf then (v, false) else (Some (clone dflt), true)) = true ->
            exists m, fst (if pf then (v, false) else (Some (clone dflt), true)) = Some m).
  { destruct pf; [discriminate|]. intros _. eexists. reflexivity. }
  destruct v as [x|]; [|exact Hreset].
  destruct x as [p|fr fs].
  - destruct p; try exact Hreset;
      (destruct (negb _); [exact Hreset|]; destruct dflt; intros _; eexists; reflexivity).
  - destruct (negb _); [exact Hreset|]. destruct dflt; intros _; eexists; reflexivity.
Qed.

Lemma sanitize_fields_spec fr ds : forall fs k d,
  List.NoDup (map fst ds) ->
  snd (sanitize_fields clone fr ds fs) = true ->
  In (k, d) ds ->
  snd (sanitize_value clone d fr (assoc k fs)) = true
  /\ exists m, fst (sanitize_value clone d fr (assoc k fs)) = Some m
               /\ assoc k (fst (sanitize_fields clone fr ds fs)) = Some m.
Proof.
  induction ds as [|[k1 d1] ds IH]; intros fs k d Hnd Hok Hin; [destruct Hin|].
  cbn [map fst] in Hnd. apply List.NoDup_cons_iff in Hnd as [Hnotin Hnd].
  cbn [sanitize_fields] in Hok |- *.
  destruct (sanitize_value clone d1 fr (assoc k1 fs)) as [m ok] eqn:E.
  destruct ok; [|discriminate Hok].
  destruct (sanitize_value_some d1 fr (assoc k1 fs)) as [m1 Hm1];
    [rewrite E; reflexivity|].
  rewrite E in Hm1. cbn [fst] in Hm1. subst m.
  destruct Hin as [[= -> ->]|Hin].
  - rewrite E. split; [reflexivity|]. exists m1. split; [reflexivity|].
    rewrite sanitize_fields_untouched by exact Hnotin. apply assoc_assign_eq.
  - assert (Hne : k <> k1).
    { intros ->. apply Hnotin. apply (in_map fst) in Hin. exact Hin. }
    destruct (IH (assign k1 m1 fs) k d Hnd Hok Hin) as (H1 & m & H2 & H3).
    rewrite assoc_assign_ne in H1, H2 by exact Hne.
    split; [exact H1|]. exists m. split; [exact H2 | exact H3].
Qed.

Lemma explicit_member k fs fv fr :
  explicit (Obj fr fs) = true -> assoc k fs = Some fv -> explicit fv = true.
Proof.
  cbn [explicit]. induction fs as [|[k' v'] fs IH]; [discriminate|].
  cbn [forallb assoc snd]. intros H. apply andb_true_iff in H as [H1 H2].
  destruct (String.eqb k k'); [intros [= <-]; exact H1 | apply IH, H2].
Qed.

Lemma thawed_member k fs fv fr :
  thawed (Obj fr fs) = true -> assoc k fs = Some fv -> thawed fv = true.
Proof.
  cbn [thawed]. intros H. apply andb_true_iff in H as [_ H]. revert H.
  induction fs as [|[k' v'] fs IH]; [discriminate|].
  cbn [forallb assoc snd]. intros H. apply andb_true_iff in H as [H1 H2].
  destruct (String.eqb k k'); [intros [= <-]; exact H1 | apply IH, H2].
Qed.

(** On settings in which nothing is frozen the call goes through. *)
Lemma sanitize_total : forall dflt v,
  well_formed dflt = true ->
  match v with Some x => thawed x = true | None => True end ->
  snd (sanitize_value clone dflt false v) = true.
Proof.
  induction dflt as [d|fr0 ds IH] using value_nested_ind; intros v Hwf Hth.
  - destruct v as [[p|fr fs]|]; [| |reflexivity].
    + cbn [sanitize_value]. destruct p; try reflexivity; destruct (negb _); reflexivity.
    + cbn [sanitize_value]. destruct (negb _); reflexivity.
  - destruct v as [[p|fr fs]|]; [| |reflexivity].
    + cbn [sanitize_value]. destruct p; try reflexivity; destruct (negb _); reflexivity.
    + rewrite sanitize_value_obj. cbn [snd].
      assert (Hfr : fr = false).
      { cbn [thawed] in Hth. apply andb_true_iff in Hth as [Hfr _].
        destruct fr; [discriminate | reflexivity]. }
      cbn [well_formed] in Hwf. apply andb_true_iff in Hwf as [Hnd Hwfs].
      apply bool_decide_eq_true in Hnd. apply NoDup_ListNoDup in Hnd.
      assert (Hmem : forall k, In k (map fst ds) ->
                match assoc k fs with Some x => thawed x = true | None => True end).
      { intros k _. destruct (assoc k fs) as [x|] eqn:E; [|exact I].
        apply (thawed_member k fs x fr Hth E). }
      subst fr. clear Hth. revert fs Hmem.
      induction IH as [|[k d] ds Hd _ IHds]; intros fs Hmem; [reflexivity|].
      cbn [map fst] in Hnd. apply List.NoDup_cons_iff in Hnd as [Hnotin Hnd].
      cbn [forallb snd] in Hwfs. apply andb_true_iff in Hwfs as [Hwfd Hwfs].
      cbn [sanitize_fields].
      pose proof (Hd (assoc k fs) Hwfd (Hmem k (or_introl eq_refl))) as Hok.
      cbn [snd] in Hok.
      destruct (sanitize_value clone d false (assoc k fs)) as [m ok].
      cbn [snd] in Hok. subst ok.
      apply (IHds Hnd Hwfs). intros k' Hk'.
      assert (Hne : k' <> k) by (intros ->; exact (Hnotin Hk')).
      destruct m as [m|]; [rewrite assoc_assign_ne by exact Hne|];
        apply Hmem; right; exact Hk'.
Qed.

(** A frozen object that lacks a member of the defaults stops the call. *)
Lemma sanitize_fields_frozen_missing ds : forall fs k d,
  In (k, d) ds -> assoc k fs = None ->
  snd (sanitize_fields clone true ds fs) = false.
Proof.
  induction ds as [|[k1 d1] ds IH]; intros fs k d Hin Hmiss; [destruct Hin|].
  cbn [sanitize_fields].
  destruct (String.eqb_spec k k1) as [->|Hne].
  - rewrite Hmiss. destruct d1; reflexivity.
  - destruct Hin as [[= Hk _]|Hin]; [congruence|].
    destruct (sanitize_value clone d1 true (assoc k1 fs)) as [m ok] eqn:E.
    destruct ok; [|reflexivity].
    apply (IH _ k d Hin).
    destruct m as [m|]; [rewrite assoc_assign_ne by exact Hne|]; exact Hmiss.
Qed.

Hypothesis clone_conforms : forall d, well_formed d = true -> conforms d (clone d) = true.

Lemma sanitize_conforms : forall dflt pf v,
  well_formed dflt = true ->
  match v with Some x => explicit x = true | None => True end ->
  snd (sanitize_value clone dflt pf v) = true ->
  exists m, fst (sanitize_value clone dflt pf v) = Some m /\ conforms dflt m = true.
Proof.
  induction dflt as [d|fr0 ds IH] using value_nested_ind; intros pf v Hwf Hex;
    rewrite sanitize_value_eq; cbv zeta;
    match goal with
    | |- context [Some (clone ?dflt)] =>
        assert (Hreset :
          snd (if pf then (v, false) else (Some (clone dflt), true)) = true ->
          exists m,
            fst (if pf then (v, false) else (Some (clone dflt), true)) = Some m
            /\ conforms dflt m = true)
          by (destruct pf; [discriminate|]; intros _; exists (clone dflt);
              split; [reflexivity | apply clone_conforms, Hwf])
    end.
  - destruct v as [[p|fr fs]|]; [| |exact Hreset].
    + destruct d; try discriminate; destruct p; try exact Hreset;
        intros _; eexists; split; reflexivity.
    + destruct d; try discriminate; exact Hreset.
  - destruct v as [[p|fr fs]|]; [| |exact Hreset].
    + destruct p; try exact Hreset. discriminate.
    + cbn [typeof String.eqb negb fst snd]. intros Hok.
      eexists. split; [reflexivity|].
      cbn [conforms typeof String.eqb andb].
      cbn [well_formed] in Hwf. apply andb_true_iff in Hwf as [Hnd Hwfs].
      apply bool_decide_eq_true in Hnd. apply NoDup_ListNoDup in Hnd.
      apply forallb_forall. intros [k d] Hin. cbn [fst snd].
      destruct (sanitize_fields_spec fr ds fs k d Hnd Hok Hin) as (Hk & m & Hm & ->).
      rewrite List.Forall_forall in IH.
      destruct (IH (k, d) Hin fr (assoc k fs)) as (m' & Hm' & Hconf).
      * rewrite forallb_forall in Hwfs. apply (Hwfs (k, d) Hin).
      * destruct (assoc k fs) as [fv|] eqn:E; [|exact I].
        apply (explicit_member k fs fv fr Hex E).
      * exact Hk.
      * cbn [snd] in Hm'. rewrite Hm in Hm'. injection Hm' as <-. exact Hconf.
Qed.

Lemma sanitizeIt_steps (this : props) :
  sanitizeIt clone this
  = (if snd (sanitize_setting clone this "timeouts" (default_of "timeouts"))
     then sanitize_setting clone
            (fst (sanitize_setting clone this "timeouts" (default_of "timeouts")))
            "retries" (default_of "retries")
     else (fst (sanitize_setting clone this "timeouts" (default_of "timeouts")), false)).
Proof.
  unfold sanitizeIt.
  change CONFIG_DEFAULTS
    with [("timeouts", default_of "timeouts"); ("retries", default_of "retries")].
  cbn [fold_left fst snd]. unfold sanitize_setting.
  destruct (assoc "timeouts" this) as [[v|]|]; cbn [fst snd]; try reflexivity.
  destruct (sanitize_value clone (default_of "timeouts") false (Some v)) as [m [|]];
    reflexivity.
Qed.

Lemma sanitize_setting_other (this : props) key d k :
  k <> key -> assoc k (fst (sanitize_setting clone this key d)) = assoc k this.
Proof.
  intros Hne. unfold sanitize_setting.
  destruct (assoc key this) as [[v|]|]; cbn [fst]; [|reflexivity|].
  - destruct (sanitize_value clone d false (Some v)) as [[m|] ok]; cbn [fst];
      [apply assoc_assign_ne; exact Hne | reflexivity].
  - apply assoc_assign_ne. exact Hne.
Qed.

Lemma sanitize_setting_conforms (this : props) key d :
  well_formed d = true ->
  (forall v, own_value this key = Some v -> explicit v = true) ->
  snd (sanitize_setting clone this key d) = true ->
  exists v, own_value (fst (sanitize_setting clone this key d)) key = Some v
            /\ conforms d v = true.
Proof.
  intros Hwf Hex. unfold sanitize_setting, own_value in *.
  destruct (assoc key this) as [[v|]|]; cbn [fst snd].
  - intros Hok.
    destruct (sanitize_conforms d false (Some v) Hwf (Hex v eq_refl)) as (m & Hm & Hc).
    + destruct (sanitize_value clone d false (Some v)); exact Hok.
    + destruct (sanitize_value clone d false (Some v)) as [m' ok]. cbn [fst] in Hm.
      subst m'. cbn [fst]. exists m. rewrite assoc_assign_eq. split; [reflexivity | exact Hc].
  - discriminate.
  - intros _. exists (clone d). rewrite assoc_assign_eq.
    split; [reflexivity | apply clone_conforms, Hwf].
Qed.

Lemma sanitize_setting_total (this : props) key d :
  well_formed d = true -> writable this key = true ->
  snd (sanitize_setting clone this key d) = true.
Proof.
  intros Hwf. unfold writable, sanitize_setting.
  destruct (assoc key this) as [[v|]|]; [|discriminate|reflexivity].
  intros Hth. pose proof (sanitize_total d (Some v) Hwf Hth) as Hok.
  destruct (sanitize_value clone d false (Some v)). exact Hok.
Qed.

Lemma sanitize_setting_frozen_missing (this : props) key dflt fs k d :
  assoc key this = Some (Data (Obj true fs)) ->
  In (k, d) (members dflt) -> assoc k fs = None ->
  snd (sanitize_setting clone this key dflt) = false.
Proof.
  intros Hkey Hin Hmiss. unfold sanitize_setting. rewrite Hkey.
  destruct dflt as [p|fr0 ds]; [destruct Hin|]. cbn [members] in Hin.
  rewrite sanitize_value_obj. cbn [snd].
  apply (sanitize_fields_frozen_missing ds fs k d Hin Hmiss).
Qed.


End Sanitize.

Lemma assoc_in_nodup {A : Type} (k : string) (v : A) (l : list (string * A)) :
  List.NoDup (map fst l) -> In (k, v) l -> assoc k l = Some v.
Proof.
  induction l as [|[k' v'] l IH]; intros Hnd Hin; [destruct Hin|].
  cbn [map fst] in Hnd. apply List.NoDup_cons_iff in Hnd as [Hnotin Hnd].
  cbn [assoc]. destruct Hin as [[= -> ->]|Hin].
  - rewrite String.eqb_refl. reflexivity.
  - destruct (String.eqb_spec k k') as [->|Hne]; [|apply IH; assumption].
    exfalso. apply Hnotin. apply (in_map fst) in Hin. exact Hin.
Qed.

Lemma assoc_map_snd {A B : Type} (f : A -> B) (k : string) (l : list (string * A)) :
  assoc k (map (fun kv => (fst kv, f (snd kv))) l) = option_map f (assoc k l).
Proof.
  induction l as [|[k' v'] l IH]; [reflexivity|].
  cbn [map assoc fst snd]. destruct (String.eqb k k'); [reflexivity | exact IH].
Qed.

(** A deep copy of well-formed defaults has their shape. *)
Lemma deep_copy_conforms : forall d,
  well_formed d = true -> conforms d (ParsoidConfig.deep_copy d) = true.
Proof.
  induction d as [p|fr ds IH] using value_nested_ind; intros Hwf.
  - destruct p; try discriminate; reflexivity.
  - cbn [well_formed] in Hwf. apply andb_true_iff in Hwf as [Hnd Hwfs].
    apply bool_decide_eq_true in Hnd. apply NoDup_ListNoDup in Hnd.
    cbn [ParsoidConfig.deep_copy conforms ParsoidConfig.typeof String.eqb andb].
    apply forallb_forall. intros [k d] Hin. cbn [fst snd].
    rewrite assoc_map_snd, (assoc_in_nodup k d ds Hnd Hin). cbn [option_map].
    rewrite List.Forall_forall in IH. apply (IH (k, d) Hin).
    rewrite forallb_forall in Hwfs. apply (Hwfs (k, d) Hin).
Qed.

(** * The URI of the resource loader *)

Lemma replace_scheme_unfold (r s : string) :
  replace_scheme r s
  = match run_then_slashes s with
    | Some rest => r +:+ rest
    | None =>
        match s with
        | EmptyString => EmptyString
        | String c s' => String c (replace_scheme r s')
        end
    end.
Proof. destruct s; reflexivity. Qed.

Lemma run_then_slashes_scheme (scheme rest : string) :
  no_slash scheme = true ->
  run_then_slashes (scheme +:+ "//" +:+ rest) = Some rest.
Proof.
  induction scheme as [|c scheme IH]; intros H; [reflexivity|].
  cbn [no_slash] in H. apply andb_true_iff in H as [Hc H].
  change (String c scheme +:+ "//" +:+ rest) with (String c (scheme +:+ "//" +:+ rest)).
  cbn [run_then_slashes]. apply negb_true_iff in Hc. rewrite Hc. apply IH, H.
Qed.

Lemma replace_scheme_scheme (r scheme rest : string) :
  no_slash scheme = true ->
  replace_scheme r (scheme +:+ "//" +:+ rest) = r +:+ rest.
Proof.
  intros H. rewrite replace_scheme_unfold, (run_then_slashes_scheme _ _ H). reflexivity.
Qed.

Lemma is_api_tail_length (s : string) : is_api_tail s = true -> String.length s = 8.
Proof.
  intros H.
  do 9 (destruct s as [|? s]; [try discriminate H; try reflexivity|]).
  discriminate H.
Qed.

Lemma length_append (a b : string) :
  String.length (a +:+ b) = String.length a + String.length b.
Proof.
  induction a as [|c a IH]; [reflexivity|].
  change (String c a +:+ b) with (String c (a +:+ b)). cbn [String.length].
  rewrite IH. reflexivity.
Qed.

Lemma replace_api_php_suffix (x : string) (c : ascii) :
  is_line_terminator c = false ->
  replace_api_php (x +:+ "/api" +:+ String c "php") = x +:+ "/load.php".
Proof.
  intros Hc. induction x as [|a x IH].
  - change ("" +:+ "/api" +:+ String c "php")
      with (String "/" (String "a" (String "p" (String "i" (String c "php"))))).
    cbn [replace_api_php is_api_tail Ascii.eqb Bool.eqb andb]. rewrite Hc. reflexivity.
  - change (String a x +:+ "/api" +:+ String c "php")
      with (String a (x +:+ "/api" +:+ String c "php")).
    cbn [replace_api_php].
    destruct (is_api_tail (String a (x +:+ "/api" +:+ String c "php"))) eqn:E.
    + apply is_api_tail_length in E. cbn [String.length] in E.
      rewrite !length_append in E. cbn [String.length] in E. lia.
    + rewrite IH. reflexivity.
Qed.

(** X26. Without a setting of its own, the URI of the resource loader is that
    of the API made protocol-relative, with [load.php] in the place of
    [api.php]: for an API at [scheme//rest/api.php] it is
    [//rest/load.php]. The dot of the pattern stands for any character,
    so that the same holds when another character than a line break is in
    the place of the dot of [api.php]. With the setting [true] the
    loader is on [bits.wikimedia.org], under the host and path of the
    wiki's server; any other setting is returned as it is. *)
Theorem modules_uri_is_protocol_relative (scheme rest : string) (c : ascii)
  (wikiConf : wiki_conf) :
  no_slash scheme = true ->
  is_line_terminator c = false ->
  (apiURI wikiConf = scheme +:+ "//" +:+ rest +:+ "/api" +:+ String c "php" ->
   getModulesLoadURI JUndefined wikiConf = JStr ("//" +:+ rest +:+ "/load.php"))
  /\ (server wikiConf = scheme +:+ "//" +:+ rest ->
      getModulesLoadURI (JBool true) wikiConf
      = JStr ("//bits.wikimedia.org/" +:+ rest +:+ "/load.php"))
  /\ (forall v, v <> JUndefined -> v <> JBool true ->
        getModulesLoadURI v wikiConf = v).
Proof.
  intros Hscheme Hc. split; [|split].
  - intros Hapi. unfold getModulesLoadURI. rewrite Hapi.
    rewrite (replace_scheme_scheme "//" scheme _ Hscheme).
    change ("//" +:+ rest +:+ "/api" +:+ String c "php")
      with (String "/" (String "/" (rest +:+ "/api" +:+ String c "php"))).
    change ("//" +:+ rest +:+ "/load.php")
      with (String "/" (String "/" (rest +:+ "/load.php"))).
    rewrite <- (replace_api_php_suffix rest c Hc).
    assert (Hno : forall s, is_api_tail (String "/" (String "/" s)) = false).
    { intros s. do 7 (destruct s as [|? s]; [reflexivity|]). destruct s; reflexivity. }
    cbn [replace_api_php]. rewrite Hno.
    destruct (is_api_tail (String "/" (rest +:+ "/api" +:+ String c "php"))) eqn:E.
    + apply is_api_tail_length in E. cbn [String.length] in E.
      rewrite !length_append in E. cbn [String.length] in E. lia.
    + reflexivity.
  - intros Hserver. unfold getModulesLoadURI. rewrite Hserver.
    rewrite (replace_scheme_scheme _ scheme _ Hscheme), append_assoc. reflexivity.
  - intros v H1 H2. unfold getModulesLoadURI.
    destruct v as [| |[|]|n|s|o]; try reflexivity; contradiction.
Qed.

(** * The further properties on the sample deployment *)

Lemma fetch_failure_is_reported_witness :
  (truthy (l_oldid (locals_with_oldid (JNum 4711))) || negb (is_string JUndefined) = true
   /\ TemplateRequest_fetch Sample2.pageless_world
        (target_of Sample2.pageless_world (locals_with_oldid (JNum 4711)))
        (l_oldid (locals_with_oldid (JNum 4711)))
      = Some (50%N, Rejected Sample2.no_page))
  /\ observe parse_call
       (trace (wt2html Sample2.pageless_world Sample.config Sample.worker
                 Sample.get_request (locals_with_oldid (JNum 4711)) JUndefined)) = []
  /\ observe answer
       (trace (wt2html Sample2.pageless_world Sample.config Sample.worker
                 Sample.get_request (locals_with_oldid (JNum 4711)) JUndefined))
     = [EvLog "fatal/request" [LErr Sample2.no_page]].
Proof.
  split; [split; reflexivity|].
  exact (fetch_failure_is_reported Sample2.pageless_world Sample.config Sample.worker
           Sample.get_request (locals_with_oldid (JNum 4711)) JUndefined
           50%N Sample2.no_page eq_refl eq_refl).
Defined.

Lemma cache_answer_decides_reuse_witness :
  (consults_cache Sample.cached_config Sample.get_request Sample.locals0 = true
   /\ parsoid_header Sample.world0 Sample.get_request = Some (JObj [])
   /\ get (JObj []) "cacheID" = Some JUndefined)
  /\ events (parse Sample.world0 Sample.cached_config Sample.env0 Sample.get_request
               Sample.locals0)
     = [EvLog "info" [LStr "started parsing"];
        EvCacheRequest "" JUndefined;
        EvPipelineParse "" None]
  /\ events (parse Sample.cached_world Sample.cached_config Sample.env0 Sample.get_request
               Sample.locals0)
     = [EvLog "info" [LStr "started parsing"];
        EvCacheRequest "" JUndefined;
        EvPipelineParse "" (Some Sample.old_expansions)].
Proof.
  split; [split; [|split]; reflexivity|].
  destruct (cache_answer_decides_reuse Sample.world0 Sample.cached_config Sample.env0
              Sample.get_request Sample.locals0 (JObj []) JUndefined
              eq_refl eq_refl eq_refl) as [Hmiss _].
  destruct (cache_answer_decides_reuse Sample.cached_world Sample.cached_config Sample.env0
              Sample.get_request Sample.locals0 (JObj []) JUndefined
              eq_refl eq_refl eq_refl) as [_ Hhit].
  split.
  - exact (proj1 (Hmiss 30%N (new_Error "miss") eq_refl)).
  - exact (Hhit 30%N "<p>cached</p>" eq_refl eq_refl).
Defined.

Lemma malformed_prior_payload_fails_parse_witness :
  (has_prior_payload (locals_with_v2 Sample2.broken_v2) = true
   /\ get (prop (prior_revision (l_v2 (locals_with_v2 Sample2.broken_v2))) "html") "body"
      = None)
  /\ events (parse Sample.world0 Sample.config Sample.env0 Sample.get_request
               (locals_with_v2 Sample2.broken_v2))
     = [EvLog "info" [LStr "started parsing"]]
  /\ outcome (snd (parse Sample.world0 Sample.config Sample.env0 Sample.get_request
                     (locals_with_v2 Sample2.broken_v2)))
     = Some (0%N, Rejected (new_TypeError "Cannot read property 'body' of undefined")).
Proof.
  split; [split; reflexivity|].
  exact (malformed_prior_payload_fails_parse Sample.world0 Sample.config Sample.env0
           Sample.get_request (locals_with_v2 Sample2.broken_v2)
           eq_refl (or_introl eq_refl)).
Defined.

Lemma postRtForm_is_unsupervised_witness :
  (has_prior_payload Sample.locals0 = false
   /\ consults_cache Sample.config Sample2.rt_form_request Sample.locals0 = false
   /\ body_field Sample2.rt_form_request "content" = JStr "Hello")
  /\ sends (trace (postRtForm Sample2.slow_parser_world Sample.config
                     Sample2.rt_form_request Sample.locals0)) = []
  /\ observe parse_call
       (trace (postRtForm Sample2.slow_parser_world Sample.config
                 Sample2.rt_form_request Sample.locals0)) = [("Hello", None)]
  /\ observe answer
       (trace (postRtForm Sample2.slow_parser_world Sample.config
                 Sample2.rt_form_request Sample.locals0))
     = [EvLog "fatal/request" [LErr new_TimeoutError]]
  /\ observe answer
       (trace (postRtForm Sample2.stuck_parser_world Sample.config
                 Sample2.rt_form_request Sample.locals0)) = [].
Proof.
  split; [split; [|split]; reflexivity|].
  destruct (postRtForm_is_unsupervised Sample2.slow_parser_world Sample.config
              Sample2.rt_form_request Sample.locals0 "Hello" eq_refl eq_refl eq_refl)
    as (Hsends & Hparse & Hrejected & _).
  destruct (postRtForm_is_unsupervised Sample2.stuck_parser_world Sample.config
              Sample2.rt_form_request Sample.locals0 "Hello" eq_refl eq_refl eq_refl)
    as (_ & _ & _ & Hstuck).
  split; [exact Hsends|]. split; [exact Hparse|].
  split; [exact (Hrejected 10%N new_TimeoutError eq_refl) | exact (Hstuck eq_refl)].
Defined.

Lemma body_format_overrides_path_format_witness :
  (req_body (v2_post "html" [("format", JStr "wt"); ("html", JStr "<p>x</p>")])
   = JObj [("format", JStr "wt"); ("html", JStr "<p>x</p>")]
   /\ List.NoDup (map fst [("format", JStr "wt"); ("html", JStr "<p>x</p>")]))
  /\ param (v2_post "html" [("format", JStr "wt"); ("html", JStr "<p>x</p>")]) "format"
     = JStr "html"
  /\ v2_format (v2_post "html" [("format", JStr "wt"); ("html", JStr "<p>x</p>")])
     = JStr "wt".
Proof.
  assert (Hnd : List.NoDup (map fst [("format", JStr "wt"); ("html", JStr "<p>x</p>")])).
  { cbn [map fst]. repeat constructor; cbn [In]; intuition discriminate. }
  split; [split; [reflexivity | exact Hnd]|]. split; [reflexivity|].
  exact (body_format_overrides_path_format
           (v2_post "html" [("format", JStr "wt"); ("html", JStr "<p>x</p>")])
           [("format", JStr "wt"); ("html", JStr "<p>x</p>")] eq_refl Hnd).
Defined.

Lemma v2Post_requires_its_input_witness :
  (fst (v2Middle Sample.config (v2_post "wt" []) Sample.locals0) = [EvNext]
   /\ fst (v2Middle Sample.config Sample2.untitled_post Sample.locals0) = [EvNext])
  /\ events (v2Post Sample.world0 Sample.config Sample.worker (v2_post "wt" [])
               (snd (v2Middle Sample.config (v2_post "wt" []) Sample.locals0)))
     = [EvSendResponse "No html was supplied." 400]
  /\ events (v2Post Sample.world0 Sample.config Sample.worker Sample2.untitled_post
               (snd (v2Middle Sample.config Sample2.untitled_post Sample.locals0)))
     = [EvSendResponse "No title or wikitext was provided." 400].
Proof.
  assert (H1 : fst (v2Middle Sample.config (v2_post "wt" []) Sample.locals0) = [EvNext])
    by (vm_compute; reflexivity).
  assert (H2 : fst (v2Middle Sample.config Sample2.untitled_post Sample.locals0) = [EvNext])
    by (vm_compute; reflexivity).
  split; [split; assumption|].
  destruct (v2Post_requires_its_input Sample.world0 Sample.config Sample.worker
              (v2_post "wt" []) Sample.locals0 H1) as [Hhtml _].
  destruct (v2Post_requires_its_input Sample.world0 Sample.config Sample.worker
              Sample2.untitled_post Sample.locals0 H2) as [_ Htitle].
  split.
  - apply Hhtml; reflexivity.
  - apply Htitle; [discriminate | reflexivity | vm_compute; reflexivity].
Defined.

Lemma trailing_selser_marker_is_stripped_witness :
  all_newlines (String "010" "") = true
  /\ strip_selser_comment
       ("== A ==<!--rtSelserEditTestComment-->x" +:+ selser_marker +:+ String "010" "")
     = "== A ==<!--rtSelserEditTestComment-->x".
Proof.
  split; [reflexivity|].
  exact (trailing_selser_marker_is_stripped "== A ==<!--rtSelserEditTestComment-->x"
           (String "010" "") eq_refl).
Defined.

Lemma inline_wikitext_answer_witness :
  (truthy (l_oldid Sample.locals0) = false /\ l_subst Sample.locals0 = false)
  /\ observe answer
       (trace (wt2html Sample.world0 Sample.config Sample.worker Sample.get_request
                 Sample.locals0 (JStr "Hello")))
     = [EvEndResponse "Hello"].
Proof.
  split; [split; reflexivity|].
  exact (inline_wikitext_answer Sample.world0 Sample.config Sample.worker
           Sample.get_request Sample.locals0 "Hello" eq_refl eq_refl).
Defined.

Lemma revision_request_parses_the_fetched_source_witness :
  (is_string JUndefined = false
   /\ truthy (l_oldid (locals_with_oldid (JNum 4711))) = true
   /\ TemplateRequest_fetch Sample.world0
        (target_of Sample.world0 (locals_with_oldid (JNum 4711)))
        (l_oldid (locals_with_oldid (JNum 4711)))
      = Some (120%N, Fulfilled Sample.latest)
   /\ has_prior_payload (locals_with_oldid (JNum 4711)) = false
   /\ consults_cache Sample.config Sample.get_request (locals_with_oldid (JNum 4711))
      = false)
  /\ observe parse_call
       (trace (wt2html Sample.world0 Sample.config Sample.worker Sample.get_request
                 (locals_with_oldid (JNum 4711)) JUndefined))
     = [("Hello {{Template}}", None)]
  /\ observe answer
       (trace (wt2html Sample.world0 Sample.config Sample.worker Sample.get_request
                 (locals_with_oldid (JNum 4711)) JUndefined))
     = [EvEndResponse "Hello {{Template}}"]
  /\ observe header_set
       (trace (wt2html Sample.world0 Sample.config Sample.worker Sample.get_request
                 (locals_with_oldid (JNum 4711)) JUndefined))
     = [("Access-Control-Allow-Origin", "*");
        ("Cache-Control", "s-maxage=2592000");
        ("content-revision-id", "4711");
        ("content-type", html_contentType)].
Proof.
  split; [repeat split; reflexivity|].
  destruct (revision_request_parses_the_fetched_source Sample.world0 Sample.config
              Sample.worker Sample.get_request (locals_with_oldid (JNum 4711)) JUndefined
              120%N Sample.latest eq_refl eq_refl eq_refl eq_refl eq_refl)
    as (Hparse & Hanswer & Hheaders).
  split; [exact Hparse|]. split; [exact Hanswer|].
  refine (Hheaders 200%N (mkDocument [] [Text "Hello {{Template}}"]) eq_refl _).
  vm_compute. discriminate.
Defined.

Lemma wt2html_cache_control_policy_witness :
  observe cache_control
    (trace (wt2html Sample.world0 Sample.config Sample.worker Sample.get_request
              (locals_with_oldid (JNum 4711)) JUndefined))
  = ["s-maxage=2592000"]
  /\ observe cache_control
       (trace (wt2html Sample.world0 Sample.config Sample.worker Sample.get_request
                 Sample.locals0 (JStr "Hello")))
     = ["private,no-cache,s-maxage=0"].
Proof.
  destruct (wt2html_cache_control_policy Sample.world0 Sample.config Sample.worker
              Sample.get_request (locals_with_oldid (JNum 4711)) JUndefined)
    as [[Hnone|Hset] _].
  - vm_compute in Hnone. discriminate Hnone.
  - split; [exact Hset|].
    exact (proj2 (wt2html_cache_control_policy Sample.world0 Sample.config Sample.worker
                    Sample.get_request Sample.locals0 (JStr "Hello"))
             eq_refl eq_refl eq_refl).
Defined.

Lemma removeMwApi_undoes_setMwApi_witness :
  (MwApi.mwApiMap Sample2.local_maps !! "dewiki" = None
   /\ MwApi.reverseMwApiMap Sample2.local_maps
        !! Sample2.url_host "https://de.wikipedia.org/w/api.php" = None)
  /\ MwApi.mwApiMap
       (MwApi.removeMwApi Sample2.url_host Sample2.String_replace "dewiki"
          (MwApi.setMwApi Sample2.url_host Sample2.String_matches "dewiki"
             (inl "https://de.wikipedia.org/w/api.php") Sample2.local_maps))
     = MwApi.mwApiMap Sample2.local_maps
  /\ MwApi.reverseMwApiMap
       (MwApi.removeMwApi Sample2.url_host Sample2.String_replace "dewiki"
          (MwApi.setMwApi Sample2.url_host Sample2.String_matches "dewiki"
             (inl "https://de.wikipedia.org/w/api.php") Sample2.local_maps))
     = MwApi.reverseMwApiMap Sample2.local_maps.
Proof.
  assert (H1 : MwApi.mwApiMap Sample2.local_maps !! "dewiki" = None)
    by (vm_compute; reflexivity).
  assert (H2 : MwApi.reverseMwApiMap Sample2.local_maps
                 !! Sample2.url_host "https://de.wikipedia.org/w/api.php" = None)
    by (vm_compute; reflexivity).
  split; [split; assumption|].
  exact (removeMwApi_undoes_setMwApi Sample2.url_host Sample2.String_matches
           Sample2.String_replace "dewiki" (inl "https://de.wikipedia.org/w/api.php")
           Sample2.local_maps H1 H2).
Defined.

Lemma initMwApiMap_adds_first_site_of_each_name_witness :
  MwApi.mwApiMap
    (fst (MwApi.initMwApiMap Sample2.url_host Sample2.String_matches Sample2.is_number
            Sample2.sitematrix Sample2.local_maps)) !! "enwiki"
  = Some (MwApi.mkApiConf "http://localhost/w/api.php" None)
  /\ MwApi.mwApiMap
       (fst (MwApi.initMwApiMap Sample2.url_host Sample2.String_matches Sample2.is_number
               Sample2.sitematrix Sample2.local_maps)) !! "officewiki"
     = Some (MwApi.mkApiConf "https://office.wikimedia.org/w/api.php"
               (Some (MwApi.mkProxy JNull true)))
  /\ MwApi.mwApiMap
       (fst (MwApi.initMwApiMap Sample2.url_host Sample2.String_matches Sample2.is_number
               Sample2.sitematrix Sample2.local_maps)) !! "commonswiki"
     = Some (MwApi.mkApiConf "https://commons.wikimedia.org/w/api.php"
               (Some (MwApi.mkProxy JUndefined true))).
Proof.
  assert (Hen : MwApi.mwApiMap Sample2.local_maps !! "enwiki"
                = Some (MwApi.mkApiConf "http://localhost/w/api.php" None))
    by (vm_compute; reflexivity).
  assert (Hoffice : MwApi.mwApiMap Sample2.local_maps !! "officewiki" = None)
    by (vm_compute; reflexivity).
  assert (Hcommons : MwApi.mwApiMap Sample2.local_maps !! "commonswiki" = None)
    by (vm_compute; reflexivity).
  split; [|split].
  - exact (proj1 (initMwApiMap_adds_first_site_of_each_name Sample2.url_host
                    Sample2.String_matches Sample2.is_number Sample2.sitematrix
                    Sample2.local_maps "enwiki") _ Hen).
  - exact (proj2 (initMwApiMap_adds_first_site_of_each_name Sample2.url_host
                    Sample2.String_matches Sample2.is_number Sample2.sitematrix
                    Sample2.local_maps "officewiki") Hoffice).
  - exact (proj2 (initMwApiMap_adds_first_site_of_each_name Sample2.url_host
                    Sample2.String_matches Sample2.is_number Sample2.sitematrix
                    Sample2.local_maps "commonswiki") Hcommons).
Defined.

Lemma sanitizeConfig_keeps_valid_settings_witness :
  conforms (ParsoidConfig.default_of "timeouts") custom_timeouts = true
  /\ ParsoidConfig.sanitize_value ParsoidConfig.deep_copy
       (ParsoidConfig.default_of "timeouts") false (Some custom_timeouts)
     = (Some custom_timeouts, true).
Proof.
  split; [reflexivity|].
  exact (sanitizeConfig_keeps_valid_settings ParsoidConfig.deep_copy
           (ParsoidConfig.default_of "timeouts") custom_timeouts false eq_refl).
Defined.


Lemma modules_uri_is_protocol_relative_witness :
  (no_slash "https:" = true /\ is_line_terminator "."%char = false)
  /\ getModulesLoadURI JUndefined
       (mkWikiConf "https://en.wikipedia.org/w/api.php" "https://en.wikipedia.org")
     = JStr "//en.wikipedia.org/w/load.php"
  /\ getModulesLoadURI (JBool true)
       (mkWikiConf "https://en.wikipedia.org/w/api.php" "https://en.wikipedia.org")
     = JStr "//bits.wikimedia.org/en.wikipedia.org/load.php".
Proof.
  split; [split; reflexivity|].
  split.
  - exact (proj1 (modules_uri_is_protocol_relative "https:" "en.wikipedia.org/w" "."%char
                    (mkWikiConf "https://en.wikipedia.org/w/api.php"
                       "https://en.wikipedia.org") eq_refl eq_refl) eq_refl).
  - exact (proj1 (proj2 (modules_uri_is_protocol_relative "https:" "en.wikipedia.org" "."%char
                           (mkWikiConf "https://en.wikipedia.org/w/api.php"
                              "https://en.wikipedia.org") eq_refl eq_refl)) eq_refl).
Defined.

Lemma v2_redirect_needs_the_api_entry_witness :
  (is_string JUndefined = false
   /\ truthy (l_oldid Sample2.unmapped_locals) = false
   /\ truthy (l_v2 Sample2.unmapped_locals) = true
   /\ map_get (mwApiMap Sample.config) (l_iwp Sample2.unmapped_locals) = None
   /\ TemplateRequest_fetch Sample.world0
        (target_of Sample.world0 Sample2.unmapped_locals)
        (l_oldid Sample2.unmapped_locals)
      = Some (120%N, Fulfilled Sample.latest))
  /\ observe answer
       (trace (wt2html Sample.world0 Sample.config Sample.worker Sample.get_request
                 Sample2.unmapped_locals JUndefined))
     = [EvLog "fatal/request"
          [LErr (new_TypeError "Cannot read property 'uri' of undefined")]]
  /\ observe cache_control
       (trace (wt2html Sample.world0 Sample.config Sample.worker Sample.get_request
                 Sample2.unmapped_locals JUndefined))
     = ["private,no-cache,s-maxage=0"].
Proof.
  assert (Hmap : map_get (mwApiMap Sample.config) (l_iwp Sample2.unmapped_locals) = None)
    by (vm_compute; reflexivity).
  split; [repeat split; try reflexivity; exact Hmap|].
  exact (v2_redirect_needs_the_api_entry Sample.world0 Sample.config Sample.worker
           Sample.get_request Sample2.unmapped_locals JUndefined 120%N Sample.latest
           eq_refl eq_refl eq_refl Hmap eq_refl).
Defined.
